(** * Gfx6 graphics pipeline: register setup, signature and command emission

    A shallow embedding of [gfx6GraphicsPipeline.cpp] (namespace [Pal::Gfx6]).
    Hardware registers are 32-bit words ([Z] with explicit wrap-around); the
    C++ unions [{ bits; u32All }] are modelled by a word together with
    bit-field accessors.  Values that come from headers which are not part of
    the translated sources (register addresses and layouts, enumerator codes,
    ABI constants) are taken as parameters, collected in records; the
    theorems hold for every well-formed choice of them.  [PAL_ASSERT]s do not
    change the computed state; they are modelled where a property is about
    what they detect. *)

From Stdlib Require Import ZArith Bool List Lia.
From stdpp Require Import base option gmap.
Import ListNotations.

Local Open Scope Z_scope.

(** ** Machine integers *)

Definition u32 (z : Z) : Z := z mod 2 ^ 32.
Definition u16 (z : Z) : Z := z mod 2 ^ 16.
Definition u8 (z : Z) : Z := z mod 2 ^ 8.

(** ** Bit fields of a register word *)

Record Field := mkField { fpos : Z; fwidth : Z }.

Definition fmask (f : Field) : Z := Z.shiftl (Z.ones (fwidth f)) (fpos f).

(** [reg.bits.F] *)
Definition getField (f : Field) (r : Z) : Z :=
  Z.land (Z.shiftr r (fpos f)) (Z.ones (fwidth f)).

(** [reg.bits.F = v] *)
Definition setField (f : Field) (v r : Z) : Z :=
  Z.lor (Z.land r (Z.lnot (fmask f)))
        (Z.shiftl (Z.land v (Z.ones (fwidth f))) (fpos f)).

Definition fieldOk (f : Field) : bool :=
  (0 <=? fpos f) && (0 <? fwidth f) && (fpos f + fwidth f <=? 32).

Definition disjoint (f g : Field) : bool :=
  (fpos f + fwidth f <=? fpos g) || (fpos g + fwidth g <=? fpos f).

(** Every field of a register lies in the word and no two overlap. *)
Fixpoint layoutOk (fs : list Field) : bool :=
  match fs with
  | [] => true
  | f :: rest => fieldOk f && forallb (disjoint f) rest && layoutOk rest
  end.

Definition Zbool (b : bool) : Z := if b then 1 else 0.

(** ** Constants of the hardware and ABI headers *)

(** Register addresses ([mm*]). *)
Record RegAddr := mkRegAddr {
  mmVGT_SHADER_STAGES_EN : Z;
  mmVGT_GS_MODE : Z;
  mmVGT_TF_PARAM : Z;
  mmVGT_LS_HS_CONFIG : Z;
  mmVGT_REUSE_OFF : Z;
  mmVGT_VERTEX_REUSE_BLOCK_CNTL : Z;
  mmVGT_STRMOUT_CONFIG : Z;
  mmIA_MULTI_VGT_PARAM : Z;
  mmCB_COLOR_CONTROL : Z;
  mmCB_TARGET_MASK : Z;
  mmCB_SHADER_MASK : Z;
  mmPA_CL_CLIP_CNTL : Z;
  mmPA_CL_VTE_CNTL : Z;
  mmPA_SU_VTX_CNTL : Z;
  mmPA_SC_LINE_CNTL : Z;
  mmPA_SC_MODE_CNTL_1 : Z;
  mmSPI_INTERP_CONTROL_0 : Z;
  mmDB_SHADER_CONTROL : Z;
  mmDB_ALPHA_TO_MASK : Z;
  mmDB_RENDER_OVERRIDE : Z;
  mmSPI_SHADER_PGM_RSRC1_VS : Z;
  mmSPI_SHADER_PGM_RSRC2_VS : Z;
  mmSPI_SHADER_PGM_RSRC2_PS : Z;
  mmSPI_SHADER_LATE_ALLOC_VS__CI__VI : Z;
  mmSPI_SHADER_USER_DATA_LS_0 : Z;
  mmSPI_SHADER_USER_DATA_LS_15 : Z;
  mmSPI_SHADER_USER_DATA_HS_0 : Z;
  mmSPI_SHADER_USER_DATA_HS_15 : Z;
  mmSPI_SHADER_USER_DATA_ES_0 : Z;
  mmSPI_SHADER_USER_DATA_ES_15 : Z;
  mmSPI_SHADER_USER_DATA_GS_0 : Z;
  mmSPI_SHADER_USER_DATA_GS_15 : Z;
  mmSPI_SHADER_USER_DATA_VS_0 : Z;
  mmSPI_SHADER_USER_DATA_VS_15 : Z;
  mmSPI_SHADER_USER_DATA_PS_0 : Z;
  mmSPI_SHADER_USER_DATA_PS_15 : Z
}.

(** Bit fields of the register unions ([reg*::bits]) and the mask macros
    the code uses. *)
Record RegLayout := mkRegLayout {
  (* VGT_SHADER_STAGES_EN *)
  DYNAMIC_HS : Field;
  (* VGT_GS_MODE *)
  ONCHIP__CI__VI : Field;
  (* VGT_TF_PARAM *)
  PARTITIONING : Field;
  NUM_DS_WAVES_PER_SIMD : Field;
  DISTRIBUTION_MODE__VI : Field;
  (* VGT_LS_HS_CONFIG *)
  NUM_PATCHES : Field;
  HS_NUM_INPUT_CP : Field;
  (* VGT_VERTEX_REUSE_BLOCK_CNTL *)
  VTX_REUSE_DEPTH : Field;
  (* IA_MULTI_VGT_PARAM *)
  PRIMGROUP_SIZE : Field;
  PARTIAL_VS_WAVE_ON : Field;
  SWITCH_ON_EOP : Field;
  PARTIAL_ES_WAVE_ON : Field;
  SWITCH_ON_EOI : Field;
  WD_SWITCH_ON_EOP__CI__VI : Field;
  MAX_PRIMGRP_IN_WAVE__VI : Field;
  (* CB_COLOR_CONTROL *)
  DISABLE_DUAL_QUAD__VI : Field;
  MODE : Field;
  ROP3 : Field;
  (* CB_SHADER_MASK, CB_TARGET_MASK *)
  OUTPUT0_ENABLE : Field;
  TARGET0_ENABLE : Field;
  (* DB_ALPHA_TO_MASK *)
  ALPHA_TO_MASK_ENABLE : Field;
  (* PA_SC_LINE_CNTL *)
  EXPAND_LINE_WIDTH : Field;
  LAST_PIXEL : Field;
  PERPENDICULAR_ENDCAP_ENA : Field;
  DX10_DIAMOND_TEST_ENA : Field;
  (* PA_SC_MODE_CNTL_1 *)
  WALK_FENCE_SIZE : Field;
  PS_ITER_SAMPLE : Field;
  OUT_OF_ORDER_PRIMITIVE_ENABLE : Field;
  OUT_OF_ORDER_WATER_MARK : Field;
  (* GB_TILE_MODE0 *)
  PIPE_CONFIG : Field;
  (* DB_SHADER_CONTROL *)
  Z_EXPORT_ENABLE : Field;
  Z_ORDER : Field;
  (* DB_RENDER_OVERRIDE *)
  FORCE_SHADER_Z_ORDER : Field;
  FORCE_STENCIL_READ : Field;
  DISABLE_VIEWPORT_CLAMP : Field;
  (* SPI_INTERP_CONTROL_0 *)
  FLAT_SHADE_ENA : Field;
  PNT_SPRITE_ENA : Field;
  PNT_SPRITE_TOP_1 : Field;
  (* SPI_SHADER_PGM_RSRC1_VS, RSRC2_VS, RSRC2_PS *)
  VGPRS : Field;
  SGPRS : Field;
  SCRATCH_EN_VS : Field;
  SCRATCH_EN_PS : Field;
  (* SPI_SHADER_LATE_ALLOC_VS *)
  LIMIT : Field;
  (* SX_PS_DOWNCONVERT, SX_BLEND_OPT_EPSILON, SX_BLEND_OPT_CONTROL *)
  SX_PS_DOWNCONVERT__MRT0_MASK__VI : Z;
  SX_BLEND_OPT_EPSILON__MRT0_EPSILON_MASK__VI : Z;
  SX_BLEND_OPT_CONTROL__MRT0_COLOR_OPT_DISABLE_MASK__VI : Z;
  SX_BLEND_OPT_CONTROL__MRT0_ALPHA_OPT_DISABLE_MASK__VI : Z
}.

(** [SX_DOWNCONVERT_FORMAT] *)
Inductive SX_DOWNCONVERT_FORMAT :=
| SX_RT_EXPORT_NO_CONVERSION
| SX_RT_EXPORT_32_R
| SX_RT_EXPORT_32_A
| SX_RT_EXPORT_10_11_11
| SX_RT_EXPORT_2_10_10_10
| SX_RT_EXPORT_8_8_8_8
| SX_RT_EXPORT_5_6_5
| SX_RT_EXPORT_1_5_5_5
| SX_RT_EXPORT_4_4_4_4
| SX_RT_EXPORT_16_16_GR
| SX_RT_EXPORT_16_16_AR.

(** Enumerator codes written to or compared with register fields. *)
Record HwEnums := mkHwEnums {
  (* CB_COLOR_CONTROL.MODE *)
  CB_DISABLE : Z;
  CB_NORMAL : Z;
  CB_ELIMINATE_FAST_CLEAR : Z;
  CB_RESOLVE : Z;
  CB_FMASK_DECOMPRESS : Z;
  CB_DCC_DECOMPRESS__VI : Z;
  (* DB_SHADER_CONTROL.Z_ORDER *)
  LATE_Z : Z;
  EARLY_Z_THEN_LATE_Z : Z;
  RE_Z : Z;
  EARLY_Z_THEN_RE_Z : Z;
  (* VGT_TF_PARAM *)
  PART_FRAC_ODD : Z;
  NO_DIST : Z;
  (* VGT_GS_MODE.ONCHIP *)
  VgtGsModeOnchip : Z;
  (* GB_TILE_MODE0.PIPE_CONFIG: ADDR_SURF_P2 and ADDR_SURF_P2_RESERVED0..2 *)
  ADDR_SURF_P2_codes : list Z;
  (* ADDR_SURF_P4_*, ADDR_SURF_P8_*, ADDR_SURF_P16_* *)
  ADDR_SURF_P4_P8_P16_codes : list Z;
  (* numeric value of each SX_DOWNCONVERT_FORMAT enumerator *)
  sxFormatCode : SX_DOWNCONVERT_FORMAT -> Z;
  (* gfx6Chip.h *)
  NumSimdPerCu : Z;
  MaxVsExportSemantics : Z
}.

(** [Util::Abi::UserDataMapping] and the user-data constants. *)
Record AbiConsts := mkAbiConsts {
  MaxUserDataEntries : Z;
  InternalTblStartReg : Z;
  ConstBufTblStartReg : Z;
  GlobalTable : Z;
  PerShaderTable : Z;
  SpillTable : Z;
  BaseVertex : Z;
  BaseInstance : Z;
  DrawIndex : Z;
  Workgroup : Z;
  EsGsLdsSize : Z;
  ViewId : Z;
  StreamOutTable : Z;
  VertexBufferTable : Z;
  BaseIndex : Z;
  Log2IndexSize : Z
}.

Record Hw := mkHw {
  addr : RegAddr;
  lay : RegLayout;
  enums : HwEnums;
  abi : AbiConsts
}.

(** ** Device, settings and create info *)

Inductive GfxIpLevel := GfxIp6 | GfxIp7 | GfxIp8 | GfxIp8_1.

Definition gfxIpRank (l : GfxIpLevel) : Z :=
  match l with GfxIp6 => 1 | GfxIp7 => 2 | GfxIp8 => 3 | GfxIp8_1 => 4 end.

Definition isGfxIp6 (l : GfxIpLevel) : bool :=
  match l with GfxIp6 => true | _ => false end.

Definition isGfxIp7 (l : GfxIpLevel) : bool :=
  match l with GfxIp7 => true | _ => false end.

(** [GpuChipProperties] with its [gfx6] and [gfxip] parts flattened. *)
Record GpuChipProperties := mkChipProps {
  gfxLevel : GfxIpLevel;
  numShaderEngines : Z;
  gsVgtTableDepth : Z;
  numCuPerSh : Z;
  numCuAlwaysOnPerSh : Z;
  maxNumCuPerSh : Z;
  numSimdPerCu : Z;
  numWavesPerSimd : Z;
  numPhysicalSgprs : Z;
  numPhysicalVgprs : Z;
  maxLateAllocVsLimit : Z;
  rbPlus : bool;
  gbTileMode0 : Z
}.

Inductive OutOfOrderPrimMode :=
| OutOfOrderPrimDisable
| OutOfOrderPrimSafe
| OutOfOrderPrimAggressive
| OutOfOrderPrimAlways
| OutOfOrderPrimOther (raw : Z).

Definition isSafe (m : OutOfOrderPrimMode) : bool :=
  match m with OutOfOrderPrimSafe => true | _ => false end.

Definition isAggressive (m : OutOfOrderPrimMode) : bool :=
  match m with OutOfOrderPrimAggressive => true | _ => false end.

Definition isAlways (m : OutOfOrderPrimMode) : bool :=
  match m with OutOfOrderPrimAlways => true | _ => false end.

Definition isDisable (m : OutOfOrderPrimMode) : bool :=
  match m with OutOfOrderPrimDisable => true | _ => false end.

(** [Gfx6PalSettings] *)
Record Gfx6PalSettings := mkSettings {
  enableLoadIndexForObjectBinds : bool;
  gfx8RbPlusEnable : bool;
  waMiscGsNullPrim : bool;
  gfx7LateAllocVsOnCuAlwaysOn : bool;
  gfx7EnableOutOfOrderPrimitives : OutOfOrderPrimMode;
  gfx7OutOfOrderWatermark : Z;
  dsWavesPerSimdOverflow : Z;
  vsHalfPackThreshold : Z;
  numOffchipLdsBuffers : Z
}.

(** The [Gfx6::Device] as the pipeline sees it: chip properties, settings,
    public settings and workaround queries. *)
Record Device := mkDevice {
  ChipProperties : GpuChipProperties;
  Settings : Gfx6PalSettings;
  (* PalPublicSettings *)
  depthClampBasedOnZExport : bool;
  numScratchWavesPerCu : Z;
  (* Pal::Device settings: tossPointMode == TossPointAfterPs *)
  tossPointAfterPs : bool;
  (* PAL_CLIENT_INTERFACE_MAJOR_VERSION >= 524 *)
  clientInterfaceAtLeast524 : bool;
  LateAllocVsLimit : Z;
  UseFixedLateAllocVsLimit : bool;
  WaDbOverRasterization : bool;
  WaDbReZStencilCorruption : bool;
  WaShaderOffChipGsHang : bool;
  DegeneratePrimFilter : bool
}.

Inductive LogicOp :=
| LogicCopy | LogicClear | LogicAnd | LogicAndReverse | LogicAndInverted
| LogicNoop | LogicXor | LogicOr | LogicNor | LogicEquiv | LogicInvert
| LogicOrReverse | LogicCopyInverted | LogicOrInverted | LogicNand | LogicSet.

(** [ChNumFormat]: the enumerators the pipeline code names; every other
    enumerator is [OtherFormat] with its numeric value. *)
Inductive ChNumFormat :=
| X4Y4Z4W4_Unorm | X4Y4Z4W4_Uscaled
| X5Y6Z5_Unorm | X5Y6Z5_Uscaled
| X5Y5Z5W1_Unorm | X5Y5Z5W1_Uscaled
| X8_Unorm | X8_Snorm | X8_Uscaled | X8_Sscaled | X8_Uint | X8_Sint | X8_Srgb
| L8_Unorm | P8_Uint
| X8Y8_Unorm | X8Y8_Snorm | X8Y8_Uscaled | X8Y8_Sscaled | X8Y8_Uint
| X8Y8_Sint | X8Y8_Srgb | L8A8_Unorm
| X8Y8Z8W8_Unorm | X8Y8Z8W8_Snorm | X8Y8Z8W8_Uscaled | X8Y8Z8W8_Sscaled
| X8Y8Z8W8_Uint | X8Y8Z8W8_Sint | X8Y8Z8W8_Srgb
| X11Y11Z10_Float
| X10Y10Z10W2_Unorm | X10Y10Z10W2_Uscaled
| X16_Unorm | X16_Snorm | X16_Uscaled | X16_Sscaled | X16_Uint | X16_Sint
| X16_Float | L16_Unorm
| X16Y16_Unorm | X16Y16_Snorm | X16Y16_Uscaled | X16Y16_Sscaled | X16Y16_Uint
| X16Y16_Sint | X16Y16_Float
| X32_Uint | X32_Sint | X32_Float
| OtherFormat (raw : Z).

Record ColorTargetInfo := mkTarget {
  channelWriteMask : Z;          (* uint8 *)
  swizzledFormat : ChNumFormat   (* swizzledFormat.format *)
}.

Inductive ShadeMode := ShadeGouraud | ShadeFlat.
Inductive PointOrigin := PointUpperLeft | PointLowerLeft.

(** [GraphicsPipelineCreateInfo]: [rsState] and [cbState]. *)
Record GraphicsPipelineCreateInfo := mkCreateInfo {
  expandLineWidth : bool;
  rasterizeLastLinePixel : bool;
  perpLineEndCapsEnable : bool;
  outOfOrderPrimsEnable : bool;
  depthClampDisable : bool;
  forceSampleRateShading : bool;
  shadeMode : ShadeMode;
  pointCoordOrigin : PointOrigin;
  target : nat -> ColorTargetInfo;
  logicOp : LogicOp;
  dualSourceBlendEnable : bool;
  alphaToCoverageEnable : bool
}.

Definition MaxColorTargets : nat := 8.

(** ** Register vector of the pipeline binary *)

(** Modelled from the spec: [RegisterVector] (palPipelineAbiProcessor) is a
    sparse mapping from register address to value; [HasEntry] tells a
    register the binary specifies from an absent one, which reads as zero. *)
Abbreviation RegisterVector := (gmap Z Z).

Definition HasEntry (registers : RegisterVector) (offset : Z) (old : Z) : Z :=
  match registers !! offset with
  | Some v => v
  | None => old
  end.

Definition At (registers : RegisterVector) (offset : Z) : Z :=
  default 0 (registers !! offset).


(** ** The pipeline object *)

(** [m_regs.context]; [iaMultiVgtParam] is the array of [NumIaMultiVgtParam]
    register values. *)
Record ContextRegs := mkContextRegs {
  vgtShaderStagesEn : Z;
  vgtGsMode : Z;
  vgtReuseOff : Z;
  vgtTfParam : Z;
  vgtLsHsConfig : Z;
  vgtVertexReuseBlockCntl : Z;
  iaMultiVgtParam : list Z;
  cbColorControl : Z;
  cbTargetMask : Z;
  cbShaderMask : Z;
  paClClipCntl : Z;
  paClVteCntl : Z;
  paSuVtxCntl : Z;
  paScLineCntl : Z;
  paScModeCntl1 : Z;
  spiInterpControl0 : Z;
  dbShaderControl : Z;
  dbAlphaToMask : Z;
  dbRenderOverride : Z;
  sxPsDownconvert : Z;
  sxBlendOptEpsilon : Z;
  sxBlendOptControl : Z
}.

Definition set_vgtShaderStagesEn (v : Z) (r : ContextRegs) : ContextRegs :=
  mkContextRegs v (vgtGsMode r) (vgtReuseOff r) (vgtTfParam r) (vgtLsHsConfig r) (vgtVertexReuseBlockCntl r) (iaMultiVgtParam r) (cbColorControl r) (cbTargetMask r) (cbShaderMask r) (paClClipCntl r) (paClVteCntl r) (paSuVtxCntl r) (paScLineCntl r) (paScModeCntl1 r) (spiInterpControl0 r) (dbShaderControl r) (dbAlphaToMask r) (dbRenderOverride r) (sxPsDownconvert r) (sxBlendOptEpsilon r) (sxBlendOptControl r).

Definition set_vgtGsMode (v : Z) (r : ContextRegs) : ContextRegs :=
  mkContextRegs (vgtShaderStagesEn r) v (vgtReuseOff r) (vgtTfParam r) (vgtLsHsConfig r) (vgtVertexReuseBlockCntl r) (iaMultiVgtParam r) (cbColorControl r) (cbTargetMask r) (cbShaderMask r) (paClClipCntl r) (paClVteCntl r) (paSuVtxCntl r) (paScLineCntl r) (paScModeCntl1 r) (spiInterpControl0 r) (dbShaderControl r) (dbAlphaToMask r) (dbRenderOverride r) (sxPsDownconvert r) (sxBlendOptEpsilon r) (sxBlendOptControl r).

Definition set_vgtReuseOff (v : Z) (r : ContextRegs) : ContextRegs :=
  mkContextRegs (vgtShaderStagesEn r) (vgtGsMode r) v (vgtTfParam r) (vgtLsHsConfig r) (vgtVertexReuseBlockCntl r) (iaMultiVgtParam r) (cbColorControl r) (cbTargetMask r) (cbShaderMask r) (paClClipCntl r) (paClVteCntl r) (paSuVtxCntl r) (paScLineCntl r) (paScModeCntl1 r) (spiInterpControl0 r) (dbShaderControl r) (dbAlphaToMask r) (dbRenderOverride r) (sxPsDownconvert r) (sxBlendOptEpsilon r) (sxBlendOptControl r).

Definition set_vgtTfParam (v : Z) (r : ContextRegs) : ContextRegs :=
  mkContextRegs (vgtShaderStagesEn r) (vgtGsMode r) (vgtReuseOff r) v (vgtLsHsConfig r) (vgtVertexReuseBlockCntl r) (iaMultiVgtParam r) (cbColorControl r) (cbTargetMask r) (cbShaderMask r) (paClClipCntl r) (paClVteCntl r) (paSuVtxCntl r) (paScLineCntl r) (paScModeCntl1 r) (spiInterpControl0 r) (dbShaderControl r) (dbAlphaToMask r) (dbRenderOverride r) (sxPsDownconvert r) (sxBlendOptEpsilon r) (sxBlendOptControl r).

Definition set_vgtLsHsConfig (v : Z) (r : ContextRegs) : ContextRegs :=
  mkContextRegs (vgtShaderStagesEn r) (vgtGsMode r) (vgtReuseOff r) (vgtTfParam r) v (vgtVertexReuseBlockCntl r) (iaMultiVgtParam r) (cbColorControl r) (cbTargetMask r) (cbShaderMask r) (paClClipCntl r) (paClVteCntl r) (paSuVtxCntl r) (paScLineCntl r) (paScModeCntl1 r) (spiInterpControl0 r) (dbShaderControl r) (dbAlphaToMask r) (dbRenderOverride r) (sxPsDownconvert r) (sxBlendOptEpsilon r) (sxBlendOptControl r).

Definition set_vgtVertexReuseBlockCntl (v : Z) (r : ContextRegs) : ContextRegs :=
  mkContextRegs (vgtShaderStagesEn r) (vgtGsMode r) (vgtReuseOff r) (vgtTfParam r) (vgtLsHsConfig r) v (iaMultiVgtParam r) (cbColorControl r) (cbTargetMask r) (cbShaderMask r) (paClClipCntl r) (paClVteCntl r) (paSuVtxCntl r) (paScLineCntl r) (paScModeCntl1 r) (spiInterpControl0 r) (dbShaderControl r) (dbAlphaToMask r) (dbRenderOverride r) (sxPsDownconvert r) (sxBlendOptEpsilon r) (sxBlendOptControl r).

Definition set_iaMultiVgtParam (v : list Z) (r : ContextRegs) : ContextRegs :=
  mkContextRegs (vgtShaderStagesEn r) (vgtGsMode r) (vgtReuseOff r) (vgtTfParam r) (vgtLsHsConfig r) (vgtVertexReuseBlockCntl r) v (cbColorControl r) (cbTargetMask r) (cbShaderMask r) (paClClipCntl r) (paClVteCntl r) (paSuVtxCntl r) (paScLineCntl r) (paScModeCntl1 r) (spiInterpControl0 r) (dbShaderControl r) (dbAlphaToMask r) (dbRenderOverride r) (sxPsDownconvert r) (sxBlendOptEpsilon r) (sxBlendOptControl r).

Definition set_cbColorControl (v : Z) (r : ContextRegs) : ContextRegs :=
  mkContextRegs (vgtShaderStagesEn r) (vgtGsMode r) (vgtReuseOff r) (vgtTfParam r) (vgtLsHsConfig r) (vgtVertexReuseBlockCntl r) (iaMultiVgtParam r) v (cbTargetMask r) (cbShaderMask r) (paClClipCntl r) (paClVteCntl r) (paSuVtxCntl r) (paScLineCntl r) (paScModeCntl1 r) (spiInterpControl0 r) (dbShaderControl r) (dbAlphaToMask r) (dbRenderOverride r) (sxPsDownconvert r) (sxBlendOptEpsilon r) (sxBlendOptControl r).

Definition set_cbTargetMask (v : Z) (r : ContextRegs) : ContextRegs :=
  mkContextRegs (vgtShaderStagesEn r) (vgtGsMode r) (vgtReuseOff r) (vgtTfParam r) (vgtLsHsConfig r) (vgtVertexReuseBlockCntl r) (iaMultiVgtParam r) (cbColorControl r) v (cbShaderMask r) (paClClipCntl r) (paClVteCntl r) (paSuVtxCntl r) (paScLineCntl r) (paScModeCntl1 r) (spiInterpControl0 r) (dbShaderControl r) (dbAlphaToMask r) (dbRenderOverride r) (sxPsDownconvert r) (sxBlendOptEpsilon r) (sxBlendOptControl r).

Definition set_cbShaderMask (v : Z) (r : ContextRegs) : ContextRegs :=
  mkContextRegs (vgtShaderStagesEn r) (vgtGsMode r) (vgtReuseOff r) (vgtTfParam r) (vgtLsHsConfig r) (vgtVertexReuseBlockCntl r) (iaMultiVgtParam r) (cbColorControl r) (cbTargetMask r) v (paClClipCntl r) (paClVteCntl r) (paSuVtxCntl r) (paScLineCntl r) (paScModeCntl1 r) (spiInterpControl0 r) (dbShaderControl r) (dbAlphaToMask r) (dbRenderOverride r) (sxPsDownconvert r) (sxBlendOptEpsilon r) (sxBlendOptControl r).

Definition set_paClClipCntl (v : Z) (r : ContextRegs) : ContextRegs :=
  mkContextRegs (vgtShaderStagesEn r) (vgtGsMode r) (vgtReuseOff r) (vgtTfParam r) (vgtLsHsConfig r) (vgtVertexReuseBlockCntl r) (iaMultiVgtParam r) (cbColorControl r) (cbTargetMask r) (cbShaderMask r) v (paClVteCntl r) (paSuVtxCntl r) (paScLineCntl r) (paScModeCntl1 r) (spiInterpControl0 r) (dbShaderControl r) (dbAlphaToMask r) (dbRenderOverride r) (sxPsDownconvert r) (sxBlendOptEpsilon r) (sxBlendOptControl r).

Definition set_paClVteCntl (v : Z) (r : ContextRegs) : ContextRegs :=
  mkContextRegs (vgtShaderStagesEn r) (vgtGsMode r) (vgtReuseOff r) (vgtTfParam r) (vgtLsHsConfig r) (vgtVertexReuseBlockCntl r) (iaMultiVgtParam r) (cbColorControl r) (cbTargetMask r) (cbShaderMask r) (paClClipCntl r) v (paSuVtxCntl r) (paScLineCntl r) (paScModeCntl1 r) (spiInterpControl0 r) (dbShaderControl r) (dbAlphaToMask r) (dbRenderOverride r) (sxPsDownconvert r) (sxBlendOptEpsilon r) (sxBlendOptControl r).

Definition set_paSuVtxCntl (v : Z) (r : ContextRegs) : ContextRegs :=
  mkContextRegs (vgtShaderStagesEn r) (vgtGsMode r) (vgtReuseOff r) (vgtTfParam r) (vgtLsHsConfig r) (vgtVertexReuseBlockCntl r) (iaMultiVgtParam r) (cbColorControl r) (cbTargetMask r) (cbShaderMask r) (paClClipCntl r) (paClVteCntl r) v (paScLineCntl r) (paScModeCntl1 r) (spiInterpControl0 r) (dbShaderControl r) (dbAlphaToMask r) (dbRenderOverride r) (sxPsDownconvert r) (sxBlendOptEpsilon r) (sxBlendOptControl r).

Definition set_paScLineCntl (v : Z) (r : ContextRegs) : ContextRegs :=
  mkContextRegs (vgtShaderStagesEn r) (vgtGsMode r) (vgtReuseOff r) (vgtTfParam r) (vgtLsHsConfig r) (vgtVertexReuseBlockCntl r) (iaMultiVgtParam r) (cbColorControl r) (cbTargetMask r) (cbShaderMask r) (paClClipCntl r) (paClVteCntl r) (paSuVtxCntl r) v (paScModeCntl1 r) (spiInterpControl0 r) (dbShaderControl r) (dbAlphaToMask r) (dbRenderOverride r) (sxPsDownconvert r) (sxBlendOptEpsilon r) (sxBlendOptControl r).

Definition set_paScModeCntl1 (v : Z) (r : ContextRegs) : ContextRegs :=
  mkContextRegs (vgtShaderStagesEn r) (vgtGsMode r) (vgtReuseOff r) (vgtTfParam r) (vgtLsHsConfig r) (vgtVertexReuseBlockCntl r) (iaMultiVgtParam r) (cbColorControl r) (cbTargetMask r) (cbShaderMask r) (paClClipCntl r) (paClVteCntl r) (paSuVtxCntl r) (paScLineCntl r) v (spiInterpControl0 r) (dbShaderControl r) (dbAlphaToMask r) (dbRenderOverride r) (sxPsDownconvert r) (sxBlendOptEpsilon r) (sxBlendOptControl r).

Definition set_spiInterpControl0 (v : Z) (r : ContextRegs) : ContextRegs :=
  mkContextRegs (vgtShaderStagesEn r) (vgtGsMode r) (vgtReuseOff r) (vgtTfParam r) (vgtLsHsConfig r) (vgtVertexReuseBlockCntl r) (iaMultiVgtParam r) (cbColorControl r) (cbTargetMask r) (cbShaderMask r) (paClClipCntl r) (paClVteCntl r) (paSuVtxCntl r) (paScLineCntl r) (paScModeCntl1 r) v (dbShaderControl r) (dbAlphaToMask r) (dbRenderOverride r) (sxPsDownconvert r) (sxBlendOptEpsilon r) (sxBlendOptControl r).

Definition set_dbShaderControl (v : Z) (r : ContextRegs) : ContextRegs :=
  mkContextRegs (vgtShaderStagesEn r) (vgtGsMode r) (vgtReuseOff r) (vgtTfParam r) (vgtLsHsConfig r) (vgtVertexReuseBlockCntl r) (iaMultiVgtParam r) (cbColorControl r) (cbTargetMask r) (cbShaderMask r) (paClClipCntl r) (paClVteCntl r) (paSuVtxCntl r) (paScLineCntl r) (paScModeCntl1 r) (spiInterpControl0 r) v (dbAlphaToMask r) (dbRenderOverride r) (sxPsDownconvert r) (sxBlendOptEpsilon r) (sxBlendOptControl r).

Definition set_dbAlphaToMask (v : Z) (r : ContextRegs) : ContextRegs :=
  mkContextRegs (vgtShaderStagesEn r) (vgtGsMode r) (vgtReuseOff r) (vgtTfParam r) (vgtLsHsConfig r) (vgtVertexReuseBlockCntl r) (iaMultiVgtParam r) (cbColorControl r) (cbTargetMask r) (cbShaderMask r) (paClClipCntl r) (paClVteCntl r) (paSuVtxCntl r) (paScLineCntl r) (paScModeCntl1 r) (spiInterpControl0 r) (dbShaderControl r) v (dbRenderOverride r) (sxPsDownconvert r) (sxBlendOptEpsilon r) (sxBlendOptControl r).

Definition set_dbRenderOverride (v : Z) (r : ContextRegs) : ContextRegs :=
  mkContextRegs (vgtShaderStagesEn r) (vgtGsMode r) (vgtReuseOff r) (vgtTfParam r) (vgtLsHsConfig r) (vgtVertexReuseBlockCntl r) (iaMultiVgtParam r) (cbColorControl r) (cbTargetMask r) (cbShaderMask r) (paClClipCntl r) (paClVteCntl r) (paSuVtxCntl r) (paScLineCntl r) (paScModeCntl1 r) (spiInterpControl0 r) (dbShaderControl r) (dbAlphaToMask r) v (sxPsDownconvert r) (sxBlendOptEpsilon r) (sxBlendOptControl r).

Definition set_sxPsDownconvert (v : Z) (r : ContextRegs) : ContextRegs :=
  mkContextRegs (vgtShaderStagesEn r) (vgtGsMode r) (vgtReuseOff r) (vgtTfParam r) (vgtLsHsConfig r) (vgtVertexReuseBlockCntl r) (iaMultiVgtParam r) (cbColorControl r) (cbTargetMask r) (cbShaderMask r) (paClClipCntl r) (paClVteCntl r) (paSuVtxCntl r) (paScLineCntl r) (paScModeCntl1 r) (spiInterpControl0 r) (dbShaderControl r) (dbAlphaToMask r) (dbRenderOverride r) v (sxBlendOptEpsilon r) (sxBlendOptControl r).

Definition set_sxBlendOptEpsilon (v : Z) (r : ContextRegs) : ContextRegs :=
  mkContextRegs (vgtShaderStagesEn r) (vgtGsMode r) (vgtReuseOff r) (vgtTfParam r) (vgtLsHsConfig r) (vgtVertexReuseBlockCntl r) (iaMultiVgtParam r) (cbColorControl r) (cbTargetMask r) (cbShaderMask r) (paClClipCntl r) (paClVteCntl r) (paSuVtxCntl r) (paScLineCntl r) (paScModeCntl1 r) (spiInterpControl0 r) (dbShaderControl r) (dbAlphaToMask r) (dbRenderOverride r) (sxPsDownconvert r) v (sxBlendOptControl r).

Definition set_sxBlendOptControl (v : Z) (r : ContextRegs) : ContextRegs :=
  mkContextRegs (vgtShaderStagesEn r) (vgtGsMode r) (vgtReuseOff r) (vgtTfParam r) (vgtLsHsConfig r) (vgtVertexReuseBlockCntl r) (iaMultiVgtParam r) (cbColorControl r) (cbTargetMask r) (cbShaderMask r) (paClClipCntl r) (paClVteCntl r) (paSuVtxCntl r) (paScLineCntl r) (paScModeCntl1 r) (spiInterpControl0 r) (dbShaderControl r) (dbAlphaToMask r) (dbRenderOverride r) (sxPsDownconvert r) (sxBlendOptEpsilon r) v.

Definition NumIaMultiVgtParam : nat := 2.

(** [m_loadPath] *)
Record LoadPath := mkLoadPath {
  gpuVirtAddrCtx : Z;
  countCtx : Z;
  gpuVirtAddrSh : Z;
  countSh : Z
}.

Inductive HwShaderStage := Ls | Hs | Es | Gs | Vs | Ps.

Definition stageId (s : HwShaderStage) : nat :=
  match s with Ls => 0 | Hs => 1 | Es => 2 | Gs => 3 | Vs => 4 | Ps => 5 end%nat.

Definition stage_eqb (a b : HwShaderStage) : bool := Nat.eqb (stageId a) (stageId b).

(** [UserDataEntryMap]; [mappedEntry] has one element per user-SGPR of the
    stage's register window. *)
Record UserDataEntryMap := mkEntryMap {
  mappedEntry : list Z;
  userSgprCount : Z;
  firstUserSgprRegAddr : Z;
  spillTableRegAddr : Z
}.

(** [GraphicsPipelineSignature] *)
Record GraphicsPipelineSignature := mkSignature {
  stage : HwShaderStage -> UserDataEntryMap;
  vertexBufTableRegAddr : Z;
  streamOutTableRegAddr : Z;
  vertexOffsetRegAddr : Z;
  drawIndexRegAddr : Z;
  spillThreshold : Z;
  userDataLimit : Z;
  viewIdRegAddr : list Z;
  userDataHash : HwShaderStage -> Z
}.

Definition set_stage (v : HwShaderStage -> UserDataEntryMap) (r : GraphicsPipelineSignature) : GraphicsPipelineSignature :=
  mkSignature v (vertexBufTableRegAddr r) (streamOutTableRegAddr r) (vertexOffsetRegAddr r) (drawIndexRegAddr r) (spillThreshold r) (userDataLimit r) (viewIdRegAddr r) (userDataHash r).

Definition set_vertexBufTableRegAddr (v : Z) (r : GraphicsPipelineSignature) : GraphicsPipelineSignature :=
  mkSignature (stage r) v (streamOutTableRegAddr r) (vertexOffsetRegAddr r) (drawIndexRegAddr r) (spillThreshold r) (userDataLimit r) (viewIdRegAddr r) (userDataHash r).

Definition set_streamOutTableRegAddr (v : Z) (r : GraphicsPipelineSignature) : GraphicsPipelineSignature :=
  mkSignature (stage r) (vertexBufTableRegAddr r) v (vertexOffsetRegAddr r) (drawIndexRegAddr r) (spillThreshold r) (userDataLimit r) (viewIdRegAddr r) (userDataHash r).

Definition set_vertexOffsetRegAddr (v : Z) (r : GraphicsPipelineSignature) : GraphicsPipelineSignature :=
  mkSignature (stage r) (vertexBufTableRegAddr r) (streamOutTableRegAddr r) v (drawIndexRegAddr r) (spillThreshold r) (userDataLimit r) (viewIdRegAddr r) (userDataHash r).

Definition set_drawIndexRegAddr (v : Z) (r : GraphicsPipelineSignature) : GraphicsPipelineSignature :=
  mkSignature (stage r) (vertexBufTableRegAddr r) (streamOutTableRegAddr r) (vertexOffsetRegAddr r) v (spillThreshold r) (userDataLimit r) (viewIdRegAddr r) (userDataHash r).

Definition set_spillThreshold (v : Z) (r : GraphicsPipelineSignature) : GraphicsPipelineSignature :=
  mkSignature (stage r) (vertexBufTableRegAddr r) (streamOutTableRegAddr r) (vertexOffsetRegAddr r) (drawIndexRegAddr r) v (userDataLimit r) (viewIdRegAddr r) (userDataHash r).

Definition set_userDataLimit (v : Z) (r : GraphicsPipelineSignature) : GraphicsPipelineSignature :=
  mkSignature (stage r) (vertexBufTableRegAddr r) (streamOutTableRegAddr r) (vertexOffsetRegAddr r) (drawIndexRegAddr r) (spillThreshold r) v (viewIdRegAddr r) (userDataHash r).

Definition set_viewIdRegAddr (v : list Z) (r : GraphicsPipelineSignature) : GraphicsPipelineSignature :=
  mkSignature (stage r) (vertexBufTableRegAddr r) (streamOutTableRegAddr r) (vertexOffsetRegAddr r) (drawIndexRegAddr r) (spillThreshold r) (userDataLimit r) v (userDataHash r).

Definition set_userDataHash (v : HwShaderStage -> Z) (r : GraphicsPipelineSignature) : GraphicsPipelineSignature :=
  mkSignature (stage r) (vertexBufTableRegAddr r) (streamOutTableRegAddr r) (vertexOffsetRegAddr r) (drawIndexRegAddr r) (spillThreshold r) (userDataLimit r) (viewIdRegAddr r) v.

Definition UserDataNotMapped : Z := 0.

(** The state of the hardware-independent base class [Pal::GraphicsPipeline]
    that the Gfx6 pipeline reads through accessors; [perSampleShading] is
    [m_info.ps.flags.perSampleShading]. *)
Record PalGraphicsPipeline := mkPalPipeline {
  IsTessEnabled : bool;
  IsGsEnabled : bool;
  IsGsOnChip : bool;
  IsFastClearEliminate : bool;
  IsFmaskDecompress : bool;
  IsDccDecompress : bool;
  IsResolveFixedFunc : bool;
  IsInternal : bool;
  IsLateAllocVsLimit : bool;
  GetLateAllocVsLimit : Z;
  PsWritesUavs : bool;
  GetTargetMask : nat -> Z;
  perSampleShading : bool
}.

Definition SetIsGsOnChip (v : bool) (r : PalGraphicsPipeline) : PalGraphicsPipeline :=
  mkPalPipeline (IsTessEnabled r) (IsGsEnabled r) v (IsFastClearEliminate r) (IsFmaskDecompress r) (IsDccDecompress r) (IsResolveFixedFunc r) (IsInternal r) (IsLateAllocVsLimit r) (GetLateAllocVsLimit r) (PsWritesUavs r) (GetTargetMask r) (perSampleShading r).

Definition set_perSampleShading (v : bool) (r : PalGraphicsPipeline) : PalGraphicsPipeline :=
  mkPalPipeline (IsTessEnabled r) (IsGsEnabled r) (IsGsOnChip r) (IsFastClearEliminate r) (IsFmaskDecompress r) (IsDccDecompress r) (IsResolveFixedFunc r) (IsInternal r) (IsLateAllocVsLimit r) (GetLateAllocVsLimit r) (PsWritesUavs r) (GetTargetMask r) v.

(** [Gfx6::GraphicsPipeline]; [m_regs.sh] has the single register
    [spiShaderLateAllocVs]. *)
Record GraphicsPipeline := mkPipeline {
  base : PalGraphicsPipeline;
  m_regs_context : ContextRegs;
  m_regs_sh_spiShaderLateAllocVs : Z;
  m_loadPath : LoadPath;
  m_signature : GraphicsPipelineSignature
}.

Definition set_base (v : PalGraphicsPipeline) (r : GraphicsPipeline) : GraphicsPipeline :=
  mkPipeline v (m_regs_context r) (m_regs_sh_spiShaderLateAllocVs r) (m_loadPath r) (m_signature r).

Definition set_m_regs_context (v : ContextRegs) (r : GraphicsPipeline) : GraphicsPipeline :=
  mkPipeline (base r) v (m_regs_sh_spiShaderLateAllocVs r) (m_loadPath r) (m_signature r).

Definition set_m_regs_sh_spiShaderLateAllocVs (v : Z) (r : GraphicsPipeline) : GraphicsPipeline :=
  mkPipeline (base r) (m_regs_context r) v (m_loadPath r) (m_signature r).

Definition set_m_loadPath (v : LoadPath) (r : GraphicsPipeline) : GraphicsPipeline :=
  mkPipeline (base r) (m_regs_context r) (m_regs_sh_spiShaderLateAllocVs r) v (m_signature r).

Definition set_m_signature (v : GraphicsPipelineSignature) (r : GraphicsPipeline) : GraphicsPipeline :=
  mkPipeline (base r) (m_regs_context r) (m_regs_sh_spiShaderLateAllocVs r) (m_loadPath r) v.

Definition zeroContextRegs : ContextRegs :=
  mkContextRegs 0 0 0 0 0 0 (repeat 0 NumIaMultiVgtParam)
                0 0 0 0 0 0 0 0 0 0 0 0 0 0 0.

Definition NumUserDataRegisters : nat := 16.
Definition NumHwShaderStagesGfx : nat := 6.

Definition zeroEntryMap : UserDataEntryMap :=
  mkEntryMap (repeat 0 NumUserDataRegisters) 0 0 0.

(** [NullGfxSignature]; [NoUserDataSpilling] is a constant of the user-data
    headers. *)
Definition NullGfxSignature (NoUserDataSpilling : Z) : GraphicsPipelineSignature :=
  mkSignature (fun _ => zeroEntryMap)
              UserDataNotMapped UserDataNotMapped UserDataNotMapped
              UserDataNotMapped NoUserDataSpilling 0
              (repeat UserDataNotMapped NumHwShaderStagesGfx)
              (fun _ => 0).

(** The constructor: registers, load path and prefetch are zeroed, the
    signature is the null signature. *)
Definition GraphicsPipeline_new (b : PalGraphicsPipeline) (NoUserDataSpilling : Z)
  : GraphicsPipeline :=
  mkPipeline b zeroContextRegs 0 (mkLoadPath 0 0 0 0)
             (NullGfxSignature NoUserDataSpilling).

(** ** Out-of-order primitive eligibility *)

Record DepthStencilView := mkDsView {
  ReadOnlyDepth : bool;
  ReadOnlyStencil : bool
}.

Record DepthStencilState := mkDsState {
  IsDepthWriteEnabled : bool;
  IsStencilWriteEnabled : bool;
  CanDepthRunOutOfOrder : bool;
  CanStencilRunOutOfOrder : bool;
  DepthForcesOrdering : bool
}.

Record ColorBlendState := mkBlendState {
  IsBlendEnabled : nat -> bool;
  IsBlendCommutative : nat -> bool
}.

(** The loop over the colour targets; leaving the list of remaining targets
    early is the [break]. *)
Fixpoint CanDrawPrimsOutOfOrder_targets
  (p : GraphicsPipeline) (pBlendState : ColorBlendState)
  (mode : OutOfOrderPrimMode)
  (canRenderTargetRunOutOfOrder isDepthStencilWriteEnabled : bool)
  (targets : list nat) : bool :=
  match targets with
  | [] => true
  | i :: rest =>
      if 0 <? GetTargetMask (base p) i then
        let canBlendingRunOutOfOrder :=
          IsBlendCommutative pBlendState i && isAggressive mode in
        if (IsBlendEnabled pBlendState i || negb canRenderTargetRunOutOfOrder)
           && (negb canBlendingRunOutOfOrder || isDepthStencilWriteEnabled)
        then false
        else CanDrawPrimsOutOfOrder_targets p pBlendState mode
               canRenderTargetRunOutOfOrder isDepthStencilWriteEnabled rest
      else CanDrawPrimsOutOfOrder_targets p pBlendState mode
             canRenderTargetRunOutOfOrder isDepthStencilWriteEnabled rest
  end.

Definition isNull {A : Type} (ptr : option A) : bool :=
  match ptr with None => true | Some _ => false end.

(** [GraphicsPipeline::CanDrawPrimsOutOfOrder]; a null pointer is [None]. *)
Definition CanDrawPrimsOutOfOrder
  (p : GraphicsPipeline)
  (pDsView : option DepthStencilView)
  (pDepthStencilState : option DepthStencilState)
  (pBlendState : option ColorBlendState)
  (hasActiveQueries : Z)
  (gfx7EnableOutOfOrderPrimitives : OutOfOrderPrimMode) : bool :=
  let mode := gfx7EnableOutOfOrderPrimitives in
  if isSafe mode || isAggressive mode then
    if PsWritesUavs (base p) || isNull pDepthStencilState then false
    else
      match pDepthStencilState with
      | None => false
      | Some dss =>
          let isDepthStencilWriteEnabled :=
            match pDsView with
            | Some v =>
                let isDepthWriteEnabled :=
                  negb (ReadOnlyDepth v) && IsDepthWriteEnabled dss in
                let isStencilWriteEnabled :=
                  negb (ReadOnlyStencil v) && IsStencilWriteEnabled dss in
                isDepthWriteEnabled || isStencilWriteEnabled
            | None => false
            end in
          let canDepthStencilRunOutOfOrder :=
            if isSafe mode && negb (hasActiveQueries =? 0)
            then negb isDepthStencilWriteEnabled
            else negb isDepthStencilWriteEnabled
                 || (CanDepthRunOutOfOrder dss && CanStencilRunOutOfOrder dss) in
          if negb canDepthStencilRunOutOfOrder || isNull pDsView then false
          else
            let canRenderTargetRunOutOfOrder :=
              isAggressive mode && DepthForcesOrdering dss in
            match pBlendState with
            | Some bs =>
                CanDrawPrimsOutOfOrder_targets p bs mode
                  canRenderTargetRunOutOfOrder isDepthStencilWriteEnabled
                  (seq 0 MaxColorTargets)
            | None => canRenderTargetRunOutOfOrder
            end
      end
  else if negb (isAlways mode) then false
  else true.

(** ** Dynamic per-draw shader limits *)

Record DynamicGraphicsShaderInfo := mkDynShaderInfo {
  maxWavesPerCu : Z;
  cuEnableMask : Z
}.

Record DynamicGraphicsShaderInfos := mkDynShaderInfos {
  dyn_vs : DynamicGraphicsShaderInfo;
  dyn_hs : DynamicGraphicsShaderInfo;
  dyn_ds : DynamicGraphicsShaderInfo;
  dyn_gs : DynamicGraphicsShaderInfo;
  dyn_ps : DynamicGraphicsShaderInfo
}.

Record DynamicStageInfo := mkStageInfo {
  wavesPerSh : Z;
  stage_cuEnableMask : Z
}.

Record DynamicStageInfos := mkStageInfos {
  si_ps : DynamicStageInfo;
  si_vs : DynamicStageInfo;
  si_ls : DynamicStageInfo;
  si_hs : DynamicStageInfo;
  si_es : DynamicStageInfo;
  si_gs : DynamicStageInfo
}.

(** [GraphicsPipeline::CalcMaxWavesPerSh]: the WAVE_LIMIT field of the
    SPI_SHADER_PGM_RSRC3 registers. *)
Definition CalcMaxWavesPerSh (dev : Device) (maxWavesPerCu : Z) : Z :=
  let wavesPerSh := 0 in
  if 0 <? maxWavesPerCu then
    let gfx6ChipProps := ChipProperties dev in
    let numWavefrontsPerCu :=
      u32 (numSimdPerCu gfx6ChipProps * numWavesPerSimd gfx6ChipProps) in
    let maxWavesPerShGraphics :=
      u32 (maxNumCuPerSh gfx6ChipProps * numWavefrontsPerCu) in
    let MaxWavesPerShGraphicsUnitSize := 16 in
    let maxWavesPerSh := u32 (maxWavesPerCu * numCuPerSh gfx6ChipProps) in
    Z.min maxWavesPerShGraphics
          (Z.max 1 (maxWavesPerSh / MaxWavesPerShGraphicsUnitSize))
  else wavesPerSh.

(** The condition of the [PAL_ASSERT] in [CalcMaxWavesPerSh]: no one asks for
    more than all the waves of a compute unit. *)
Definition CalcMaxWavesPerSh_assert (dev : Device) (maxWavesPerCu : Z) : bool :=
  let gfx6ChipProps := ChipProperties dev in
  maxWavesPerCu
    <=? u32 (numSimdPerCu gfx6ChipProps * numWavesPerSimd gfx6ChipProps).

Definition CalcDynamicStageInfo (dev : Device)
  (shaderInfo : DynamicGraphicsShaderInfo) : DynamicStageInfo :=
  mkStageInfo (CalcMaxWavesPerSh dev (maxWavesPerCu shaderInfo))
              (cuEnableMask shaderInfo).

(** [GraphicsPipeline::CalcDynamicStageInfos], starting from the zeroed
    [DynamicStageInfos] of its caller. *)
Definition CalcDynamicStageInfos (dev : Device) (p : GraphicsPipeline)
  (graphicsInfo : DynamicGraphicsShaderInfos) : DynamicStageInfos :=
  let zero := mkStageInfo 0 0 in
  let calc := CalcDynamicStageInfo dev in
  if 2 <=? gfxIpRank (gfxLevel (ChipProperties dev)) then
    let ps := calc (dyn_ps graphicsInfo) in
    if IsTessEnabled (base p) then
      let ls := calc (dyn_vs graphicsInfo) in
      let hs := calc (dyn_hs graphicsInfo) in
      if IsGsEnabled (base p) then
        mkStageInfos ps zero ls hs
                     (calc (dyn_ds graphicsInfo)) (calc (dyn_gs graphicsInfo))
      else
        mkStageInfos ps (calc (dyn_ds graphicsInfo)) ls hs zero zero
    else
      if IsGsEnabled (base p) then
        mkStageInfos ps zero zero zero
                     (calc (dyn_vs graphicsInfo)) (calc (dyn_gs graphicsInfo))
      else
        mkStageInfos ps (calc (dyn_vs graphicsInfo)) zero zero zero zero
  else mkStageInfos zero zero zero zero zero zero.

(** ** Colour-buffer and RB+ registers *)

(** [Rop3]: the ROP3 code of a logic op (for CB_COLOR_CONTROL). *)
Definition Rop3 (logicOp : LogicOp) : Z :=
  match logicOp with
  | LogicCopy => 0xCC
  | LogicClear => 0x00
  | LogicAnd => 0x88
  | LogicAndReverse => 0x44
  | LogicAndInverted => 0x22
  | LogicNoop => 0xAA
  | LogicXor => 0x66
  | LogicOr => 0xEE
  | LogicNor => 0x11
  | LogicEquiv => 0x99
  | LogicInvert => 0x55
  | LogicOrReverse => 0xDD
  | LogicCopyInverted => 0x33
  | LogicOrInverted => 0xBB
  | LogicNand => 0x77
  | LogicSet => 0xFF
  end.

(** [SxDownConvertFormat] *)
Definition SxDownConvertFormat (format : ChNumFormat) : SX_DOWNCONVERT_FORMAT :=
  match format with
  | X4Y4Z4W4_Unorm | X4Y4Z4W4_Uscaled => SX_RT_EXPORT_4_4_4_4
  | X5Y6Z5_Unorm | X5Y6Z5_Uscaled => SX_RT_EXPORT_5_6_5
  | X5Y5Z5W1_Unorm | X5Y5Z5W1_Uscaled => SX_RT_EXPORT_1_5_5_5
  | X8_Unorm | X8_Snorm | X8_Uscaled | X8_Sscaled | X8_Uint | X8_Sint
  | X8_Srgb | L8_Unorm | P8_Uint
  | X8Y8_Unorm | X8Y8_Snorm | X8Y8_Uscaled | X8Y8_Sscaled | X8Y8_Uint
  | X8Y8_Sint | X8Y8_Srgb | L8A8_Unorm
  | X8Y8Z8W8_Unorm | X8Y8Z8W8_Snorm | X8Y8Z8W8_Uscaled | X8Y8Z8W8_Sscaled
  | X8Y8Z8W8_Uint | X8Y8Z8W8_Sint | X8Y8Z8W8_Srgb => SX_RT_EXPORT_8_8_8_8
  | X11Y11Z10_Float => SX_RT_EXPORT_10_11_11
  | X10Y10Z10W2_Unorm | X10Y10Z10W2_Uscaled => SX_RT_EXPORT_2_10_10_10
  | X16_Unorm | X16_Snorm | X16_Uscaled | X16_Sscaled | X16_Uint | X16_Sint
  | X16_Float | L16_Unorm => SX_RT_EXPORT_16_16_AR
  | X16Y16_Unorm | X16Y16_Snorm | X16Y16_Uscaled | X16Y16_Sscaled
  | X16Y16_Uint | X16Y16_Sint | X16Y16_Float => SX_RT_EXPORT_16_16_GR
  | X32_Uint | X32_Sint | X32_Float => SX_RT_EXPORT_32_R
  | OtherFormat _ => SX_RT_EXPORT_NO_CONVERSION
  end.

(** [SxBlendOptEpsilon]; the [default] case (which asserts) leaves 0. *)
Definition SxBlendOptEpsilon (sxDownConvertFormat : SX_DOWNCONVERT_FORMAT) : Z :=
  match sxDownConvertFormat with
  | SX_RT_EXPORT_32_R | SX_RT_EXPORT_32_A | SX_RT_EXPORT_16_16_GR
  | SX_RT_EXPORT_16_16_AR | SX_RT_EXPORT_10_11_11 => 0
  | SX_RT_EXPORT_2_10_10_10 => 3
  | SX_RT_EXPORT_8_8_8_8 => 6
  | SX_RT_EXPORT_5_6_5 => 11
  | SX_RT_EXPORT_1_5_5_5 => 13
  | SX_RT_EXPORT_4_4_4_4 => 15
  | SX_RT_EXPORT_NO_CONVERSION => 0
  end.

(** The condition under which [SxBlendOptEpsilon] reaches
    [PAL_ASSERT_ALWAYS]. *)
Definition SxBlendOptEpsilon_asserts (f : SX_DOWNCONVERT_FORMAT) : bool :=
  match f with SX_RT_EXPORT_NO_CONVERSION => true | _ => false end.

(** [SxBlendOptControl] *)
Definition SxBlendOptControl (l : RegLayout) (writeMask : Z) : Z :=
  let AlphaMask := 0x8 in
  let ColorMask := 0x7 in
  let colorOptDisable :=
    if negb (Z.land writeMask ColorMask =? 0) then 0
    else SX_BLEND_OPT_CONTROL__MRT0_COLOR_OPT_DISABLE_MASK__VI l in
  let alphaOptDisable :=
    if negb (Z.land writeMask AlphaMask =? 0) then 0
    else SX_BLEND_OPT_CONTROL__MRT0_ALPHA_OPT_DISABLE_MASK__VI l in
  Z.lor colorOptDisable alphaOptDisable.

(** [x &= ~m] and [x |= v] on 32-bit words. *)
Definition clearBits (x m : Z) : Z := Z.land x (Z.lnot m).
Definition orBits (x v : Z) : Z := Z.lor x (u32 v).

Definition isNoConversion (f : SX_DOWNCONVERT_FORMAT) : bool :=
  match f with SX_RT_EXPORT_NO_CONVERSION => true | _ => false end.

(** The three RB+ registers a slot update touches. *)
Record RbPlusRegs := mkRbPlus {
  rb_sxPsDownconvert : Z;
  rb_sxBlendOptEpsilon : Z;
  rb_sxBlendOptControl : Z
}.

(** [GraphicsPipeline::SetupRbPlusRegistersForSlot] *)
Definition SetupRbPlusRegistersForSlot (hw : Hw)
  (slot : nat) (writeMask : Z) (swizzledFormat : ChNumFormat)
  (regs : RbPlusRegs) : RbPlusRegs :=
  let l := lay hw in
  let bitShift := 4 * Z.of_nat slot in
  let downConvertFormat := SxDownConvertFormat swizzledFormat in
  let blendOptControl := SxBlendOptControl l writeMask in
  let blendOptEpsilon :=
    if isNoConversion downConvertFormat then 0
    else SxBlendOptEpsilon downConvertFormat in
  mkRbPlus
    (orBits (clearBits (rb_sxPsDownconvert regs)
                       (Z.shiftl (SX_PS_DOWNCONVERT__MRT0_MASK__VI l) bitShift))
            (Z.shiftl (sxFormatCode (enums hw) downConvertFormat) bitShift))
    (orBits (clearBits (rb_sxBlendOptEpsilon regs)
                       (Z.shiftl (SX_BLEND_OPT_EPSILON__MRT0_EPSILON_MASK__VI l)
                                 bitShift))
            (Z.shiftl blendOptEpsilon bitShift))
    (orBits (clearBits (rb_sxBlendOptControl regs)
                       (Z.shiftl
                          (Z.lor (SX_BLEND_OPT_CONTROL__MRT0_COLOR_OPT_DISABLE_MASK__VI l)
                                 (SX_BLEND_OPT_CONTROL__MRT0_ALPHA_OPT_DISABLE_MASK__VI l))
                          bitShift))
            (Z.shiftl blendOptControl bitShift)).

(** Modelled from the spec: the uploader collaborator
    ([GraphicsPipelineUploader], declared in the pipeline headers) is sized
    from the planner's preload budgets when the upload begins, receives the
    registers of the LoadBlock one by one, and reports the GPU addresses and
    counts of the two register groups. *)
Record GraphicsPipelineUploader := mkUploader {
  CtxRegisterCount : Z;
  ShRegisterCount : Z;
  EnableLoadIndexPath : bool;
  CtxRegGpuVirtAddr : Z;
  ShRegGpuVirtAddr : Z;
  ctxRegs : list (Z * Z);
  shRegs : list (Z * Z)
}.

Definition AddCtxReg (a v : Z) (u : GraphicsPipelineUploader)
  : GraphicsPipelineUploader :=
  mkUploader (CtxRegisterCount u) (ShRegisterCount u) (EnableLoadIndexPath u)
             (CtxRegGpuVirtAddr u) (ShRegGpuVirtAddr u)
             (ctxRegs u ++ [(a, v)]) (shRegs u).

Definition AddShReg (a v : Z) (u : GraphicsPipelineUploader)
  : GraphicsPipelineUploader :=
  mkUploader (CtxRegisterCount u) (ShRegisterCount u) (EnableLoadIndexPath u)
             (CtxRegGpuVirtAddr u) (ShRegGpuVirtAddr u)
             (ctxRegs u) (shRegs u ++ [(a, v)]).

Definition AddCtxRegs (rs : list (Z * Z)) (u : GraphicsPipelineUploader)
  : GraphicsPipelineUploader :=
  fold_left (fun u' r => AddCtxReg (fst r) (snd r) u') rs u.

(** The colour mode and the write masks a pipeline ends up with. *)
Record ColorModeRegs := mkColorMode {
  cm_cbColorControl : Z;
  cm_cbShaderMask : Z;
  cm_cbTargetMask : Z
}.

(** [GraphicsPipeline::SetupNonShaderRegisters], the chain of special
    pipeline kinds: from the colour control register and the two masks as
    the binary and the create info give them to their values after the
    chain. *)
Definition SetupNonShaderRegisters_colorMode (hw : Hw) (p : GraphicsPipeline)
  (createInfo : GraphicsPipelineCreateInfo) (r : ColorModeRegs) : ColorModeRegs :=
  let l := lay hw in
  let e := enums hw in
  let cc := cm_cbColorControl r in
  if IsFastClearEliminate (base p) then
    mkColorMode
      (setField (ROP3 l) (Rop3 LogicCopy)
                (setField (MODE l) (CB_ELIMINATE_FAST_CLEAR e) cc))
      0xF 0xF
  else if IsFmaskDecompress (base p) then
    mkColorMode
      (setField (ROP3 l) (Rop3 LogicCopy)
                (setField (MODE l) (CB_FMASK_DECOMPRESS e) cc))
      0xF 0xF
  else if IsDccDecompress (base p) then
    mkColorMode
      (setField (ROP3 l) (Rop3 LogicCopy)
                (setField (MODE l) (CB_DCC_DECOMPRESS__VI e) cc))
      0xF 0xF
  else if IsResolveFixedFunc (base p) then
    mkColorMode
      (setField (ROP3 l) (Rop3 LogicCopy)
                (setField (MODE l) (CB_RESOLVE e) cc))
      (setField (OUTPUT0_ENABLE l) 0xF (cm_cbShaderMask r))
      (setField (TARGET0_ENABLE l) 0xF (cm_cbTargetMask r))
  else if (cm_cbShaderMask r =? 0) || (cm_cbTargetMask r =? 0) then
    mkColorMode (setField (MODE l) (CB_DISABLE e) cc)
                (cm_cbShaderMask r) (cm_cbTargetMask r)
  else
    mkColorMode
      (setField (ROP3 l) (Rop3 (logicOp createInfo))
                (setField (MODE l) (CB_NORMAL e) cc))
      (cm_cbShaderMask r) (cm_cbTargetMask r).

(** [GraphicsPipeline::SetupNonShaderRegisters] *)
Definition SetupNonShaderRegisters (dev : Device) (hw : Hw)
  (createInfo : GraphicsPipelineCreateInfo) (registers : RegisterVector)
  (pUploader : GraphicsPipelineUploader) (p : GraphicsPipeline)
  : GraphicsPipeline * GraphicsPipelineUploader :=
  let l := lay hw in
  let e := enums hw in
  let a := addr hw in
  let chipProps := ChipProperties dev in
  let settings := Settings dev in
  let ctx := m_regs_context p in
  let paScLineCntl' :=
    setField (PERPENDICULAR_ENDCAP_ENA l) (Zbool (perpLineEndCapsEnable createInfo))
      (setField (LAST_PIXEL l) (Zbool (rasterizeLastLinePixel createInfo))
         (setField (DX10_DIAMOND_TEST_ENA l) 1
            (setField (EXPAND_LINE_WIDTH l) (Zbool (expandLineWidth createInfo))
               (paScLineCntl ctx)))) in
  let cbShaderMask0 := At registers (mmCB_SHADER_MASK a) in
  (* CB_TARGET_MASK is determined by the RT write masks in the create info. *)
  let cbTargetMask0 :=
    fold_left
      (fun acc rt =>
         let rtShift := Z.of_nat rt * 4 in
         orBits acc (Z.shiftl (Z.land (channelWriteMask (target createInfo rt)) 0xF)
                              rtShift))
      (seq 0 MaxColorTargets) (cbTargetMask ctx) in
  let cm := SetupNonShaderRegisters_colorMode hw p createInfo
              (mkColorMode (cbColorControl ctx) cbShaderMask0 cbTargetMask0) in
  let cbShaderMask' := cm_cbShaderMask cm in
  (* dual-source blending without both exports: disable CB writes *)
  let cbColorControl1 :=
    if dualSourceBlendEnable createInfo
       && ((Z.land cbShaderMask' 0x0F =? 0) || (Z.land cbShaderMask' 0xF0 =? 0))
    then setField (MODE l) (CB_DISABLE e) (cm_cbColorControl cm)
    else cm_cbColorControl cm in
  let dbAlphaToMask' :=
    setField (ALPHA_TO_MASK_ENABLE l) (Zbool (alphaToCoverageEnable createInfo))
             (dbAlphaToMask ctx) in
  let rb0 := mkRbPlus (sxPsDownconvert ctx) (sxBlendOptEpsilon ctx)
                      (sxBlendOptControl ctx) in
  let '(cbColorControl2, rb) :=
    if gfx8RbPlusEnable settings
       && negb (dualSourceBlendEnable createInfo)
       && negb (getField (MODE l) cbColorControl1 =? CB_RESOLVE e)
    then
      (setField (DISABLE_DUAL_QUAD__VI l) 0 cbColorControl1,
       fold_left
         (fun regs slot =>
            SetupRbPlusRegistersForSlot hw slot
              (u8 (channelWriteMask (target createInfo slot)))
              (swizzledFormat (target createInfo slot)) regs)
         (seq 0 MaxColorTargets) rb0)
    else if rbPlus chipProps
    then (setField (DISABLE_DUAL_QUAD__VI l) 1 cbColorControl1, rb0)
    else (cbColorControl1, rb0) in
  (* toss point: disable all colour buffer writes *)
  let cbTargetMask' :=
    if negb (IsInternal (base p)) && tossPointAfterPs dev then 0
    else cm_cbTargetMask cm in
  let ctx' :=
    set_sxBlendOptControl (rb_sxBlendOptControl rb)
      (set_sxBlendOptEpsilon (rb_sxBlendOptEpsilon rb)
         (set_sxPsDownconvert (rb_sxPsDownconvert rb)
            (set_dbAlphaToMask dbAlphaToMask'
               (set_cbTargetMask cbTargetMask'
                  (set_cbShaderMask cbShaderMask'
                     (set_cbColorControl cbColorControl2
                        (set_paScLineCntl paScLineCntl' ctx))))))) in
  let pUploader' :=
    if EnableLoadIndexPath pUploader then
      AddCtxRegs [ (mmPA_SC_LINE_CNTL a, paScLineCntl ctx');
                   (mmCB_COLOR_CONTROL a, cbColorControl ctx');
                   (mmCB_SHADER_MASK a, cbShaderMask ctx');
                   (mmCB_TARGET_MASK a, cbTargetMask ctx') ] pUploader
    else pUploader in
  (set_m_regs_context ctx' p, pUploader').

(** ** Primitive grouping: IA_MULTI_VGT_PARAM *)

(** [GraphicsPipeline::FixupIaMultiVgtParamOnGfx7Plus] *)
Definition FixupIaMultiVgtParamOnGfx7Plus (dev : Device) (hw : Hw)
  (p : GraphicsPipeline) (forceWdSwitchOnEop : bool) (iaMultiVgtParam : Z) : Z :=
  let l := lay hw in
  let chipProps := ChipProperties dev in
  let r := iaMultiVgtParam in
  let r :=
    if IsGsEnabled (base p) then
      let GsTableDepthReservedForEsWave := 3 in
      let GsPrimsPerEsThread := 256 in
      if u32 (gsVgtTableDepth chipProps - GsTableDepthReservedForEsWave)
           <=? GsPrimsPerEsThread / (getField (PRIMGROUP_SIZE l) r + 1)
      then setField (PARTIAL_ES_WAVE_ON l) 1 r
      else r
    else r in
  let r :=
    if gfxIpRank GfxIp8 <=? gfxIpRank (gfxLevel chipProps) then
      let r := setField (MAX_PRIMGRP_IN_WAVE__VI l) 2 r in
      let r :=
        if negb (getField (DISTRIBUTION_MODE__VI l) (vgtTfParam (m_regs_context p))
                 =? NO_DIST (enums hw))
        then
          if IsGsEnabled (base p)
          then setField (PARTIAL_ES_WAVE_ON l) 1 r
          else setField (PARTIAL_VS_WAVE_ON l) 1 r
        else r in
      if IsGsEnabled (base p) && WaShaderOffChipGsHang dev
      then setField (PARTIAL_VS_WAVE_ON l) 1 r
      else r
    else r in
  let r :=
    if (getField (SWITCH_ON_EOP l) r =? 1)
       || (numShaderEngines chipProps <=? 2)
       || forceWdSwitchOnEop
    then setField (WD_SWITCH_ON_EOP__CI__VI l) 1 r
    else
      setField (PARTIAL_ES_WAVE_ON l) 1
        (setField (SWITCH_ON_EOI l) 1
           (setField (WD_SWITCH_ON_EOP__CI__VI l) 0 r)) in
  let requirePartialVsWaveWithEoi :=
    isGfxIp7 (gfxLevel chipProps) && (2 <? numShaderEngines chipProps) in
  if (getField (SWITCH_ON_EOI l) r =? 1) && requirePartialVsWaveWithEoi
  then setField (PARTIAL_VS_WAVE_ON l) 1 r
  else r.

(** [GraphicsPipeline::SetupIaMultiVgtParam], up to the loop over the two
    register copies: the register as the binary and the active stages
    determine it. *)
Definition SetupIaMultiVgtParam_base (dev : Device) (hw : Hw)
  (registers : RegisterVector) (p : GraphicsPipeline) : Z :=
  let l := lay hw in
  let settings := Settings dev in
  let iaMultiVgtParam := HasEntry registers (mmIA_MULTI_VGT_PARAM (addr hw)) 0 in
  let vgtLsHsConfig' := vgtLsHsConfig (m_regs_context p) in
  let r := iaMultiVgtParam in
  let r :=
    if IsTessEnabled (base p) then
      setField (PRIMGROUP_SIZE l) (getField (NUM_PATCHES l) vgtLsHsConfig' - 1) r
    else if IsGsEnabled (base p)
            && negb (getField (HS_NUM_INPUT_CP l) vgtLsHsConfig' =? 0) then
      setField (PRIMGROUP_SIZE l)
               (256 / getField (HS_NUM_INPUT_CP l) vgtLsHsConfig' - 1) r
    else r in
  let r :=
    if IsGsEnabled (base p) && IsGsOnChip (base p)
    then setField (PARTIAL_ES_WAVE_ON l) 1 r
    else r in
  if waMiscGsNullPrim settings && IsTessEnabled (base p) && IsGsEnabled (base p)
  then setField (PARTIAL_VS_WAVE_ON l) 1 r
  else r.

(** [GraphicsPipeline::SetupIaMultiVgtParam] *)
Definition SetupIaMultiVgtParam (dev : Device) (hw : Hw)
  (registers : RegisterVector) (p : GraphicsPipeline) : GraphicsPipeline :=
  let chipProps := ChipProperties dev in
  let iaMultiVgtParam := SetupIaMultiVgtParam_base dev hw registers p in
  let regs :=
    map (fun idx =>
           if gfxIpRank GfxIp6 <? gfxIpRank (gfxLevel chipProps)
           then FixupIaMultiVgtParamOnGfx7Plus dev hw p (negb (Nat.eqb idx 0))
                                               iaMultiVgtParam
           else iaMultiVgtParam)
        (seq 0 NumIaMultiVgtParam) in
  set_m_regs_context (set_iaMultiVgtParam regs (m_regs_context p)) p.

(** The [PAL_ASSERT] at the end of the loop of [SetupIaMultiVgtParam]: with
    stream output on two shader engines and PARTIAL_ES_WAVE_ON clear, the
    group size stays below 256. *)
Definition SetupIaMultiVgtParam_assert (dev : Device) (hw : Hw)
  (registers : RegisterVector) (p : GraphicsPipeline) : bool :=
  let l := lay hw in
  let vgtStrmoutConfig := HasEntry registers (mmVGT_STRMOUT_CONFIG (addr hw)) 0 in
  forallb
    (fun r =>
       if negb (vgtStrmoutConfig =? 0)
          && (numShaderEngines (ChipProperties dev) =? 2)
          && (getField (PARTIAL_ES_WAVE_ON l) r =? 0)
       then getField (PRIMGROUP_SIZE l) r <? 256
       else true)
    (iaMultiVgtParam (m_regs_context (SetupIaMultiVgtParam dev hw registers p))).

(** ** Late-alloc wave limit *)

(** [GraphicsPipeline::SetupLateAllocVs]: the local [lateAllocLimit] before
    it is biased by one and clamped. *)
Definition SetupLateAllocVs_limit (dev : Device) (hw : Hw)
  (registers : RegisterVector) (p : GraphicsPipeline) : Z :=
  let l := lay hw in
  let a := addr hw in
  let settings := Settings dev in
  let spiShaderPgmRsrc1Vs := At registers (mmSPI_SHADER_PGM_RSRC1_VS a) in
  let spiShaderPgmRsrc2Vs := At registers (mmSPI_SHADER_PGM_RSRC2_VS a) in
  let spiShaderPgmRsrc2Ps := At registers (mmSPI_SHADER_PGM_RSRC2_PS a) in
  let lateAllocLimit := 0 in
  let targetLateAllocLimit :=
    if IsLateAllocVsLimit (base p) then GetLateAllocVsLimit (base p)
    else LateAllocVsLimit dev in
  let vsNumSgpr := getField (SGPRS l) spiShaderPgmRsrc1Vs * 8 in
  let vsNumVgpr := getField (VGPRS l) spiShaderPgmRsrc1Vs * 4 in
  if UseFixedLateAllocVsLimit dev then targetLateAllocLimit
  else if (0 <? targetLateAllocLimit) && (0 <? vsNumSgpr) && (0 <? vsNumVgpr) then
    let gpuInfo := ChipProperties dev in
    let lateAllocLimit := targetLateAllocLimit in
    let numCuForLateAllocVs :=
      if gfx7LateAllocVsOnCuAlwaysOn settings then numCuAlwaysOnPerSh gpuInfo
      else numCuPerSh gpuInfo in
    let simdPerSh := u32 (numCuForLateAllocVs * NumSimdPerCu (enums hw)) in
    let maxSgprVsWaves := u32 (numPhysicalSgprs gpuInfo / vsNumSgpr * simdPerSh) in
    let maxVgprVsWaves := u32 (numPhysicalVgprs gpuInfo / vsNumVgpr * simdPerSh) in
    let maxVsWaves := Z.min maxSgprVsWaves maxVgprVsWaves in
    let maxVsWaves :=
      if negb (getField (SCRATCH_EN_VS l) spiShaderPgmRsrc2Vs =? 0)
         && negb (getField (SCRATCH_EN_PS l) spiShaderPgmRsrc2Ps =? 0)
      then
        let maxScratchWavesPerSh :=
          u32 (numCuForLateAllocVs * numScratchWavesPerCu dev) in
        Z.min maxVsWaves maxScratchWavesPerSh
      else maxVsWaves in
    if maxVsWaves <=? lateAllocLimit
    then (if 1 <? maxVsWaves then maxVsWaves - 1 else 1)
    else lateAllocLimit
  else lateAllocLimit.

(** [GraphicsPipeline::SetupLateAllocVs] *)
Definition SetupLateAllocVs (dev : Device) (hw : Hw)
  (registers : RegisterVector) (pUploader : GraphicsPipelineUploader)
  (p : GraphicsPipeline) : GraphicsPipeline * GraphicsPipelineUploader :=
  let chipProps := ChipProperties dev in
  if negb (isGfxIp6 (gfxLevel chipProps)) then
    let lateAllocLimit := SetupLateAllocVs_limit dev hw registers p in
    let maxLateAllocLimit := u32 (maxLateAllocVsLimit chipProps - 1) in
    let lateAllocLimit :=
      if 0 <? lateAllocLimit then lateAllocLimit - 1 else 0 in
    let reg :=
      setField (LIMIT (lay hw)) (Z.min lateAllocLimit maxLateAllocLimit)
               (m_regs_sh_spiShaderLateAllocVs p) in
    (set_m_regs_sh_spiShaderLateAllocVs reg p,
     if EnableLoadIndexPath pUploader
     then AddShReg (mmSPI_SHADER_LATE_ALLOC_VS__CI__VI (addr hw)) reg pUploader
     else pUploader)
  else (p, pUploader).

(** ** Registers shared by several hardware stages *)

(** [GraphicsPipeline::SetupCommonRegisters] *)
Definition SetupCommonRegisters (dev : Device) (hw : Hw)
  (createInfo : GraphicsPipelineCreateInfo) (registers : RegisterVector)
  (pUploader : GraphicsPipelineUploader) (p : GraphicsPipeline)
  : GraphicsPipeline * GraphicsPipelineUploader :=
  let l := lay hw in
  let e := enums hw in
  let a := addr hw in
  let chipProps := ChipProperties dev in
  let settings := Settings dev in
  let ctx := m_regs_context p in
  let paClClipCntl' := At registers (mmPA_CL_CLIP_CNTL a) in
  let paClVteCntl' := At registers (mmPA_CL_VTE_CNTL a) in
  let paSuVtxCntl' := At registers (mmPA_SU_VTX_CNTL a) in
  let sc := At registers (mmPA_SC_MODE_CNTL_1 a) in
  let MaxOutOfOrderWatermark := 7 in
  let sc := setField (OUT_OF_ORDER_WATER_MARK l)
                     (Z.min MaxOutOfOrderWatermark (gfx7OutOfOrderWatermark settings))
                     sc in
  let sc :=
    if outOfOrderPrimsEnable createInfo
       && negb (isDisable (gfx7EnableOutOfOrderPrimitives settings))
    then setField (OUT_OF_ORDER_PRIMITIVE_ENABLE l) 1 sc
    else sc in
  let pipeConfig := getField (PIPE_CONFIG l) (gbTileMode0 chipProps) in
  let sc :=
    if existsb (Z.eqb pipeConfig) (ADDR_SURF_P2_codes e)
    then setField (WALK_FENCE_SIZE l) 2 sc
    else if existsb (Z.eqb pipeConfig) (ADDR_SURF_P4_P8_P16_codes e)
    then setField (WALK_FENCE_SIZE l) 3 sc
    else sc in
  let sc :=
    if clientInterfaceAtLeast524 dev
    then setField (PS_ITER_SAMPLE l)
                  (Z.lor (getField (PS_ITER_SAMPLE l) sc)
                         (Zbool (forceSampleRateShading createInfo))) sc
    else sc in
  let perSampleShading' := negb (getField (PS_ITER_SAMPLE l) sc =? 0) in
  let dbShaderControl' := At registers (mmDB_SHADER_CONTROL a) in
  let ro := dbRenderOverride ctx in
  let ro :=
    if depthClampBasedOnZExport dev
    then setField (DISABLE_VIEWPORT_CLAMP l)
                  (Zbool (depthClampDisable createInfo
                          && negb (getField (Z_EXPORT_ENABLE l) dbShaderControl' =? 0)))
                  ro
    else setField (DISABLE_VIEWPORT_CLAMP l)
                  (Zbool (depthClampDisable createInfo)) ro in
  let ro := setField (FORCE_SHADER_Z_ORDER l)
                     (Zbool (getField (Z_ORDER l) dbShaderControl' =? RE_Z e)) ro in
  let ro :=
    if WaDbReZStencilCorruption dev
       && ((getField (Z_ORDER l) dbShaderControl' =? RE_Z e)
           || (getField (Z_ORDER l) dbShaderControl' =? EARLY_Z_THEN_RE_Z e))
    then setField (FORCE_STENCIL_READ l) 1 ro
    else ro in
  let vgtReuseOff' := At registers (mmVGT_REUSE_OFF a) in
  let tf := HasEntry registers (mmVGT_TF_PARAM a) (vgtTfParam ctx) in
  let vgtLsHsConfig' :=
    HasEntry registers (mmVGT_LS_HS_CONFIG a) (vgtLsHsConfig ctx) in
  let tf :=
    if negb (getField (NUM_DS_WAVES_PER_SIMD l) tf =? 0)
       && negb (getField (DYNAMIC_HS l) (vgtShaderStagesEn ctx) =? 0)
    then setField (NUM_DS_WAVES_PER_SIMD l) (dsWavesPerSimdOverflow settings) tf
    else tf in
  let vr := setField (VTX_REUSE_DEPTH l) 14 (vgtVertexReuseBlockCntl ctx) in
  let vr :=
    if (gfxIpRank GfxIp8 <=? gfxIpRank (gfxLevel chipProps))
       && (MaxVsExportSemantics e <=? vsHalfPackThreshold settings)
    then
      if negb (DegeneratePrimFilter dev)
         || (IsTessEnabled (base p)
             && negb (getField (PARTITIONING l) tf =? PART_FRAC_ODD e))
      then setField (VTX_REUSE_DEPTH l) 30 vr
      else vr
    else vr in
  let ic := HasEntry registers (mmSPI_INTERP_CONTROL_0 a) (spiInterpControl0 ctx) in
  let ic := setField (FLAT_SHADE_ENA l)
                     (Zbool match shadeMode createInfo with
                            | ShadeFlat => true | _ => false end) ic in
  let ic :=
    if negb (getField (PNT_SPRITE_ENA l) ic =? 0)
    then setField (PNT_SPRITE_TOP_1 l)
                  (Zbool match pointCoordOrigin createInfo with
                         | PointUpperLeft => false | _ => true end) ic
    else ic in
  let ctx' :=
    set_spiInterpControl0 ic
      (set_vgtVertexReuseBlockCntl vr
         (set_vgtLsHsConfig vgtLsHsConfig'
            (set_vgtTfParam tf
               (set_vgtReuseOff vgtReuseOff'
                  (set_dbRenderOverride ro
                     (set_dbShaderControl dbShaderControl'
                        (set_paScModeCntl1 sc
                           (set_paSuVtxCntl paSuVtxCntl'
                              (set_paClVteCntl paClVteCntl'
                                 (set_paClClipCntl paClClipCntl' ctx)))))))))) in
  let p := set_base (set_perSampleShading perSampleShading' (base p))
                    (set_m_regs_context ctx' p) in
  let pUploader :=
    if EnableLoadIndexPath pUploader then
      AddCtxRegs [ (mmPA_CL_CLIP_CNTL a, paClClipCntl ctx');
                   (mmPA_CL_VTE_CNTL a, paClVteCntl ctx');
                   (mmPA_SU_VTX_CNTL a, paSuVtxCntl ctx');
                   (mmDB_SHADER_CONTROL a, dbShaderControl ctx');
                   (mmVGT_SHADER_STAGES_EN a, vgtShaderStagesEn ctx');
                   (mmVGT_GS_MODE a, vgtGsMode ctx');
                   (mmVGT_REUSE_OFF a, vgtReuseOff ctx');
                   (mmVGT_TF_PARAM a, vgtTfParam ctx');
                   (mmVGT_VERTEX_REUSE_BLOCK_CNTL a, vgtVertexReuseBlockCntl ctx');
                   (mmSPI_INTERP_CONTROL_0 a, spiInterpControl0 ctx') ] pUploader
    else pUploader in
  let '(p, pUploader) := SetupLateAllocVs dev hw registers pUploader p in
  (SetupIaMultiVgtParam dev hw registers p, pUploader).

(** ** User-data signature *)

(** The pipeline part of [CodeObjectMetadata]: a field is [Some] when its
    [hasEntry] bit is set. *)
Record CodeObjectMetadata := mkMetadata {
  streamOutTableAddress : option Z;
  indirectUserDataTableAddresses : option (list Z);
  md_spillThreshold : option Z;
  md_userDataLimit : option Z
}.

(** What the assertions and alerts of the signature builder report; each
    carries the register address at which it fired. *)
Inductive SignatureCheck :=
| MultipleIndirectTables
| IndirectTableInOtherStage (offset : Z)
| OffsetBelowFirstUserSgpr (offset : Z)
| GlobalTableMisplaced (offset : Z)
| PerShaderTableMisplaced (offset : Z)
| WorkgroupInGraphics (offset : Z)
| SecondVertexBufferTable (offset : Z)
| SecondStreamOutTable (offset : Z)
| SecondBaseVertex (offset : Z)
| BaseInstanceNotAfterBaseVertex (offset : Z)
| SecondDrawIndex (offset : Z)
| Gfx9OnlyMapping (offset : Z)
| IllegalUserDataRegister (offset : Z)
| StreamOutTableSpilled
| IndirectTableSpilled.

(** The state the scan of one stage threads through: the signature, the
    pointee of [pEsGsLdsSizeReg] ([None] for a null pointer) and the checks
    that failed so far. *)
Record SigState := mkSigState {
  sig : GraphicsPipelineSignature;
  esGsLdsSizeReg : option Z;
  failed : list SignatureCheck
}.

Definition BaseRegAddr (a : RegAddr) (s : HwShaderStage) : Z :=
  match s with
  | Ls => mmSPI_SHADER_USER_DATA_LS_0 a
  | Hs => mmSPI_SHADER_USER_DATA_HS_0 a
  | Es => mmSPI_SHADER_USER_DATA_ES_0 a
  | Gs => mmSPI_SHADER_USER_DATA_GS_0 a
  | Vs => mmSPI_SHADER_USER_DATA_VS_0 a
  | Ps => mmSPI_SHADER_USER_DATA_PS_0 a
  end.

Definition LastRegAddr (a : RegAddr) (s : HwShaderStage) : Z :=
  match s with
  | Ls => mmSPI_SHADER_USER_DATA_LS_15 a
  | Hs => mmSPI_SHADER_USER_DATA_HS_15 a
  | Es => mmSPI_SHADER_USER_DATA_ES_15 a
  | Gs => mmSPI_SHADER_USER_DATA_GS_15 a
  | Vs => mmSPI_SHADER_USER_DATA_VS_15 a
  | Ps => mmSPI_SHADER_USER_DATA_PS_15 a
  end.

Definition setStage (s : HwShaderStage) (m : UserDataEntryMap)
  (f : HwShaderStage -> UserDataEntryMap) : HwShaderStage -> UserDataEntryMap :=
  fun s' => if stage_eqb s s' then m else f s'.

Definition setStageHash (s : HwShaderStage) (h : Z)
  (f : HwShaderStage -> Z) : HwShaderStage -> Z :=
  fun s' => if stage_eqb s s' then h else f s'.

(** [PAL_ASSERT(cond)]: a failing condition is recorded. *)
Definition check (cond : bool) (c : SignatureCheck) (st : SigState) : SigState :=
  if cond then st else mkSigState (sig st) (esGsLdsSizeReg st) (failed st ++ [c]).

Definition withSig (f : GraphicsPipelineSignature -> GraphicsPipelineSignature)
  (st : SigState) : SigState :=
  mkSigState (f (sig st)) (esGsLdsSizeReg st) (failed st).

(** [GraphicsPipeline::SetupSignatureForStageFromElf], the body of the loop
    for a register [offset] that the binary maps to [value]. *)
Definition SetupSignatureForStageFromElf_entry (hw : Hw)
  (stage' : HwShaderStage)
  (streamOutTableEntryPlus1 indirectTableEntryPlus1 : Z)
  (vbTableStage : HwShaderStage)
  (offset value : Z) (st : SigState) : SigState :=
  let c := abi hw in
  let a := addr hw in
  let pStage := stage (sig st) stage' in
  if u32 (value + 1) =? streamOutTableEntryPlus1 then
    if stage_eqb stage' Vs
    then withSig (set_streamOutTableRegAddr offset) st
    else st
  else if u32 (value + 1) =? indirectTableEntryPlus1 then
    let st :=
      if stage_eqb stage' vbTableStage
      then withSig (set_vertexBufTableRegAddr offset) st
      else st in
    check (stage_eqb stage' vbTableStage) (IndirectTableInOtherStage offset) st
  else if value <? MaxUserDataEntries c then
    let first :=
      if firstUserSgprRegAddr pStage =? UserDataNotMapped then offset
      else firstUserSgprRegAddr pStage in
    let userSgprId := u8 (offset - first) in
    let pStage' :=
      mkEntryMap (<[Z.to_nat userSgprId := u8 value]> (mappedEntry pStage))
                 (Z.max (u8 (userSgprId + 1)) (userSgprCount pStage))
                 first
                 (spillTableRegAddr pStage) in
    check (first <=? offset) (OffsetBelowFirstUserSgpr offset)
          (withSig (fun g => set_stage (setStage stage' pStage' (stage g)) g) st)
  else if value =? GlobalTable c then
    check (offset =? BaseRegAddr a stage' + InternalTblStartReg c)
          (GlobalTableMisplaced offset) st
  else if value =? PerShaderTable c then
    check (offset =? BaseRegAddr a stage' + ConstBufTblStartReg c)
          (PerShaderTableMisplaced offset) st
  else if value =? SpillTable c then
    let pStage' :=
      mkEntryMap (mappedEntry pStage) (userSgprCount pStage)
                 (firstUserSgprRegAddr pStage) offset in
    withSig (fun g => set_stage (setStage stage' pStage' (stage g)) g) st
  else if value =? Workgroup c then
    check false (WorkgroupInGraphics offset) st
  else if value =? VertexBufferTable c then
    withSig (set_vertexBufTableRegAddr offset)
      (check ((vertexBufTableRegAddr (sig st) =? offset)
              || (vertexBufTableRegAddr (sig st) =? UserDataNotMapped))
             (SecondVertexBufferTable offset) st)
  else if value =? StreamOutTable c then
    withSig (set_streamOutTableRegAddr offset)
      (check ((streamOutTableRegAddr (sig st) =? offset)
              || (streamOutTableRegAddr (sig st) =? UserDataNotMapped))
             (SecondStreamOutTable offset) st)
  else if value =? BaseVertex c then
    withSig (set_vertexOffsetRegAddr offset)
      (check ((vertexOffsetRegAddr (sig st) =? offset)
              || (vertexOffsetRegAddr (sig st) =? UserDataNotMapped))
             (SecondBaseVertex offset) st)
  else if value =? BaseInstance c then
    withSig (set_vertexOffsetRegAddr (u16 (offset - 1)))
      (check ((vertexOffsetRegAddr (sig st) =? offset - 1)
              || (vertexOffsetRegAddr (sig st) =? UserDataNotMapped))
             (BaseInstanceNotAfterBaseVertex offset) st)
  else if value =? DrawIndex c then
    withSig (set_drawIndexRegAddr offset)
      (check ((drawIndexRegAddr (sig st) =? offset)
              || (drawIndexRegAddr (sig st) =? UserDataNotMapped))
             (SecondDrawIndex offset) st)
  else if (value =? EsGsLdsSize c) && negb (isNull (esGsLdsSizeReg st)) then
    mkSigState (sig st) (Some offset) (failed st)
  else if (value =? BaseIndex c) || (value =? Log2IndexSize c) then
    check false (Gfx9OnlyMapping offset) st
  else if value =? ViewId c then
    withSig (fun g => set_viewIdRegAddr
                        (<[stageId stage' := offset]> (viewIdRegAddr g)) g) st
  else
    check false (IllegalUserDataRegister offset) st.

(** The register addresses [lo], [lo + 1], ..., [hi] in ascending order. *)
Definition regRange (lo hi : Z) : list Z :=
  map (fun k => lo + Z.of_nat k) (seq 0 (Z.to_nat (hi - lo + 1))).

Definition vbTableStageOf (p : GraphicsPipeline) : HwShaderStage :=
  if IsTessEnabled (base p) then Ls
  else if IsGsEnabled (base p) then Es else Vs.

(** [GraphicsPipeline::SetupSignatureForStageFromElf]; [hash] is
    [MetroHash64::Hash] over the stage's [UserDataEntryMap]. *)
Definition SetupSignatureForStageFromElf (hw : Hw)
  (hash : UserDataEntryMap -> Z) (p : GraphicsPipeline)
  (metadata : CodeObjectMetadata) (registers : RegisterVector)
  (stage' : HwShaderStage) (st : SigState) : SigState :=
  let streamOutTableEntryPlus1 :=
    match streamOutTableAddress metadata with
    | None => UserDataNotMapped
    | Some v => u16 v
    end in
  let indirectTableEntryPlus1 :=
    match indirectUserDataTableAddresses metadata with
    | None => UserDataNotMapped
    | Some vs => u16 (nth 0 vs 0)
    end in
  let vbTableStage := vbTableStageOf p in
  let st :=
    match indirectUserDataTableAddresses metadata with
    | None => st
    | Some vs => check (forallb (Z.eqb 0) (tl vs)) MultipleIndirectTables st
    end in
  let st :=
    fold_left
      (fun st offset =>
         match registers !! offset with
         | Some value =>
             SetupSignatureForStageFromElf_entry hw stage'
               streamOutTableEntryPlus1 indirectTableEntryPlus1 vbTableStage
               offset value st
         | None => st
         end)
      (regRange (BaseRegAddr (addr hw) stage') (LastRegAddr (addr hw) stage'))
      st in
  let st :=
    if stage_eqb stage' Vs
       && (streamOutTableRegAddr (sig st) =? UserDataNotMapped)
       && negb (streamOutTableEntryPlus1 =? UserDataNotMapped)
    then check (streamOutTableEntryPlus1 - 1 <? spillThreshold (sig st))
               StreamOutTableSpilled st
    else st in
  let st :=
    if stage_eqb stage' vbTableStage
       && (vertexBufTableRegAddr (sig st) =? UserDataNotMapped)
       && negb (indirectTableEntryPlus1 =? UserDataNotMapped)
    then check (indirectTableEntryPlus1 - 1 <? spillThreshold (sig st))
               IndirectTableSpilled st
    else st in
  withSig (fun g => set_userDataHash
                      (setStageHash stage' (hash (stage g stage')) (userDataHash g))
                      g) st.

(** Modelled from the spec: [PackArray] (palInlineFuncs.h) compacts the
    view-id addresses so that the mapped ones are at the front, without
    gaps. *)
Definition PackArray (arr : list Z) (emptyEntry : Z) : list Z :=
  let kept := filter (fun x => negb (x =? emptyEntry)) arr in
  kept ++ repeat emptyEntry (length arr - length kept).

(** The result of scanning with a given [pEsGsLdsSizeReg]. *)
Definition scanStage (hw : Hw) (hash : UserDataEntryMap -> Z)
  (p : GraphicsPipeline) (metadata : CodeObjectMetadata)
  (registers : RegisterVector) (stage' : HwShaderStage)
  (pEsGsLdsSizeReg : option Z) (st : SigState) : SigState :=
  SetupSignatureForStageFromElf hw hash p metadata registers stage'
    (mkSigState (sig st) pEsGsLdsSizeReg (failed st)).

(** [GraphicsPipeline::SetupSignatureFromElf]: the new signature, the
    pointees of [pEsGsLdsSizeRegGs] and [pEsGsLdsSizeRegVs], and the failed
    checks. *)
Definition SetupSignatureFromElf (hw : Hw) (hash : UserDataEntryMap -> Z)
  (p : GraphicsPipeline) (metadata : CodeObjectMetadata)
  (registers : RegisterVector) (esGsLdsSizeRegGs esGsLdsSizeRegVs : Z)
  : GraphicsPipelineSignature * Z * Z * list SignatureCheck :=
  let g := m_signature p in
  let g :=
    match md_spillThreshold metadata with
    | Some v => set_spillThreshold (u16 v) g
    | None => g
    end in
  let g :=
    match md_userDataLimit metadata with
    | Some v => set_userDataLimit (u16 v) g
    | None => g
    end in
  let scan := scanStage hw hash p metadata registers in
  let st := mkSigState g None [] in
  let st :=
    if IsTessEnabled (base p) then scan Hs None (scan Ls None st) else st in
  let '(st, regGs) :=
    if IsGsEnabled (base p) then
      let st := scan Gs (Some esGsLdsSizeRegGs) (scan Es None st) in
      (st, default esGsLdsSizeRegGs (esGsLdsSizeReg st))
    else (st, esGsLdsSizeRegGs) in
  let st := scan Vs (Some esGsLdsSizeRegVs) st in
  let regVs := default esGsLdsSizeRegVs (esGsLdsSizeReg st) in
  let st := scan Ps None st in
  (set_viewIdRegAddr (PackArray (viewIdRegAddr (sig st)) UserDataNotMapped) (sig st),
   regGs, regVs, failed st).

(** ** Early initialisation and compilation *)

(** [GraphicsPipelineLoadInfo], the part the pipeline itself fills in. *)
Record GraphicsPipelineLoadInfo := mkLoadInfo {
  usesOnchipTess : bool;
  usesGs : bool;
  usesOnChipGs : bool;
  esGsLdsSizeRegGs : Z;
  esGsLdsSizeRegVs : Z;
  loadedShRegCount : Z;
  loadedCtxRegCount : Z
}.

Definition zeroLoadInfo : GraphicsPipelineLoadInfo :=
  mkLoadInfo false false false 0 0 0 0.

(** The stage collaborators ([PipelineChunkLsHs], [PipelineChunkEsGs],
    [PipelineChunkVsPs]), whose code is outside the translated file: what
    their early initialisation does to the load info, and the context and
    SH registers their late initialisation hands to the uploader. *)
Record PipelineChunks := mkChunks {
  chunkLsHs_EarlyInit : GraphicsPipelineLoadInfo -> GraphicsPipelineLoadInfo;
  chunkEsGs_EarlyInit : GraphicsPipelineLoadInfo -> GraphicsPipelineLoadInfo;
  chunkVsPs_EarlyInit :
    RegisterVector -> GraphicsPipelineLoadInfo -> GraphicsPipelineLoadInfo;
  chunkLsHs_LateInit : GraphicsPipelineLoadInfo -> list (Z * Z) * list (Z * Z);
  chunkEsGs_LateInit : GraphicsPipelineLoadInfo -> list (Z * Z) * list (Z * Z);
  chunkVsPs_LateInit : GraphicsPipelineLoadInfo -> list (Z * Z) * list (Z * Z)
}.

Definition BaseLoadedShRegCount : Z := 1.

Definition BaseLoadedCntxRegCount : Z :=
  1 + 1 + 1 + 1 + 1 + 1 + 1 + 1 + 1 + 1 + 1 + 1 + 1 + 1.

(** [GraphicsPipeline::EarlyInit]: the pipeline, the load info and the
    checks of the signature builder that failed. *)
Definition EarlyInit (dev : Device) (hw : Hw) (chunks : PipelineChunks)
  (hash : UserDataEntryMap -> Z)
  (metadata : CodeObjectMetadata) (registers : RegisterVector)
  (p : GraphicsPipeline) (pInfo : GraphicsPipelineLoadInfo)
  : GraphicsPipeline * GraphicsPipelineLoadInfo * list SignatureCheck :=
  let l := lay hw in
  let a := addr hw in
  let ctx := m_regs_context p in
  let ctx := set_vgtShaderStagesEn (At registers (mmVGT_SHADER_STAGES_EN a)) ctx in
  let ctx := set_vgtGsMode (HasEntry registers (mmVGT_GS_MODE a) (vgtGsMode ctx)) ctx in
  let p := set_m_regs_context ctx p in
  let p :=
    if IsGsEnabled (base p)
       && (getField (ONCHIP__CI__VI l) (vgtGsMode ctx) =? VgtGsModeOnchip (enums hw))
    then set_base (SetIsGsOnChip true (base p)) p
    else p in
  let '(g, regGs, regVs, failed') :=
    SetupSignatureFromElf hw hash p metadata registers
      (esGsLdsSizeRegGs pInfo) (esGsLdsSizeRegVs pInfo) in
  let p := set_m_signature g p in
  let settings := Settings dev in
  let '(shCount, ctxCount) :=
    if enableLoadIndexForObjectBinds settings
    then (BaseLoadedShRegCount, BaseLoadedCntxRegCount)
    else (loadedShRegCount pInfo, loadedCtxRegCount pInfo) in
  let ctx := m_regs_context p in
  let ctx := set_vgtTfParam (HasEntry registers (mmVGT_TF_PARAM a) (vgtTfParam ctx)) ctx in
  let p := set_m_regs_context ctx p in
  let usesOnchipTess' :=
    if IsTessEnabled (base p)
       && ((getField (DYNAMIC_HS l) (vgtShaderStagesEn ctx) =? 0)
           || (0 <? getField (NUM_DS_WAVES_PER_SIMD l) (vgtTfParam ctx)))
    then true
    else usesOnchipTess pInfo in
  let pInfo :=
    mkLoadInfo usesOnchipTess' (IsGsEnabled (base p)) (IsGsOnChip (base p))
               regGs regVs shCount ctxCount in
  let pInfo :=
    if IsTessEnabled (base p) then chunkLsHs_EarlyInit chunks pInfo else pInfo in
  let pInfo :=
    if IsGsEnabled (base p) then chunkEsGs_EarlyInit chunks pInfo else pInfo in
  let pInfo := chunkVsPs_EarlyInit chunks registers pInfo in
  (p, pInfo, failed').

(** The [PAL_ASSERT]s that close [EarlyInit]. *)
Definition EarlyInit_assert (dev : Device) (pInfo : GraphicsPipelineLoadInfo) : bool :=
  if enableLoadIndexForObjectBinds (Settings dev)
  then negb (loadedShRegCount pInfo =? 0) && negb (loadedCtxRegCount pInfo =? 0)
  else (loadedShRegCount pInfo =? 0) && (loadedCtxRegCount pInfo =? 0).

Inductive Result := Success | Error (code : Z).

Definition isSuccess (r : Result) : bool :=
  match r with Success => true | Error _ => false end.

(** What the collaborators of [HwlInit] report: the metadata reader, the
    relocation and upload step, and the end of the upload. *)
Record InitOutcome := mkInitOutcome {
  unpackResult : Result;
  unpackedRegisters : RegisterVector;
  uploadResult : Result;
  uploadEnablesLoadIndexPath : bool;
  uploadCtxRegGpuVirtAddr : Z;
  uploadShRegGpuVirtAddr : Z;
  endResult : Result
}.

Definition addChunkRegs (rs : list (Z * Z) * list (Z * Z))
  (u : GraphicsPipelineUploader) : GraphicsPipelineUploader :=
  fold_left (fun u' r => AddShReg (fst r) (snd r) u') (snd rs)
            (AddCtxRegs (fst rs) u).

(** [GraphicsPipeline::HwlInit]: the result code and the pipeline object.
    The content hash, the prefetch blob, the ring sizes and the telemetry
    events are outside the model. *)
Definition HwlInit (dev : Device) (hw : Hw) (chunks : PipelineChunks)
  (hash : UserDataEntryMap -> Z) (ext : InitOutcome)
  (createInfo : GraphicsPipelineCreateInfo) (metadata : CodeObjectMetadata)
  (p : GraphicsPipeline) : Result * GraphicsPipeline :=
  let registers := unpackedRegisters ext in
  match unpackResult ext with
  | Success =>
      let '(p, loadInfo, _) :=
        EarlyInit dev hw chunks hash metadata registers p zeroLoadInfo in
      let uploader :=
        mkUploader (loadedCtxRegCount loadInfo) (loadedShRegCount loadInfo)
                   (uploadEnablesLoadIndexPath ext)
                   (uploadCtxRegGpuVirtAddr ext) (uploadShRegGpuVirtAddr ext)
                   [] [] in
      match uploadResult ext with
      | Success =>
          let uploader :=
            if IsTessEnabled (base p)
            then addChunkRegs (chunkLsHs_LateInit chunks loadInfo) uploader
            else uploader in
          let uploader :=
            if IsGsEnabled (base p)
            then addChunkRegs (chunkEsGs_LateInit chunks loadInfo) uploader
            else uploader in
          let uploader := addChunkRegs (chunkVsPs_LateInit chunks loadInfo) uploader in
          let '(p, uploader) :=
            SetupCommonRegisters dev hw createInfo registers uploader p in
          let '(p, uploader) :=
            SetupNonShaderRegisters dev hw createInfo registers uploader p in
          let p :=
            if EnableLoadIndexPath uploader then
              set_m_loadPath
                (mkLoadPath (CtxRegGpuVirtAddr uploader) (CtxRegisterCount uploader)
                            (ShRegGpuVirtAddr uploader) (ShRegisterCount uploader))
                p
            else p in
          (endResult ext, p)
      | Error c => (Error c, p)
      end
  | Error c => (Error c, p)
  end.

(** ** Command emission *)

Inductive PipelineChunk := ChunkLsHs | ChunkEsGs | ChunkVsPs.

(** The PM4 packets the pipeline writes.  What a stage collaborator writes
    is one item that records the template argument ([UseLoadIndexPath]) and
    the dynamic stage infos it was called with. *)
Inductive Pm4 :=
| SetOneShReg (regAddr value : Z)
| SetOneContextReg (regAddr value : Z)
| SetSeqContextRegs (startRegAddr endRegAddr : Z) (values : list Z)
| LoadShRegsIndex (gpuVirtAddr count : Z)
| LoadContextRegsIndex (gpuVirtAddr count : Z)
| ContextRegRmw (regAddr mask value : Z)
| ChunkShCommands (chunk : PipelineChunk) (useLoadIndexPath : bool)
                  (first second : DynamicStageInfo)
| ChunkContextCommands (chunk : PipelineChunk) (useLoadIndexPath : bool).

Record CmdStream := mkCmdStream {
  Pm4OptimizerEnabled : bool
}.

(** The stage collaborators' part of [WriteShCommands], shared by its two
    branches. *)
Definition chunksWriteShCommands (p : GraphicsPipeline)
  (useLoadIndexPath : bool) (stageInfos : DynamicStageInfos) : list Pm4 :=
  (if IsTessEnabled (base p)
   then [ChunkShCommands ChunkLsHs useLoadIndexPath (si_ls stageInfos) (si_hs stageInfos)]
   else [])
  ++ (if IsGsEnabled (base p)
      then [ChunkShCommands ChunkEsGs useLoadIndexPath (si_es stageInfos) (si_gs stageInfos)]
      else [])
  ++ [ChunkShCommands ChunkVsPs useLoadIndexPath (si_vs stageInfos) (si_ps stageInfos)].

(** [GraphicsPipeline::WriteShCommands]; [pCmdSpace] is what the command
    stream holds so far, the result what it holds afterwards. *)
Definition WriteShCommands (dev : Device) (hw : Hw) (p : GraphicsPipeline)
  (pCmdStream : CmdStream) (pCmdSpace : list Pm4)
  (graphicsInfo : DynamicGraphicsShaderInfos) : list Pm4 :=
  let stageInfos := CalcDynamicStageInfos dev p graphicsInfo in
  if (countSh (m_loadPath p) =? 0) || Pm4OptimizerEnabled pCmdStream then
    let pCmdSpace :=
      if gfxIpRank GfxIp7 <=? gfxIpRank (gfxLevel (ChipProperties dev))
      then pCmdSpace
             ++ [SetOneShReg (mmSPI_SHADER_LATE_ALLOC_VS__CI__VI (addr hw))
                             (m_regs_sh_spiShaderLateAllocVs p)]
      else pCmdSpace in
    pCmdSpace ++ chunksWriteShCommands p false stageInfos
  else
    pCmdSpace
      ++ [LoadShRegsIndex (gpuVirtAddrSh (m_loadPath p)) (countSh (m_loadPath p))]
      ++ chunksWriteShCommands p true stageInfos.

(** [GraphicsPipeline::WriteContextCommandsSetPath] *)
Definition WriteContextCommandsSetPath (dev : Device) (hw : Hw)
  (p : GraphicsPipeline) (pCmdSpace : list Pm4) : list Pm4 :=
  let a := addr hw in
  let ctx := m_regs_context p in
  pCmdSpace
    ++ [ SetOneContextReg (mmVGT_SHADER_STAGES_EN a) (vgtShaderStagesEn ctx);
         SetOneContextReg (mmVGT_GS_MODE a) (vgtGsMode ctx);
         SetOneContextReg (mmVGT_REUSE_OFF a) (vgtReuseOff ctx);
         SetOneContextReg (mmVGT_TF_PARAM a) (vgtTfParam ctx);
         SetOneContextReg (mmCB_COLOR_CONTROL a) (cbColorControl ctx);
         SetSeqContextRegs (mmCB_TARGET_MASK a) (mmCB_SHADER_MASK a)
                           [cbTargetMask ctx; cbShaderMask ctx];
         SetOneContextReg (mmPA_CL_CLIP_CNTL a) (paClClipCntl ctx);
         SetOneContextReg (mmPA_SU_VTX_CNTL a) (paSuVtxCntl ctx);
         SetOneContextReg (mmPA_CL_VTE_CNTL a) (paClVteCntl ctx);
         SetOneContextReg (mmPA_SC_LINE_CNTL a) (paScLineCntl ctx);
         SetOneContextReg (mmSPI_INTERP_CONTROL_0 a) (spiInterpControl0 ctx);
         SetOneContextReg (mmVGT_VERTEX_REUSE_BLOCK_CNTL a)
                          (vgtVertexReuseBlockCntl ctx) ]
    ++ (if negb (WaDbOverRasterization dev)
        then [SetOneContextReg (mmDB_SHADER_CONTROL a) (dbShaderControl ctx)]
        else []).

(** [DbRenderOverrideRmwMask] *)
Definition DbRenderOverrideRmwMask (l : RegLayout) : Z :=
  Z.lor (Z.lor (fmask (FORCE_SHADER_Z_ORDER l)) (fmask (FORCE_STENCIL_READ l)))
        (fmask (DISABLE_VIEWPORT_CLAMP l)).

(** [GraphicsPipeline::WriteContextCommands] *)
Definition WriteContextCommands (dev : Device) (hw : Hw) (p : GraphicsPipeline)
  (pCmdStream : CmdStream) (pCmdSpace : list Pm4) : list Pm4 :=
  let a := addr hw in
  let ctx := m_regs_context p in
  let pCmdSpace :=
    if (countCtx (m_loadPath p) =? 0) || Pm4OptimizerEnabled pCmdStream then
      WriteContextCommandsSetPath dev hw p pCmdSpace
        ++ (if IsTessEnabled (base p)
            then [ChunkContextCommands ChunkLsHs false] else [])
        ++ (if IsGsEnabled (base p)
            then [ChunkContextCommands ChunkEsGs false] else [])
        ++ [ChunkContextCommands ChunkVsPs false]
    else
      pCmdSpace
        ++ [LoadContextRegsIndex (gpuVirtAddrCtx (m_loadPath p))
                                 (countCtx (m_loadPath p))] in
  pCmdSpace
    ++ [ ContextRegRmw (mmDB_ALPHA_TO_MASK a)
                       (fmask (ALPHA_TO_MASK_ENABLE (lay hw)))
                       (dbAlphaToMask ctx);
         ContextRegRmw (mmDB_RENDER_OVERRIDE a)
                       (DbRenderOverrideRmwMask (lay hw))
                       (dbRenderOverride ctx) ].

(** [GraphicsPipeline::WriteDbShaderControl] *)
Definition WriteDbShaderControl (dev : Device) (hw : Hw) (p : GraphicsPipeline)
  (isDepthEnabled usesOverRasterization : bool) (pCmdSpace : list Pm4)
  : list Pm4 :=
  if WaDbOverRasterization dev then
    let dbShaderControl' := dbShaderControl (m_regs_context p) in
    let dbShaderControl' :=
      if (getField (Z_ORDER (lay hw)) dbShaderControl'
          =? EARLY_Z_THEN_LATE_Z (enums hw))
         && usesOverRasterization && isDepthEnabled
      then setField (Z_ORDER (lay hw)) (LATE_Z (enums hw)) dbShaderControl'
      else dbShaderControl' in
    pCmdSpace ++ [SetOneContextReg (mmDB_SHADER_CONTROL (addr hw)) dbShaderControl']
  else pCmdSpace.

(** Whether a packet loads registers indirectly from the LoadBlock (the
    LOAD path), and whether it sets registers inline (the SET path). *)
Definition isLoadPacket (c : Pm4) : bool :=
  match c with
  | LoadShRegsIndex _ _ | LoadContextRegsIndex _ _ => true
  | _ => false
  end.

Definition isSetPacket (c : Pm4) : bool :=
  match c with
  | SetOneShReg _ _ | SetOneContextReg _ _ | SetSeqContextRegs _ _ _ => true
  | _ => false
  end.

(** The template argument a stage collaborator was called with. *)
Definition chunkLoadIndexFlag (c : Pm4) : option bool :=
  match c with
  | ChunkShCommands _ b _ _ | ChunkContextCommands _ b => Some b
  | _ => None
  end.

(** ** Notions used to state the properties *)

(** The five special pipeline kinds of the specification, in the order in
    which the specification says they take precedence. *)
Inductive SpecialCategory :=
| FastClearEliminate | FmaskDecompress | DccDecompress | FixedFuncResolve
| NormalPipeline.

Definition categoryOf (p : GraphicsPipeline) : SpecialCategory :=
  if IsFastClearEliminate (base p) then FastClearEliminate
  else if IsFmaskDecompress (base p) then FmaskDecompress
  else if IsDccDecompress (base p) then DccDecompress
  else if IsResolveFixedFunc (base p) then FixedFuncResolve
  else NormalPipeline.

(** Well-formedness of the parameters: the fields of a register do not
    overlap and the values written to a field fit it. *)
Definition iaLayoutOk (l : RegLayout) : bool :=
  layoutOk [ PRIMGROUP_SIZE l; PARTIAL_VS_WAVE_ON l; SWITCH_ON_EOP l;
             PARTIAL_ES_WAVE_ON l; SWITCH_ON_EOI l; WD_SWITCH_ON_EOP__CI__VI l;
             MAX_PRIMGRP_IN_WAVE__VI l ].

Definition fits (v : Z) (f : Field) : bool := (0 <=? v) && (v <? 2 ^ fwidth f).

Definition cbOk (hw : Hw) : bool :=
  let l := lay hw in
  let e := enums hw in
  layoutOk [ DISABLE_DUAL_QUAD__VI l; MODE l; ROP3 l ]
  && fieldOk (OUTPUT0_ENABLE l) && fieldOk (TARGET0_ENABLE l)
  && forallb (fun c => fits c (MODE l))
             [ CB_DISABLE e; CB_NORMAL e; CB_ELIMINATE_FAST_CLEAR e; CB_RESOLVE e;
               CB_FMASK_DECOMPRESS e; CB_DCC_DECOMPRESS__VI e ]
  && fits 0xFF (ROP3 l)
  && fits 0xF (OUTPUT0_ENABLE l) && fits 0xF (TARGET0_ENABLE l).

(** The reserved user-data mappings are 32-bit values above the ordinary
    entries and above every 16-bit metadata address, and they are pairwise
    different. *)
Definition reservedMappings (c : AbiConsts) : list Z :=
  [ GlobalTable c; PerShaderTable c; SpillTable c; Workgroup c;
    VertexBufferTable c; StreamOutTable c; BaseVertex c; BaseInstance c;
    DrawIndex c; EsGsLdsSize c; BaseIndex c; Log2IndexSize c; ViewId c ].

Fixpoint pairwiseDistinct (xs : list Z) : bool :=
  match xs with
  | [] => true
  | x :: rest => forallb (fun y => negb (x =? y)) rest && pairwiseDistinct rest
  end.

Definition abiOk (c : AbiConsts) : bool :=
  forallb (fun m => (MaxUserDataEntries c <=? m) && (2 ^ 16 <=? m + 1)
                    && (m + 1 <? 2 ^ 32))
          (reservedMappings c)
  && pairwiseDistinct (reservedMappings c).

(** The contract of a stage collaborator's early initialisation on the
    register counts of the LoadBlock: without register preloading it leaves
    them alone, with it it only adds registers. *)
Definition keepsLoadCounts (enable : bool)
  (f : GraphicsPipelineLoadInfo -> GraphicsPipelineLoadInfo) : Prop :=
  forall i,
    if enable
    then (0 < loadedShRegCount i -> 0 < loadedShRegCount (f i))
         /\ (0 < loadedCtxRegCount i -> 0 < loadedCtxRegCount (f i))
    else loadedShRegCount (f i) = loadedShRegCount i
         /\ loadedCtxRegCount (f i) = loadedCtxRegCount i.

Definition chunksKeepLoadCounts (dev : Device) (chunks : PipelineChunks) : Prop :=
  let enable := enableLoadIndexForObjectBinds (Settings dev) in
  keepsLoadCounts enable (chunkLsHs_EarlyInit chunks)
  /\ keepsLoadCounts enable (chunkEsGs_EarlyInit chunks)
  /\ forall registers, keepsLoadCounts enable (chunkVsPs_EarlyInit chunks registers).

(** Two states of the uploader that agree on the sizes of the LoadBlock and
    on whether it is in use. *)
Definition sameSize (u v : GraphicsPipelineUploader) : Prop :=
  CtxRegisterCount u = CtxRegisterCount v
  /\ ShRegisterCount u = ShRegisterCount v
  /\ EnableLoadIndexPath u = EnableLoadIndexPath v.

(** The device's maximum number of graphics waves per shader array, in
    waves and in the 16-wave units of the WAVE_LIMIT field. *)
Definition maxWavesPerShGraphics (dev : Device) : Z :=
  let c := ChipProperties dev in
  u32 (maxNumCuPerSh c * u32 (numSimdPerCu c * numWavesPerSimd c)).

Definition maxWaveLimitUnits (dev : Device) : Z := maxWavesPerShGraphics dev / 16.

(** The nibble of a packed RB+ register that belongs to a slot. *)
Definition slotField (slot : nat) : Field := mkField (4 * Z.of_nat slot) 4.

(** ** An instance of the parameters: the Gfx8 (VI) headers *)

Definition viAddr : RegAddr :=
  mkRegAddr 0xA2D5 0xA290 0xA2DB 0xA2D6 0xA2AD 0xA316 0xA2E5 0xA2AA
            0xA202 0xA08E 0xA08F 0xA204 0xA206 0xA2F9 0xA2F7 0xA293
            0xA1B5 0xA203 0xA2DC 0xA003
            0x2C4A 0x2C4B 0x2C0B 0x2C47
            0x2D4C 0x2D5B 0x2D0C 0x2D1B 0x2CCC 0x2CDB
            0x2C8C 0x2C9B 0x2C4C 0x2C5B 0x2C0C 0x2C1B.

Definition viLayout : RegLayout :=
  mkRegLayout
    (mkField 8 1)
    (mkField 21 2)
    (mkField 2 3) (mkField 10 4) (mkField 17 2)
    (mkField 0 8) (mkField 8 6)
    (mkField 0 8)
    (mkField 0 16) (mkField 16 1) (mkField 17 1) (mkField 18 1) (mkField 19 1)
    (mkField 20 1) (mkField 28 4)
    (mkField 0 1) (mkField 4 3) (mkField 16 8)
    (mkField 0 4) (mkField 0 4)
    (mkField 0 1)
    (mkField 9 1) (mkField 10 1) (mkField 11 1) (mkField 12 1)
    (mkField 4 3) (mkField 16 1) (mkField 27 1) (mkField 28 3)
    (mkField 6 5)
    (mkField 0 1) (mkField 4 2)
    (mkField 6 1) (mkField 12 1) (mkField 16 1)
    (mkField 0 1) (mkField 1 1) (mkField 14 1)
    (mkField 0 6) (mkField 6 4) (mkField 0 1) (mkField 0 1)
    (mkField 0 6)
    0xF 0xF 0x1 0x2.

Definition viSxFormatCode (f : SX_DOWNCONVERT_FORMAT) : Z :=
  match f with
  | SX_RT_EXPORT_NO_CONVERSION => 0
  | SX_RT_EXPORT_32_R => 1
  | SX_RT_EXPORT_32_A => 2
  | SX_RT_EXPORT_10_11_11 => 3
  | SX_RT_EXPORT_2_10_10_10 => 4
  | SX_RT_EXPORT_8_8_8_8 => 5
  | SX_RT_EXPORT_5_6_5 => 6
  | SX_RT_EXPORT_1_5_5_5 => 7
  | SX_RT_EXPORT_4_4_4_4 => 8
  | SX_RT_EXPORT_16_16_GR => 9
  | SX_RT_EXPORT_16_16_AR => 10
  end.

Definition viEnums : HwEnums :=
  mkHwEnums 0 1 2 3 5 6
            0 1 2 3
            2 0
            3
            [0; 1; 2; 3]
            [4; 5; 6; 7; 8; 9; 10; 11; 12; 13; 14; 16; 17]
            viSxFormatCode
            4 32.

Definition viAbi : AbiConsts :=
  mkAbiConsts 128 0 1
              0x10000000 0x10000001 0x10000002 0x10000003 0x10000004
              0x10000005 0x10000006 0x1000000A 0x1000000B 0x1000000C
              0x1000000F 0x10000011 0x10000012.

Definition viHw : Hw := mkHw viAddr viLayout viEnums viAbi.

(** A four-engine Gfx8 device with eight compute units per shader array. *)
Definition exChip : GpuChipProperties :=
  mkChipProps GfxIp8 4 32 8 8 8 4 10 512 256 64 true 0x90800310.

Definition exSettings : Gfx6PalSettings :=
  mkSettings true true false false OutOfOrderPrimSafe 7 0 32 508.

Definition exDevice : Device :=
  mkDevice exChip exSettings true 32 false true 31 false false false false false.

(** A vertex and pixel shader pipeline without tessellation or geometry
    stage. *)
Definition exBase : PalGraphicsPipeline :=
  mkPalPipeline false false false false false false false false false 0 false
                (fun i => match i with O => 0xF | _ => 0 end) false.

Definition exPipeline : GraphicsPipeline := GraphicsPipeline_new exBase 0xFFFF.

Definition exCreateInfo (rt0WriteMask : Z) : GraphicsPipelineCreateInfo :=
  mkCreateInfo false false false false false false ShadeGouraud PointUpperLeft
               (fun i => match i with
                         | O => mkTarget rt0WriteMask X8Y8Z8W8_Unorm
                         | _ => mkTarget 0 (OtherFormat 0)
                         end)
               LogicCopy false false.

Definition exUploader : GraphicsPipelineUploader := mkUploader 0 0 false 0 0 [] [].

Definition exMetadata : CodeObjectMetadata := mkMetadata None None None None.

Definition exHash (m : UserDataEntryMap) : Z :=
  fold_left (fun h x => u32 (31 * h + x)) (mappedEntry m)
            (userSgprCount m + firstUserSgprRegAddr m + spillTableRegAddr m).

(** Stage collaborators that preload registers when the setting is on. *)
Definition exChunks (enable : bool) : PipelineChunks :=
  let add (sh ctx : Z) (i : GraphicsPipelineLoadInfo) :=
    if enable
    then mkLoadInfo (usesOnchipTess i) (usesGs i) (usesOnChipGs i)
                    (esGsLdsSizeRegGs i) (esGsLdsSizeRegVs i)
                    (loadedShRegCount i + sh) (loadedCtxRegCount i + ctx)
    else i in
  mkChunks (add 4 3) (add 6 5) (fun _ => add 8 9)
           (fun _ => ([], [])) (fun _ => ([], [])) (fun _ => ([], [])).

Definition exOutcome (registers : RegisterVector) : InitOutcome :=
  mkInitOutcome Success registers Success true 0x1000 0x2000 Success.

(** ** Further operations of the pipeline *)

(** [ShaderType]; the enumerators the pipeline does not handle are
    [ShaderOther]. *)
Inductive ShaderType :=
| ShaderVertex | ShaderHull | ShaderDomain | ShaderGeometry | ShaderPixel
| ShaderOther (raw : Z).

(** [GraphicsPipeline::GetShaderStageInfo]: the stage info of a hardware
    stage, owned by that stage's collaborator, is named by the stage; a null
    pointer is [None]. *)
Definition GetShaderStageInfo (p : GraphicsPipeline) (shaderType : ShaderType)
  : option HwShaderStage :=
  match shaderType with
  | ShaderVertex =>
      Some (if IsTessEnabled (base p) then Ls
            else if IsGsEnabled (base p) then Es else Vs)
  | ShaderHull => if IsTessEnabled (base p) then Some Hs else None
  | ShaderDomain =>
      if IsTessEnabled (base p)
      then Some (if IsGsEnabled (base p) then Es else Vs)
      else None
  | ShaderGeometry => if IsGsEnabled (base p) then Some Gs else None
  | ShaderPixel => Some Ps
  | ShaderOther _ => None
  end.

(** [GraphicsPipeline::GetVsUserDataBaseOffset] *)
Definition GetVsUserDataBaseOffset (hw : Hw) (p : GraphicsPipeline) : Z :=
  if IsTessEnabled (base p) then mmSPI_SHADER_USER_DATA_LS_0 (addr hw)
  else if IsGsEnabled (base p) then mmSPI_SHADER_USER_DATA_ES_0 (addr hw)
  else mmSPI_SHADER_USER_DATA_VS_0 (addr hw).

(** [GraphicsPipeline::ComputeScratchMemorySize]; the argument is the
    [hardwareStage] array of the metadata, an element being [Some] size when
    its [hasEntry.scratchMemorySize] is set.  The size is in bytes, the
    result in dwords. *)
Definition ComputeScratchMemorySize (hardwareStage : list (option Z)) : Z :=
  let scratchMemorySizeBytes :=
    fold_left
      (fun acc stageMetadata =>
         match stageMetadata with
         | Some scratchMemorySize => Z.max acc scratchMemorySize
         | None => acc
         end)
      hardwareStage 0 in
  scratchMemorySizeBytes / 4.

Definition ChNumFormat_eq_dec (a b : ChNumFormat) : {a = b} + {a <> b}.
Proof. decide equality. apply Z.eq_dec. Defined.

(** [GraphicsPipeline::OverrideRbPlusRegistersForRpm]; [targetFormats] is
    the base class' [TargetFormats()], [componentMask] is
    [Formats::ComponentMask], and [out] is what the three output pointers
    point to. *)
Definition OverrideRbPlusRegistersForRpm (hw : Hw) (p : GraphicsPipeline)
  (targetFormats : nat -> ChNumFormat) (componentMask : ChNumFormat -> Z)
  (swizzledFormat : ChNumFormat) (slot : nat) (out : RbPlusRegs) : RbPlusRegs :=
  if (if ChNumFormat_eq_dec (targetFormats slot) swizzledFormat then false else true)
     && (getField (DISABLE_DUAL_QUAD__VI (lay hw))
                  (cbColorControl (m_regs_context p)) =? 0)
  then SetupRbPlusRegistersForSlot hw slot (u8 (componentMask swizzledFormat))
                                   swizzledFormat (mkRbPlus 0 0 0)
  else out.

(** [GraphicsPipeline::SetupLateAllocVs]: the local [maxVsWaves] of the
    computed scheme, the number of hardware vertex-stage waves that can be
    in flight per shader array. *)
Definition SetupLateAllocVs_maxVsWaves (dev : Device) (hw : Hw)
  (registers : RegisterVector) : Z :=
  let l := lay hw in
  let a := addr hw in
  let settings := Settings dev in
  let gpuInfo := ChipProperties dev in
  let spiShaderPgmRsrc1Vs := At registers (mmSPI_SHADER_PGM_RSRC1_VS a) in
  let spiShaderPgmRsrc2Vs := At registers (mmSPI_SHADER_PGM_RSRC2_VS a) in
  let spiShaderPgmRsrc2Ps := At registers (mmSPI_SHADER_PGM_RSRC2_PS a) in
  let vsNumSgpr := getField (SGPRS l) spiShaderPgmRsrc1Vs * 8 in
  let vsNumVgpr := getField (VGPRS l) spiShaderPgmRsrc1Vs * 4 in
  let numCuForLateAllocVs :=
    if gfx7LateAllocVsOnCuAlwaysOn settings then numCuAlwaysOnPerSh gpuInfo
    else numCuPerSh gpuInfo in
  let simdPerSh := u32 (numCuForLateAllocVs * NumSimdPerCu (enums hw)) in
  let maxSgprVsWaves := u32 (numPhysicalSgprs gpuInfo / vsNumSgpr * simdPerSh) in
  let maxVgprVsWaves := u32 (numPhysicalVgprs gpuInfo / vsNumVgpr * simdPerSh) in
  let maxVsWaves := Z.min maxSgprVsWaves maxVgprVsWaves in
  if negb (getField (SCRATCH_EN_VS l) spiShaderPgmRsrc2Vs =? 0)
     && negb (getField (SCRATCH_EN_PS l) spiShaderPgmRsrc2Ps =? 0)
  then Z.min maxVsWaves (u32 (numCuForLateAllocVs * numScratchWavesPerCu dev))
  else maxVsWaves.

(** The sentinels [streamOutTableEntryPlus1] and [indirectTableEntryPlus1]
    that [SetupSignatureForStageFromElf] derives from the metadata. *)
Definition streamOutTableEntryPlus1Of (metadata : CodeObjectMetadata) : Z :=
  match streamOutTableAddress metadata with
  | None => UserDataNotMapped
  | Some v => u16 v
  end.

Definition indirectTableEntryPlus1Of (metadata : CodeObjectMetadata) : Z :=
  match indirectUserDataTableAddresses metadata with
  | None => UserDataNotMapped
  | Some vs => u16 (nth 0 vs 0)
  end.

(** ** Further notions used to state properties *)

(** A register value that takes the pass-through branch of the signature
    builder: it is none of the two backward-compatibility sentinels and it
    is below [MaxUserDataEntries]. *)
Definition isOrdinaryEntry (hw : Hw) (metadata : CodeObjectMetadata) (value : Z)
  : bool :=
  negb (u32 (value + 1) =? streamOutTableEntryPlus1Of metadata)
  && negb (u32 (value + 1) =? indirectTableEntryPlus1Of metadata)
  && (value <? MaxUserDataEntries (abi hw)).

(** The user-data window of every stage starts at a nonzero address and has
    sixteen registers. *)
Definition windowOk (a : RegAddr) : bool :=
  forallb (fun s => (0 <? BaseRegAddr a s)
                    && (LastRegAddr a s =? BaseRegAddr a s + 15))
          [Ls; Hs; Es; Gs; Vs; Ps].

(** The dynamic stage info of a hardware stage, and the caller's limits of
    an API shader. *)
Definition stageInfoOf (s : HwShaderStage) (infos : DynamicStageInfos)
  : DynamicStageInfo :=
  match s with
  | Ls => si_ls infos | Hs => si_hs infos | Es => si_es infos
  | Gs => si_gs infos | Vs => si_vs infos | Ps => si_ps infos
  end.

Definition shaderInfoOf (t : ShaderType) (g : DynamicGraphicsShaderInfos)
  : option DynamicGraphicsShaderInfo :=
  match t with
  | ShaderVertex => Some (dyn_vs g)
  | ShaderHull => Some (dyn_hs g)
  | ShaderDomain => Some (dyn_ds g)
  | ShaderGeometry => Some (dyn_gs g)
  | ShaderPixel => Some (dyn_ps g)
  | ShaderOther _ => None
  end.

(** What a stage collaborator was called with, apart from the template
    argument. *)
Definition chunkCall (c : Pm4)
  : option (PipelineChunk * DynamicStageInfo * DynamicStageInfo) :=
  match c with
  | ChunkShCommands chunk _ first second => Some (chunk, first, second)
  | _ => None
  end.

(** The registers a SET packet writes, with their values. *)
Definition packetWrites (c : Pm4) : list (Z * Z) :=
  match c with
  | SetOneShReg a v | SetOneContextReg a v => [(a, v)]
  | SetSeqContextRegs startRegAddr endRegAddr values =>
      combine (regRange startRegAddr endRegAddr) values
  | _ => []
  end.

(** The two disable bits of a slot in SX_BLEND_OPT_CONTROL. *)
Definition slotControlField (slot : nat) : Field := mkField (4 * Z.of_nat slot) 2.

(** The RB+ macros and format codes are those of a register with one nibble
    per slot. *)
Definition sxOk (hw : Hw) : bool :=
  (SX_PS_DOWNCONVERT__MRT0_MASK__VI (lay hw) =? 0xF)
  && (SX_BLEND_OPT_EPSILON__MRT0_EPSILON_MASK__VI (lay hw) =? 0xF)
  && (SX_BLEND_OPT_CONTROL__MRT0_COLOR_OPT_DISABLE_MASK__VI (lay hw) =? 0x1)
  && (SX_BLEND_OPT_CONTROL__MRT0_ALPHA_OPT_DISABLE_MASK__VI (lay hw) =? 0x2)
  && forallb (fun f => (0 <=? sxFormatCode (enums hw) f)
                       && (sxFormatCode (enums hw) f <? 16))
             [ SX_RT_EXPORT_NO_CONVERSION; SX_RT_EXPORT_32_R; SX_RT_EXPORT_32_A;
               SX_RT_EXPORT_10_11_11; SX_RT_EXPORT_2_10_10_10;
               SX_RT_EXPORT_8_8_8_8; SX_RT_EXPORT_5_6_5; SX_RT_EXPORT_1_5_5_5;
               SX_RT_EXPORT_4_4_4_4; SX_RT_EXPORT_16_16_GR;
               SX_RT_EXPORT_16_16_AR ].

(** The blend-opt epsilon [SetupRbPlusRegistersForSlot] writes for a
    format. *)
Definition slotEpsilon (format : ChNumFormat) : Z :=
  if isNoConversion (SxDownConvertFormat format) then 0
  else SxBlendOptEpsilon (SxDownConvertFormat format).

Definition dbRenderOverrideOk (l : RegLayout) : bool :=
  fieldOk (FORCE_SHADER_Z_ORDER l) && fieldOk (FORCE_STENCIL_READ l)
  && fieldOk (DISABLE_VIEWPORT_CLAMP l).

(** What the three RB+ registers hold for a slot: its down-convert code,
    its epsilon, and its two blend-opt disable bits. *)
Definition slotView (slot : nat) (regs : RbPlusRegs) : Z * Z * Z :=
  (getField (slotField slot) (rb_sxPsDownconvert regs),
   getField (slotField slot) (rb_sxBlendOptEpsilon regs),
   getField (slotControlField slot) (rb_sxBlendOptControl regs)).

Definition contextRbPlus (ctx : ContextRegs) : RbPlusRegs :=
  mkRbPlus (sxPsDownconvert ctx) (sxBlendOptEpsilon ctx) (sxBlendOptControl ctx).

(** * Properties *)

(** ** Machine integers and bit fields *)

Lemma u32_small z : 0 <= z < 2 ^ 32 -> u32 z = z.
Proof. intros H. unfold u32. now apply Z.mod_small. Qed.

Lemma u32_range z : 0 <= u32 z < 2 ^ 32.
Proof. unfold u32. apply Z.mod_pos_bound. lia. Qed.

Lemma u16_small z : 0 <= z < 2 ^ 16 -> u16 z = z.
Proof. intros H. unfold u16. now apply Z.mod_small. Qed.

Lemma fieldOk_spec f :
  fieldOk f = true -> 0 <= fpos f /\ 0 < fwidth f /\ fpos f + fwidth f <= 32.
Proof. unfold fieldOk. intros H. lia. Qed.

Lemma disjoint_sym f g : disjoint f g = disjoint g f.
Proof. unfold disjoint. apply orb_comm. Qed.

Lemma testbit_getField f r i :
  0 <= fpos f -> 0 <= fwidth f -> 0 <= i ->
  Z.testbit (getField f r) i = (i <? fwidth f) && Z.testbit r (i + fpos f).
Proof.
  intros Hp Hw Hi. unfold getField.
  rewrite Z.land_spec, Z.shiftr_spec, Z.testbit_ones by lia.
  replace (0 <=? i) with true by lia. simpl. apply andb_comm.
Qed.

Lemma testbit_setField f v r i :
  0 <= fpos f -> 0 <= fwidth f -> 0 <= i ->
  Z.testbit (setField f v r) i =
    if (fpos f <=? i) && (i <? fpos f + fwidth f)
    then Z.testbit v (i - fpos f) else Z.testbit r i.
Proof.
  intros Hp Hw Hi. unfold setField, fmask.
  rewrite Z.lor_spec, !Z.land_spec, Z.lnot_spec, !Z.shiftl_spec by lia.
  rewrite Z.land_spec, !Z.testbit_ones by lia.
  destruct (Z.leb_spec (fpos f) i) as [Hle | Hlt]; simpl.
  - replace (0 <=? i - fpos f) with true by lia. simpl.
    destruct (Z.ltb_spec i (fpos f + fwidth f)).
    + replace (i - fpos f <? fwidth f) with true by lia. simpl.
      now rewrite andb_false_r, andb_true_r.
    + replace (i - fpos f <? fwidth f) with false by lia. simpl.
      now rewrite andb_true_r, andb_false_r, orb_false_r.
  - replace (0 <=? i - fpos f) with false by lia. simpl.
    now rewrite !andb_false_r, andb_true_r, orb_false_r.
Qed.

Lemma getField_range f r : 0 <= fwidth f -> 0 <= getField f r < 2 ^ fwidth f.
Proof.
  intros Hw. unfold getField. rewrite Z.land_ones by lia.
  apply Z.mod_pos_bound. apply Z.pow_pos_nonneg; lia.
Qed.

Lemma getField_zero f : getField f 0 = 0.
Proof. unfold getField. now rewrite Z.shiftr_0_l, Z.land_0_l. Qed.

(** Reading back the field just written gives the value truncated to the
    field's width. *)
Lemma getField_setField_same f v r :
  fieldOk f = true ->
  getField f (setField f v r) = v mod 2 ^ fwidth f.
Proof.
  intros Hf. apply fieldOk_spec in Hf as (Hp & Hw & _).
  rewrite <- Z.land_ones by lia.
  apply Z.bits_inj'. intros i Hi.
  rewrite testbit_getField, testbit_setField, Z.land_spec, Z.testbit_ones by lia.
  replace (0 <=? i) with true by lia.
  replace (fpos f <=? i + fpos f) with true by lia.
  replace (i + fpos f - fpos f) with i by lia.
  destruct (Z.ltb_spec i (fwidth f)); simpl.
  - replace (i + fpos f <? fpos f + fwidth f) with true by lia.
    simpl. now rewrite andb_true_r.
  - now rewrite andb_false_r.
Qed.

(** Writing a field leaves every field that does not overlap it as it
    was. *)
Lemma getField_setField_other f g v r :
  fieldOk f = true -> fieldOk g = true ->
  disjoint f g = true \/ disjoint g f = true ->
  getField f (setField g v r) = getField f r.
Proof.
  intros Hf Hg Hd.
  apply fieldOk_spec in Hf as (Hpf & Hwf & _).
  apply fieldOk_spec in Hg as (Hpg & Hwg & _).
  assert (Hd' : disjoint f g = true)
    by (destruct Hd as [Hd | Hd]; [ | rewrite disjoint_sym ]; exact Hd).
  unfold disjoint in Hd'.
  apply Z.bits_inj'. intros i Hi.
  rewrite !testbit_getField, testbit_setField by lia.
  destruct (Z.ltb_spec i (fwidth f)); simpl; [|reflexivity].
  replace ((fpos g <=? i + fpos f) && (i + fpos f <? fpos g + fwidth g))
    with false by lia.
  reflexivity.
Qed.

Lemma fits_mod v f : fits v f = true -> v mod 2 ^ fwidth f = v.
Proof. unfold fits. intros H. apply Z.mod_small. lia. Qed.

Lemma bit_fits f : fieldOk f = true -> 1 mod 2 ^ fwidth f = 1.
Proof.
  intros Hf. apply fieldOk_spec in Hf as (_ & Hw & _).
  apply Z.mod_small. split; [lia|].
  apply (Z.pow_gt_1 2 (fwidth f)); lia.
Qed.

(** Break a boolean well-formedness hypothesis into its conjuncts. *)
Ltac split_ok H :=
  cbn [layoutOk forallb pairwiseDistinct] in H;
  rewrite ?andb_true_iff in H;
  repeat match goal with
         | H' : _ /\ _ |- _ => destruct H'
         end.

(** Normalise reads of fields after writes. *)
Ltac fields :=
  repeat first
    [ rewrite getField_setField_same by assumption
    | rewrite getField_setField_other
        by first [ assumption | left; assumption | right; assumption ] ].

(** ** Primitive grouping *)

Section IaMultiVgtParam.

Variables (dev : Device) (hw : Hw) (p : GraphicsPipeline).
Hypothesis Hlay : iaLayoutOk (lay hw) = true.

Let l := lay hw.

Lemma Fixup_keeps_PRIMGROUP_SIZE force r :
  getField (PRIMGROUP_SIZE l) (FixupIaMultiVgtParamOnGfx7Plus dev hw p force r)
  = getField (PRIMGROUP_SIZE l) r.
Proof.
  unfold iaLayoutOk in Hlay. split_ok Hlay.
  unfold FixupIaMultiVgtParamOnGfx7Plus. cbv zeta. fold l.
  repeat match goal with
         | |- context [if ?c then _ else _] => destruct c
         end; fields; reflexivity.
Qed.

Lemma base_SWITCH_ON_EOP registers :
  getField (SWITCH_ON_EOP l) (SetupIaMultiVgtParam_base dev hw registers p)
  = getField (SWITCH_ON_EOP l)
             (HasEntry registers (mmIA_MULTI_VGT_PARAM (addr hw)) 0).
Proof.
  unfold iaLayoutOk in Hlay. split_ok Hlay.
  unfold SetupIaMultiVgtParam_base. cbv zeta. fold l.
  repeat match goal with
         | |- context [if ?c then _ else _] => destruct c
         end; fields; reflexivity.
Qed.

Lemma base_PRIMGROUP_SIZE registers :
  let ls := vgtLsHsConfig (m_regs_context p) in
  getField (PRIMGROUP_SIZE l) (SetupIaMultiVgtParam_base dev hw registers p)
  = if IsTessEnabled (base p)
    then (getField (NUM_PATCHES l) ls - 1) mod 2 ^ fwidth (PRIMGROUP_SIZE l)
    else if IsGsEnabled (base p) && negb (getField (HS_NUM_INPUT_CP l) ls =? 0)
    then (256 / getField (HS_NUM_INPUT_CP l) ls - 1)
           mod 2 ^ fwidth (PRIMGROUP_SIZE l)
    else getField (PRIMGROUP_SIZE l)
                  (HasEntry registers (mmIA_MULTI_VGT_PARAM (addr hw)) 0).
Proof.
  unfold iaLayoutOk in Hlay. split_ok Hlay.
  unfold SetupIaMultiVgtParam_base. cbv zeta. fold l.
  repeat match goal with
         | |- context [if ?c then _ else _] => destruct c
         end; fields; reflexivity.
Qed.

(** The wave-switch fields after the Gfx7+ fix-up, in terms of the register
    the fix-up starts from. *)
Lemma Fixup_wd_switch force r :
  let r' := FixupIaMultiVgtParamOnGfx7Plus dev hw p force r in
  if (getField (SWITCH_ON_EOP l) r =? 1)
     || (numShaderEngines (ChipProperties dev) <=? 2)
     || force
  then getField (WD_SWITCH_ON_EOP__CI__VI l) r' = 1
  else getField (WD_SWITCH_ON_EOP__CI__VI l) r' = 0
       /\ getField (SWITCH_ON_EOI l) r' = 1
       /\ getField (PARTIAL_ES_WAVE_ON l) r' = 1.
Proof.
  unfold iaLayoutOk in Hlay. split_ok Hlay.
  unfold FixupIaMultiVgtParamOnGfx7Plus. cbv zeta. fold l.
  match goal with
  | |- context [setField (WD_SWITCH_ON_EOP__CI__VI l) 1 ?x] => set (r2 := x)
  end.
  assert (E : getField (SWITCH_ON_EOP l) r2 = getField (SWITCH_ON_EOP l) r).
  { subst r2.
    repeat match goal with
           | |- context [if ?c then _ else _] => destruct c
           end; fields; reflexivity. }
  rewrite E. clearbody r2.
  destruct ((getField (SWITCH_ON_EOP l) r =? 1)
            || (numShaderEngines (ChipProperties dev) <=? 2) || force).
  - match goal with
    | |- context [if ?c then _ else _] => destruct c
    end; fields; apply bit_fits; assumption.
  - match goal with
    | |- context [if ?c then _ else _] => destruct c
    end; fields; rewrite ?Z.mod_0_l, ?bit_fits by assumption; auto.
Qed.

Lemma SetupIaMultiVgtParam_nth registers idx :
  (idx < NumIaMultiVgtParam)%nat ->
  nth idx (iaMultiVgtParam
             (m_regs_context (SetupIaMultiVgtParam dev hw registers p))) 0
  = if gfxIpRank GfxIp6 <? gfxIpRank (gfxLevel (ChipProperties dev))
    then FixupIaMultiVgtParamOnGfx7Plus dev hw p (negb (Nat.eqb idx 0))
           (SetupIaMultiVgtParam_base dev hw registers p)
    else SetupIaMultiVgtParam_base dev hw registers p.
Proof.
  intros Hidx. unfold SetupIaMultiVgtParam, NumIaMultiVgtParam in *. simpl.
  destruct idx as [|[|idx]]; [reflexivity | reflexivity | lia].
Qed.

(** [C5] On Gfx7 and newer hardware the fix-up sets WD_SWITCH_ON_EOP to 1
    when SWITCH_ON_EOP is 1, or the device has at most two shader engines,
    or the caller asks for it; otherwise it sets it to 0 and sets
    SWITCH_ON_EOI and PARTIAL_ES_WAVE_ON to 1.  This holds for the fix-up
    itself and for both register copies a pipeline ends up with, where the
    copy for slot 1 is the one computed with the caller's request set. *)
Theorem wd_switch_on_eop_policy registers :
  (forall force r,
      let r' := FixupIaMultiVgtParamOnGfx7Plus dev hw p force r in
      if (getField (SWITCH_ON_EOP l) r =? 1)
         || (numShaderEngines (ChipProperties dev) <=? 2)
         || force
      then getField (WD_SWITCH_ON_EOP__CI__VI l) r' = 1
      else getField (WD_SWITCH_ON_EOP__CI__VI l) r' = 0
           /\ getField (SWITCH_ON_EOI l) r' = 1
           /\ getField (PARTIAL_ES_WAVE_ON l) r' = 1)
  /\ (gfxIpRank GfxIp6 < gfxIpRank (gfxLevel (ChipProperties dev)) ->
      forall idx, (idx < NumIaMultiVgtParam)%nat ->
      let binary := HasEntry registers (mmIA_MULTI_VGT_PARAM (addr hw)) 0 in
      let r' :=
        nth idx (iaMultiVgtParam
                   (m_regs_context (SetupIaMultiVgtParam dev hw registers p))) 0 in
      if (getField (SWITCH_ON_EOP l) binary =? 1)
         || (numShaderEngines (ChipProperties dev) <=? 2)
         || negb (Nat.eqb idx 0)
      then getField (WD_SWITCH_ON_EOP__CI__VI l) r' = 1
      else getField (WD_SWITCH_ON_EOP__CI__VI l) r' = 0
           /\ getField (SWITCH_ON_EOI l) r' = 1
           /\ getField (PARTIAL_ES_WAVE_ON l) r' = 1).
Proof.
  split.
  - intros force r. apply Fixup_wd_switch.
  - intros Hgen idx Hidx. cbv zeta.
    rewrite SetupIaMultiVgtParam_nth by assumption.
    replace (gfxIpRank GfxIp6 <? gfxIpRank (gfxLevel (ChipProperties dev)))
      with true by lia.
    rewrite <- base_SWITCH_ON_EOP.
    apply Fixup_wd_switch.
Qed.

(** [C6] In both register copies of a pipeline the primitive group size is
    NUM_PATCHES - 1 when tessellation is active; else 256 / HS_NUM_INPUT_CP
    - 1 when the geometry stage is active and HS_NUM_INPUT_CP is not zero;
    else the value of the binary's IA_MULTI_VGT_PARAM, which is zero when
    the binary has no such register.  A value written to the field is
    truncated to the field's width. *)
Theorem primgroup_size_policy registers idx :
  (idx < NumIaMultiVgtParam)%nat ->
  let ls := vgtLsHsConfig (m_regs_context p) in
  let r' :=
    nth idx (iaMultiVgtParam
               (m_regs_context (SetupIaMultiVgtParam dev hw registers p))) 0 in
  getField (PRIMGROUP_SIZE l) r'
  = (if IsTessEnabled (base p)
     then (getField (NUM_PATCHES l) ls - 1) mod 2 ^ fwidth (PRIMGROUP_SIZE l)
     else if IsGsEnabled (base p) && negb (getField (HS_NUM_INPUT_CP l) ls =? 0)
     then (256 / getField (HS_NUM_INPUT_CP l) ls - 1)
            mod 2 ^ fwidth (PRIMGROUP_SIZE l)
     else match registers !! mmIA_MULTI_VGT_PARAM (addr hw) with
          | Some binary => getField (PRIMGROUP_SIZE l) binary
          | None => 0
          end).
Proof.
  intros Hidx. cbv zeta.
  rewrite SetupIaMultiVgtParam_nth by assumption.
  assert (E : getField (PRIMGROUP_SIZE l)
                (HasEntry registers (mmIA_MULTI_VGT_PARAM (addr hw)) 0)
              = match registers !! mmIA_MULTI_VGT_PARAM (addr hw) with
                | Some binary => getField (PRIMGROUP_SIZE l) binary
                | None => 0
                end).
  { unfold HasEntry. destruct (registers !! _); [reflexivity|].
    apply getField_zero. }
  rewrite <- E, <- base_PRIMGROUP_SIZE.
  destruct (gfxIpRank GfxIp6 <? gfxIpRank (gfxLevel (ChipProperties dev)));
    [apply Fixup_keeps_PRIMGROUP_SIZE | reflexivity].
Qed.

End IaMultiVgtParam.

(** Slot 0 of a vertex and pixel shader pipeline on the four-engine example
    device, whose binary leaves SWITCH_ON_EOP clear. *)
Lemma wd_switch_on_eop_policy_witness :
  let r' :=
    nth 0 (iaMultiVgtParam
             (m_regs_context (SetupIaMultiVgtParam exDevice viHw ∅ exPipeline))) 0 in
  getField (WD_SWITCH_ON_EOP__CI__VI viLayout) r' = 0
  /\ getField (SWITCH_ON_EOI viLayout) r' = 1
  /\ getField (PARTIAL_ES_WAVE_ON viLayout) r' = 1.
Proof.
  pose proof (proj2 (wd_switch_on_eop_policy exDevice viHw exPipeline eq_refl ∅)
                    eq_refl 0%nat (Nat.lt_0_succ 1)) as H.
  vm_compute in H. vm_compute. exact H.
Defined.

(** Slot 1 of the same pipeline keeps the group size 0x7F of its binary. *)
Lemma primgroup_size_policy_witness :
  getField (PRIMGROUP_SIZE viLayout)
    (nth 1 (iaMultiVgtParam
              (m_regs_context
                 (SetupIaMultiVgtParam exDevice viHw
                    {[ mmIA_MULTI_VGT_PARAM viAddr := 0x7F ]} exPipeline))) 0)
  = 0x7F.
Proof.
  pose proof (primgroup_size_policy exDevice viHw exPipeline eq_refl
                {[ mmIA_MULTI_VGT_PARAM viAddr := 0x7F ]} 1%nat
                (Nat.lt_succ_diag_r 1)) as H.
  vm_compute in H. vm_compute. exact H.
Defined.

Lemma SetupLateAllocVs_keeps dev hw registers u p :
  base (fst (SetupLateAllocVs dev hw registers u p)) = base p
  /\ m_regs_context (fst (SetupLateAllocVs dev hw registers u p))
     = m_regs_context p.
Proof.
  unfold SetupLateAllocVs.
  destruct (negb (isGfxIp6 (gfxLevel (ChipProperties dev)))); split; reflexivity.
Qed.

(** The same policy seen from [SetupCommonRegisters]: the patch count and
    the control-point count are those of the binary's VGT_LS_HS_CONFIG. *)
Lemma SetupCommonRegisters_group_size dev hw createInfo registers u p idx :
  iaLayoutOk (lay hw) = true ->
  (idx < NumIaMultiVgtParam)%nat ->
  let l := lay hw in
  let ls := HasEntry registers (mmVGT_LS_HS_CONFIG (addr hw))
                     (vgtLsHsConfig (m_regs_context p)) in
  let p' := fst (SetupCommonRegisters dev hw createInfo registers u p) in
  getField (PRIMGROUP_SIZE l) (nth idx (iaMultiVgtParam (m_regs_context p')) 0)
  = (if IsTessEnabled (base p)
     then (getField (NUM_PATCHES l) ls - 1) mod 2 ^ fwidth (PRIMGROUP_SIZE l)
     else if IsGsEnabled (base p) && negb (getField (HS_NUM_INPUT_CP l) ls =? 0)
     then (256 / getField (HS_NUM_INPUT_CP l) ls - 1)
            mod 2 ^ fwidth (PRIMGROUP_SIZE l)
     else getField (PRIMGROUP_SIZE l)
                   (HasEntry registers (mmIA_MULTI_VGT_PARAM (addr hw)) 0)).
Proof.
  intros Hlay Hidx. cbv zeta. unfold SetupCommonRegisters. cbv zeta.
  match goal with
  | |- context [SetupLateAllocVs dev hw registers ?u' ?p'] =>
      pose proof (SetupLateAllocVs_keeps dev hw registers u' p') as [Hb Hc];
      destruct (SetupLateAllocVs dev hw registers u' p') as [p1 u1]
  end.
  cbn [fst snd] in *.
  rewrite SetupIaMultiVgtParam_nth by assumption.
  assert (E : getField (PRIMGROUP_SIZE (lay hw))
                (if gfxIpRank GfxIp6 <? gfxIpRank (gfxLevel (ChipProperties dev))
                 then FixupIaMultiVgtParamOnGfx7Plus dev hw p1
                        (negb (Nat.eqb idx 0))
                        (SetupIaMultiVgtParam_base dev hw registers p1)
                 else SetupIaMultiVgtParam_base dev hw registers p1)
              = getField (PRIMGROUP_SIZE (lay hw))
                         (SetupIaMultiVgtParam_base dev hw registers p1)).
  { destruct (gfxIpRank GfxIp6 <? gfxIpRank (gfxLevel (ChipProperties dev)));
      [apply Fixup_keeps_PRIMGROUP_SIZE; assumption | reflexivity]. }
  rewrite E, base_PRIMGROUP_SIZE by assumption. cbv zeta.
  rewrite Hb, Hc. reflexivity.
Qed.

(** ** Out-of-order primitives *)

(** [C1] Whatever the depth-stencil view, depth-stencil state, blend state
    and active-query count are, [CanDrawPrimsOutOfOrder] returns true for
    the mode Always, false for the mode Disable and for every unrecognised
    mode value, and false for the mode Safe when the depth-stencil view is
    null. *)
Theorem out_of_order_mode_gates
  (p : GraphicsPipeline) (pDsView : option DepthStencilView)
  (pDepthStencilState : option DepthStencilState)
  (pBlendState : option ColorBlendState) (hasActiveQueries : Z) :
  CanDrawPrimsOutOfOrder p pDsView pDepthStencilState pBlendState
                         hasActiveQueries OutOfOrderPrimAlways = true
  /\ CanDrawPrimsOutOfOrder p pDsView pDepthStencilState pBlendState
                            hasActiveQueries OutOfOrderPrimDisable = false
  /\ (forall raw,
         CanDrawPrimsOutOfOrder p pDsView pDepthStencilState pBlendState
                                hasActiveQueries (OutOfOrderPrimOther raw) = false)
  /\ CanDrawPrimsOutOfOrder p None pDepthStencilState pBlendState
                            hasActiveQueries OutOfOrderPrimSafe = false.
Proof.
  repeat split; try reflexivity.
  unfold CanDrawPrimsOutOfOrder. cbn [isSafe isAggressive orb isNull].
  destruct (PsWritesUavs (base p)); [reflexivity|].
  destruct pDepthStencilState as [dss|]; [|reflexivity].
  cbn [orb isNull]. now rewrite orb_true_r.
Qed.

(** ** Dynamic wave limit *)

Lemma CalcMaxWavesPerSh_zero dev : CalcMaxWavesPerSh dev 0 = 0.
Proof. reflexivity. Qed.

(** [C10] The clamp of the wave limit compares a value in units of 16
    waves with the device maximum counted in waves, so it does not hold the
    field to the maximum in units.  A caller limit of 1000 waves per compute
    unit on the example device (40 waves per compute unit, 8 compute units
    per shader array) fails the assertion of the function and gives a field
    of 320, above the device maximum of 20 units of 16 waves and above the
    63 the code's comment names as the field's limit. *)
Lemma wave_limit_above_maximum_in_units :
  CalcMaxWavesPerSh exDevice 1000 = 320
  /\ maxWaveLimitUnits exDevice = 20
  /\ ~ (1 <= CalcMaxWavesPerSh exDevice 1000 <= maxWaveLimitUnits exDevice)
  /\ CalcMaxWavesPerSh_assert exDevice 1000 = false
  /\ 63 < CalcMaxWavesPerSh exDevice 1000.
Proof.
  assert (E1 : CalcMaxWavesPerSh exDevice 1000 = 320) by reflexivity.
  assert (E2 : maxWaveLimitUnits exDevice = 20) by reflexivity.
  rewrite E1, E2. repeat split; try lia; reflexivity.
Qed.

(** What holds inside the bound the function asserts.  A caller limit of 0
    gives the field 0.  A nonzero caller limit gives a field of at least 1,
    so a small limit is never rounded down to 0; and when the limit
    respects the asserted bound (no more than all waves of a compute unit),
    the field is at most the device's graphics maximum in 16-wave units.
    The device is assumed consistent:
    no more compute units per shader array than its maximum, and a graphics
    maximum of at least 16 waves that fits 32 bits. *)
Theorem wave_limit_bounds (dev : Device) (maxWavesPerCu : Z) :
  let c := ChipProperties dev in
  0 <= numCuPerSh c <= maxNumCuPerSh c ->
  0 <= numSimdPerCu c ->
  0 <= numWavesPerSimd c ->
  maxNumCuPerSh c * (numSimdPerCu c * numWavesPerSimd c) < 2 ^ 32 ->
  16 <= maxWavesPerShGraphics dev ->
  CalcMaxWavesPerSh dev 0 = 0
  /\ (0 < maxWavesPerCu -> 1 <= CalcMaxWavesPerSh dev maxWavesPerCu)
  /\ (0 < maxWavesPerCu ->
      CalcMaxWavesPerSh_assert dev maxWavesPerCu = true ->
      CalcMaxWavesPerSh dev maxWavesPerCu <= maxWaveLimitUnits dev).
Proof.
  intros c Hcu Hs Hw Hfit Hmax.
  unfold maxWaveLimitUnits, CalcMaxWavesPerSh_assert, CalcMaxWavesPerSh.
  unfold maxWavesPerShGraphics in *. cbv zeta. fold c in Hmax |- *.
  set (nw := numSimdPerCu c * numWavesPerSimd c) in *.
  set (M := u32 (maxNumCuPerSh c * u32 nw)) in *.
  assert (Hnw : 0 <= nw) by (subst nw; nia).
  assert (Hcu1 : 1 <= maxNumCuPerSh c).
  { destruct (Z.eq_dec (maxNumCuPerSh c) 0) as [E|]; [|lia].
    subst M. rewrite E, Z.mul_0_l in Hmax. unfold u32 in Hmax.
    rewrite Z.mod_0_l in Hmax; lia. }
  assert (Enw : u32 nw = nw) by (apply u32_small; nia).
  assert (EM : M = maxNumCuPerSh c * nw).
  { subst M. rewrite Enw. apply u32_small. nia. }
  split; [reflexivity|]. split.
  - intros Hpos. replace (0 <? maxWavesPerCu) with true by lia. lia.
  - intros Hpos Hassert. replace (0 <? maxWavesPerCu) with true by lia.
    rewrite Enw in Hassert.
    assert (EW : u32 (maxWavesPerCu * numCuPerSh c) = maxWavesPerCu * numCuPerSh c)
      by (apply u32_small; nia).
    rewrite EW.
    assert (HW : maxWavesPerCu * numCuPerSh c <= M) by nia.
    assert (Hdiv : maxWavesPerCu * numCuPerSh c / 16 <= M / 16)
      by (apply Z.div_le_mono; lia).
    assert (1 <= M / 16) by (apply Z.div_le_lower_bound; lia).
    assert (M / 16 <= M) by (apply Z.div_le_upper_bound; lia).
    lia.
Qed.

(** A caller limit of 3 waves per compute unit on the example device: 24
    waves per shader array round down to one unit of 16. *)
Lemma wave_limit_bounds_witness :
  CalcMaxWavesPerSh exDevice 3 = 1
  /\ 1 <= CalcMaxWavesPerSh exDevice 3 <= maxWaveLimitUnits exDevice.
Proof.
  split; [reflexivity|].
  pose proof (wave_limit_bounds exDevice 3
                ltac:(simpl; lia) ltac:(simpl; lia) ltac:(simpl; lia)
                ltac:(simpl; lia) ltac:(vm_compute; congruence))
    as (_ & Hlo & Hhi).
  split; [apply Hlo; lia | apply Hhi; [lia | reflexivity]].
Defined.

(** ** Late-alloc wave limit *)

(** [C4] On a generation that has SPI_SHADER_LATE_ALLOC_VS the LIMIT field
    is the computed late-alloc limit minus one, clamped to
    [0, maxLateAllocVsLimit - 1]; so it never exceeds
    maxLateAllocVsLimit - 1, and it is 0 when the requested target is 0.
    On Gfx6 the register of a newly constructed pipeline stays 0.  The
    device maximum is assumed to be at least 1 and to fit the field. *)
Theorem late_alloc_limit_field (dev : Device) (hw : Hw)
  (registers : RegisterVector) (pUploader : GraphicsPipelineUploader)
  (p : GraphicsPipeline) :
  fieldOk (LIMIT (lay hw)) = true ->
  1 <= maxLateAllocVsLimit (ChipProperties dev) <= 2 ^ fwidth (LIMIT (lay hw)) ->
  let deviceMax := maxLateAllocVsLimit (ChipProperties dev) in
  let limit := SetupLateAllocVs_limit dev hw registers p in
  let target :=
    if IsLateAllocVsLimit (base p) then GetLateAllocVsLimit (base p)
    else LateAllocVsLimit dev in
  let stored (q : GraphicsPipeline) :=
    getField (LIMIT (lay hw))
      (m_regs_sh_spiShaderLateAllocVs
         (fst (SetupLateAllocVs dev hw registers pUploader q))) in
  (gfxLevel (ChipProperties dev) <> GfxIp6 ->
   stored p = Z.min (Z.max (limit - 1) 0) (deviceMax - 1)
   /\ stored p <= deviceMax - 1
   /\ (target = 0 -> stored p = 0))
  /\ (gfxLevel (ChipProperties dev) = GfxIp6 ->
      forall b noSpill, stored (GraphicsPipeline_new b noSpill) = 0).
Proof.
  intros Hf Hmax. cbv zeta.
  pose proof (fieldOk_spec _ Hf) as (Hp & Hw & Hle).
  assert (Hpow : 2 ^ fwidth (LIMIT (lay hw)) <= 2 ^ 32)
    by (apply Z.pow_le_mono_r; lia).
  split.
  - intros Hgen. unfold SetupLateAllocVs.
    replace (isGfxIp6 (gfxLevel (ChipProperties dev))) with false
      by (destruct (gfxLevel (ChipProperties dev)); simpl; congruence).
    cbn [negb fst m_regs_sh_spiShaderLateAllocVs set_m_regs_sh_spiShaderLateAllocVs].
    rewrite getField_setField_same by assumption.
    rewrite u32_small by lia.
    set (limit := SetupLateAllocVs_limit dev hw registers p).
    assert (E : (if 0 <? limit then limit - 1 else 0) = Z.max (limit - 1) 0).
    { destruct (Z.ltb_spec 0 limit); lia. }
    assert (El : limit = SetupLateAllocVs_limit dev hw registers p) by reflexivity.
    rewrite E. rewrite Z.mod_small by lia.
    repeat split; [lia|].
    intros Htarget. clearbody limit.
    assert (limit = 0); [|lia].
    rewrite El. unfold SetupLateAllocVs_limit. cbv zeta.
    rewrite Htarget. destruct (UseFixedLateAllocVsLimit dev); reflexivity.
  - intros Hgen b noSpill. unfold SetupLateAllocVs. rewrite Hgen.
    cbn. apply getField_zero.
Qed.

(** A vertex shader with 16 SGPRs and 4 VGPRs on the example device, whose
    late-alloc target of 31 waves is kept and stored as 30. *)
Lemma late_alloc_limit_field_witness :
  getField (LIMIT viLayout)
    (m_regs_sh_spiShaderLateAllocVs
       (fst (SetupLateAllocVs exDevice viHw
               {[ mmSPI_SHADER_PGM_RSRC1_VS viAddr := 0x81 ]}
               exUploader exPipeline)))
  = 30.
Proof.
  pose proof (proj1 (proj1 (late_alloc_limit_field exDevice viHw
                        {[ mmSPI_SHADER_PGM_RSRC1_VS viAddr := 0x81 ]}
                        exUploader exPipeline eq_refl ltac:(simpl; lia))
                     ltac:(discriminate))) as H.
  vm_compute in H. vm_compute. exact H.
Defined.

(** ** Colour mode and write masks *)

Lemma Rop3_range logicOp : 0 <= Rop3 logicOp <= 0xFF.
Proof. destruct logicOp; simpl; lia. Qed.

(** A vertex and pixel shader pipeline that is none of the four internal
    kinds, whose client enables only two channels of target 0: the target
    mask stays 0x3, the colour mode is Normal. *)
Lemma normal_pipeline_keeps_client_write_mask :
  let p' :=
    fst (SetupNonShaderRegisters exDevice viHw (exCreateInfo 0x3)
           {[ mmCB_SHADER_MASK viAddr := 0xF ]} exUploader exPipeline) in
  categoryOf exPipeline = NormalPipeline
  /\ cbTargetMask (m_regs_context p') = 0x3
  /\ cbTargetMask (m_regs_context p') <> 0xF
  /\ getField (MODE viLayout) (cbColorControl (m_regs_context p'))
     = CB_NORMAL viEnums.
Proof. vm_compute. repeat split; congruence. Qed.

(** The masks the chain of special kinds starts from are the shader mask of
    the binary and the client's write masks; the masks it ends with are the
    ones the pipeline keeps, except that the toss point after the pixel
    shader clears the target mask of a client pipeline. *)
Lemma SetupNonShaderRegisters_masks dev hw createInfo registers u p :
  let ctx := m_regs_context p in
  let clientTargetMask :=
    fold_left
      (fun acc rt =>
         orBits acc (Z.shiftl (Z.land (channelWriteMask (target createInfo rt)) 0xF)
                              (Z.of_nat rt * 4)))
      (seq 0 MaxColorTargets) (cbTargetMask ctx) in
  let cm :=
    SetupNonShaderRegisters_colorMode hw p createInfo
      (mkColorMode (cbColorControl ctx)
                   (At registers (mmCB_SHADER_MASK (addr hw))) clientTargetMask) in
  let ctx' :=
    m_regs_context (fst (SetupNonShaderRegisters dev hw createInfo registers u p)) in
  cbShaderMask ctx' = cm_cbShaderMask cm
  /\ cbTargetMask ctx'
     = if negb (IsInternal (base p)) && tossPointAfterPs dev then 0
       else cm_cbTargetMask cm.
Proof.
  cbv zeta. unfold SetupNonShaderRegisters. cbv zeta.
  match goal with
  | |- context [let '(_, _) := ?x in _] => destruct x as [cc rb]
  end.
  split; reflexivity.
Qed.

(** The chain of special kinds on its own: what it makes of the colour
    control register and of the two masks it is given. *)
Lemma colorMode_by_category (hw : Hw) (p : GraphicsPipeline)
  (createInfo : GraphicsPipelineCreateInfo) (r : ColorModeRegs) :
  cbOk hw = true ->
  let l := lay hw in
  let e := enums hw in
  let r' := SetupNonShaderRegisters_colorMode hw p createInfo r in
  let mode := getField (MODE l) (cm_cbColorControl r') in
  let rop3 := getField (ROP3 l) (cm_cbColorControl r') in
  match categoryOf p with
  | FastClearEliminate =>
      mode = CB_ELIMINATE_FAST_CLEAR e /\ rop3 = Rop3 LogicCopy
      /\ cm_cbShaderMask r' = 0xF /\ cm_cbTargetMask r' = 0xF
  | FmaskDecompress =>
      mode = CB_FMASK_DECOMPRESS e /\ rop3 = Rop3 LogicCopy
      /\ cm_cbShaderMask r' = 0xF /\ cm_cbTargetMask r' = 0xF
  | DccDecompress =>
      mode = CB_DCC_DECOMPRESS__VI e /\ rop3 = Rop3 LogicCopy
      /\ cm_cbShaderMask r' = 0xF /\ cm_cbTargetMask r' = 0xF
  | FixedFuncResolve =>
      mode = CB_RESOLVE e /\ rop3 = Rop3 LogicCopy
      /\ cm_cbShaderMask r' = setField (OUTPUT0_ENABLE l) 0xF (cm_cbShaderMask r)
      /\ cm_cbTargetMask r' = setField (TARGET0_ENABLE l) 0xF (cm_cbTargetMask r)
      /\ getField (OUTPUT0_ENABLE l) (cm_cbShaderMask r') = 0xF
      /\ getField (TARGET0_ENABLE l) (cm_cbTargetMask r') = 0xF
  | NormalPipeline =>
      cm_cbShaderMask r' = cm_cbShaderMask r
      /\ cm_cbTargetMask r' = cm_cbTargetMask r
      /\ (if (cm_cbShaderMask r =? 0) || (cm_cbTargetMask r =? 0)
          then mode = CB_DISABLE e
          else mode = CB_NORMAL e /\ rop3 = Rop3 (logicOp createInfo))
  end.
Proof.
  intros Hok. cbv zeta. unfold cbOk in Hok.
  cbn [forallb] in Hok. split_ok Hok.
  assert (Hrop : forall op, Rop3 op mod 2 ^ fwidth (ROP3 (lay hw)) = Rop3 op).
  { intros op. pose proof (Rop3_range op).
    match goal with
    | H : fits 255 (ROP3 (lay hw)) = true |- _ => unfold fits in H
    end.
    apply Z.mod_small. lia. }
  unfold categoryOf, SetupNonShaderRegisters_colorMode. cbv zeta.
  destruct (IsFastClearEliminate (base p));
    [ cbn [cm_cbColorControl cm_cbShaderMask cm_cbTargetMask]; fields;
      rewrite Hrop, fits_mod by assumption; auto | ].
  destruct (IsFmaskDecompress (base p));
    [ cbn [cm_cbColorControl cm_cbShaderMask cm_cbTargetMask]; fields;
      rewrite Hrop, fits_mod by assumption; auto | ].
  destruct (IsDccDecompress (base p));
    [ cbn [cm_cbColorControl cm_cbShaderMask cm_cbTargetMask]; fields;
      rewrite Hrop, fits_mod by assumption; auto | ].
  destruct (IsResolveFixedFunc (base p)).
  - cbn [cm_cbColorControl cm_cbShaderMask cm_cbTargetMask]. fields.
    rewrite Hrop, !fits_mod by assumption. auto 10.
  - destruct ((cm_cbShaderMask r =? 0) || (cm_cbTargetMask r =? 0));
      cbn [cm_cbColorControl cm_cbShaderMask cm_cbTargetMask]; fields;
      rewrite ?Hrop, fits_mod by assumption; auto.
Qed.

(** The two steps of [SetupNonShaderRegisters] that follow the chain: the
    dual-source fallback may replace the mode by Disable, and enabling or
    disabling dual quad leaves the mode and the ROP3 code alone. *)
Lemma SetupNonShaderRegisters_colorControl dev hw createInfo registers u p :
  cbOk hw = true ->
  let ctx := m_regs_context p in
  let clientTargetMask :=
    fold_left
      (fun acc rt =>
         orBits acc (Z.shiftl (Z.land (channelWriteMask (target createInfo rt)) 0xF)
                              (Z.of_nat rt * 4)))
      (seq 0 MaxColorTargets) (cbTargetMask ctx) in
  let cm :=
    SetupNonShaderRegisters_colorMode hw p createInfo
      (mkColorMode (cbColorControl ctx)
                   (At registers (mmCB_SHADER_MASK (addr hw))) clientTargetMask) in
  let ctx' :=
    m_regs_context (fst (SetupNonShaderRegisters dev hw createInfo registers u p)) in
  getField (MODE (lay hw)) (cbColorControl ctx')
  = (if dualSourceBlendEnable createInfo
        && ((Z.land (cm_cbShaderMask cm) 0x0F =? 0)
            || (Z.land (cm_cbShaderMask cm) 0xF0 =? 0))
     then CB_DISABLE (enums hw)
     else getField (MODE (lay hw)) (cm_cbColorControl cm))
  /\ getField (ROP3 (lay hw)) (cbColorControl ctx')
     = getField (ROP3 (lay hw)) (cm_cbColorControl cm).
Proof.
  intros Hcb. cbv zeta.
  unfold cbOk in Hcb. cbv zeta in Hcb. cbn [forallb] in Hcb. split_ok Hcb.
  unfold SetupNonShaderRegisters. cbv zeta.
  match goal with
  | |- context [SetupNonShaderRegisters_colorMode hw p createInfo ?r] =>
      set (cm := SetupNonShaderRegisters_colorMode hw p createInfo r)
  end.
  clearbody cm.
  match goal with
  | |- context [if dualSourceBlendEnable createInfo && ?c then ?a else ?b] =>
      destruct (dualSourceBlendEnable createInfo && c)
  end;
    match goal with
    | |- context [if ?c then (setField _ 0 _, _) else _] => destruct c
    end;
    try destruct (rbPlus (ChipProperties dev));
    cbn; fields; rewrite ?fits_mod by assumption; split; reflexivity.
Qed.

(** [C2] Exactly one of the five kinds applies, the first in the order
    fast-clear-eliminate, fmask-decompress, dcc-decompress,
    fixed-function-resolve, normal whose flag is set.  On the pipeline that
    [SetupNonShaderRegisters] leaves: the first three kinds have their
    colour mode with the Copy ROP3 code, the shader mask 0xF and the target
    mask 0xF, overriding the client's masks; the fixed-function resolve has
    its mode with the Copy code and the four channels of target 0 forced in
    both masks, the other targets' bits as the binary and the client gave
    them; a normal pipeline keeps the binary's shader mask and the client's
    write masks, and has the mode Normal with the client's logic op, or the
    mode Disable when either mask is zero.  Two later steps apply to every
    kind: with dual-source blending and a shader mask that lacks the first
    or the second colour export the mode is Disable, and the toss point
    after the pixel shader zeroes the target mask of a pipeline that is not
    internal. *)
Theorem color_mode_by_category (dev : Device) (hw : Hw)
  (createInfo : GraphicsPipelineCreateInfo) (registers : RegisterVector)
  (u : GraphicsPipelineUploader) (p : GraphicsPipeline) :
  cbOk hw = true ->
  let l := lay hw in
  let e := enums hw in
  let ctx := m_regs_context p in
  let binaryShaderMask := At registers (mmCB_SHADER_MASK (addr hw)) in
  let clientTargetMask :=
    fold_left
      (fun acc rt =>
         orBits acc (Z.shiftl (Z.land (channelWriteMask (target createInfo rt)) 0xF)
                              (Z.of_nat rt * 4)))
      (seq 0 MaxColorTargets) (cbTargetMask ctx) in
  let ctx' :=
    m_regs_context (fst (SetupNonShaderRegisters dev hw createInfo registers u p)) in
  let mode := getField (MODE l) (cbColorControl ctx') in
  let rop3 := getField (ROP3 l) (cbColorControl ctx') in
  let tossed := negb (IsInternal (base p)) && tossPointAfterPs dev in
  let kept (mask : Z) := if tossed then 0 else mask in
  let dualSourceOff :=
    dualSourceBlendEnable createInfo
    && ((Z.land (cbShaderMask ctx') 0x0F =? 0)
        || (Z.land (cbShaderMask ctx') 0xF0 =? 0)) in
  let unlessOff (m : Z) := if dualSourceOff then CB_DISABLE e else m in
  match categoryOf p with
  | FastClearEliminate =>
      mode = unlessOff (CB_ELIMINATE_FAST_CLEAR e) /\ rop3 = Rop3 LogicCopy
      /\ cbShaderMask ctx' = 0xF /\ cbTargetMask ctx' = kept 0xF
  | FmaskDecompress =>
      mode = unlessOff (CB_FMASK_DECOMPRESS e) /\ rop3 = Rop3 LogicCopy
      /\ cbShaderMask ctx' = 0xF /\ cbTargetMask ctx' = kept 0xF
  | DccDecompress =>
      mode = unlessOff (CB_DCC_DECOMPRESS__VI e) /\ rop3 = Rop3 LogicCopy
      /\ cbShaderMask ctx' = 0xF /\ cbTargetMask ctx' = kept 0xF
  | FixedFuncResolve =>
      mode = unlessOff (CB_RESOLVE e) /\ rop3 = Rop3 LogicCopy
      /\ cbShaderMask ctx' = setField (OUTPUT0_ENABLE l) 0xF binaryShaderMask
      /\ cbTargetMask ctx' = kept (setField (TARGET0_ENABLE l) 0xF clientTargetMask)
      /\ getField (OUTPUT0_ENABLE l) (cbShaderMask ctx') = 0xF
      /\ (tossed = false -> getField (TARGET0_ENABLE l) (cbTargetMask ctx') = 0xF)
  | NormalPipeline =>
      cbShaderMask ctx' = binaryShaderMask
      /\ cbTargetMask ctx' = kept clientTargetMask
      /\ (if (binaryShaderMask =? 0) || (clientTargetMask =? 0)
          then mode = CB_DISABLE e
          else mode = unlessOff (CB_NORMAL e) /\ rop3 = Rop3 (logicOp createInfo))
  end.
Proof.
  intros Hok. cbv zeta.
  pose proof (SetupNonShaderRegisters_masks dev hw createInfo registers u p)
    as [Hsm Htm].
  pose proof (SetupNonShaderRegisters_colorControl dev hw createInfo registers u p
                Hok) as [Hmode Hrop].
  cbv zeta in Hsm, Htm, Hmode, Hrop.
  pose proof (colorMode_by_category hw p createInfo
                (mkColorMode (cbColorControl (m_regs_context p))
                   (At registers (mmCB_SHADER_MASK (addr hw)))
                   (fold_left
                      (fun acc rt =>
                         orBits acc
                           (Z.shiftl
                              (Z.land (channelWriteMask (target createInfo rt)) 0xF)
                              (Z.of_nat rt * 4)))
                      (seq 0 MaxColorTargets) (cbTargetMask (m_regs_context p))))
                Hok) as Hcat.
  cbv zeta in Hcat. cbn [cm_cbShaderMask cm_cbTargetMask] in Hcat.
  rewrite Hmode, Hrop, Htm, Hsm.
  set (cm := SetupNonShaderRegisters_colorMode hw p createInfo _) in *.
  clearbody cm.
  destruct (categoryOf p).
  - destruct Hcat as (Hm & Hr & Hs & Ht). rewrite Hm, Hr, Hs, Ht. auto.
  - destruct Hcat as (Hm & Hr & Hs & Ht). rewrite Hm, Hr, Hs, Ht. auto.
  - destruct Hcat as (Hm & Hr & Hs & Ht). rewrite Hm, Hr, Hs, Ht. auto.
  - destruct Hcat as (Hm & Hr & Hs & Ht & Ho & Hg).
    rewrite Hm, Hr, <- Hs, <- Ht. repeat split; try assumption.
    intros ->. exact Hg.
  - destruct Hcat as (Hs & Ht & Hm). rewrite <- Hs, <- Ht.
    repeat split.
    rewrite Hs, Ht.
    destruct ((At registers (mmCB_SHADER_MASK (addr hw)) =? 0) || _).
    + rewrite Hm.
      match goal with
      | |- (if ?c then _ else _) = _ => destruct c; reflexivity
      end.
    + destruct Hm as [Hm Hr]. rewrite Hm, Hr. auto.
Qed.

(** A fixed-function resolve, internal to the driver, whose binary exports
    colour 1 only and whose client enables target 1 only. *)
Lemma color_mode_by_category_witness :
  let p :=
    GraphicsPipeline_new
      (mkPalPipeline false false false false false false true true false 0
                     false (fun _ => 0) false) 0xFFFF in
  let createInfo :=
    mkCreateInfo false false false false false false ShadeGouraud PointUpperLeft
                 (fun i => match i with
                           | 1%nat => mkTarget 0xF X8Y8Z8W8_Unorm
                           | _ => mkTarget 0 (OtherFormat 0)
                           end)
                 LogicCopy false false in
  let ctx' :=
    m_regs_context
      (fst (SetupNonShaderRegisters exDevice viHw createInfo
              {[ mmCB_SHADER_MASK viAddr := 0xF0 ]} exUploader p)) in
  getField (MODE viLayout) (cbColorControl ctx') = CB_RESOLVE viEnums
  /\ getField (ROP3 viLayout) (cbColorControl ctx') = 0xCC
  /\ cbShaderMask ctx' = 0xFF
  /\ cbTargetMask ctx' = 0xFF
  /\ getField (OUTPUT0_ENABLE viLayout) (cbShaderMask ctx') = 0xF.
Proof.
  intros p createInfo.
  pose proof (color_mode_by_category exDevice viHw createInfo
                {[ mmCB_SHADER_MASK viAddr := 0xF0 ]} exUploader p eq_refl) as H.
  vm_compute in H. vm_compute.
  destruct H as (H1 & H2 & H3 & H4 & H5 & _). repeat split; assumption.
Defined.

(** ** RB+ blend-opt epsilon *)

Lemma slotField_ok slot : (slot < MaxColorTargets)%nat -> fieldOk (slotField slot) = true.
Proof. unfold MaxColorTargets, fieldOk, slotField. simpl. lia. Qed.

(** Clearing a slot's nibble and or-ing in a value is the write of the
    slot's field. *)
Lemma nibble_update x v slot :
  (slot < MaxColorTargets)%nat -> 0 <= v < 16 ->
  orBits (clearBits x (Z.shiftl 0xF (4 * Z.of_nat slot)))
         (Z.shiftl v (4 * Z.of_nat slot))
  = setField (slotField slot) v x.
Proof.
  unfold MaxColorTargets. intros Hslot Hv.
  unfold orBits, clearBits, setField, fmask, slotField. simpl fpos. simpl fwidth.
  change (Z.ones 4) with 15.
  assert (Ev : Z.land v 15 = v).
  { change 15 with (Z.ones 4). rewrite Z.land_ones by lia.
    apply Z.mod_small. simpl. lia. }
  rewrite Ev. f_equal. apply u32_small.
  rewrite Z.shiftl_mul_pow2 by lia.
  assert (0 < 2 ^ (4 * Z.of_nat slot) <= 2 ^ 28).
  { split; [apply Z.pow_pos_nonneg; lia | apply Z.pow_le_mono_r; lia]. }
  nia.
Qed.

(** [C7] The blend-opt epsilon of the nine down-convert codes is 15 for
    4:4:4:4, 11 for 5:6:5, 13 for 1:5:5:5, 6 for 8:8:8:8, 0 for 10:11:11,
    3 for 2:10:10:10 and 0 for both 16:16 orderings and for 32_R; a format
    that is none of those the code names maps to the no-conversion code; and
    the epsilon written to a slot's nibble of SX_BLEND_OPT_EPSILON is the
    table value of the format's code, 0 for no conversion. *)
Theorem blend_opt_epsilon_table (hw : Hw) (slot : nat) (writeMask : Z)
  (format : ChNumFormat) (regs : RbPlusRegs) :
  SX_BLEND_OPT_EPSILON__MRT0_EPSILON_MASK__VI (lay hw) = 0xF ->
  (slot < MaxColorTargets)%nat ->
  (SxBlendOptEpsilon SX_RT_EXPORT_4_4_4_4 = 15
   /\ SxBlendOptEpsilon SX_RT_EXPORT_5_6_5 = 11
   /\ SxBlendOptEpsilon SX_RT_EXPORT_1_5_5_5 = 13
   /\ SxBlendOptEpsilon SX_RT_EXPORT_8_8_8_8 = 6
   /\ SxBlendOptEpsilon SX_RT_EXPORT_10_11_11 = 0
   /\ SxBlendOptEpsilon SX_RT_EXPORT_2_10_10_10 = 3
   /\ SxBlendOptEpsilon SX_RT_EXPORT_16_16_GR = 0
   /\ SxBlendOptEpsilon SX_RT_EXPORT_16_16_AR = 0
   /\ SxBlendOptEpsilon SX_RT_EXPORT_32_R = 0)
  /\ (forall raw, SxDownConvertFormat (OtherFormat raw) = SX_RT_EXPORT_NO_CONVERSION)
  /\ getField (slotField slot)
       (rb_sxBlendOptEpsilon
          (SetupRbPlusRegistersForSlot hw slot writeMask format regs))
     = match SxDownConvertFormat format with
       | SX_RT_EXPORT_NO_CONVERSION => 0
       | SX_RT_EXPORT_4_4_4_4 => 15
       | SX_RT_EXPORT_5_6_5 => 11
       | SX_RT_EXPORT_1_5_5_5 => 13
       | SX_RT_EXPORT_8_8_8_8 => 6
       | SX_RT_EXPORT_10_11_11 => 0
       | SX_RT_EXPORT_2_10_10_10 => 3
       | SX_RT_EXPORT_16_16_GR | SX_RT_EXPORT_16_16_AR => 0
       | SX_RT_EXPORT_32_R | SX_RT_EXPORT_32_A => 0
       end.
Proof.
  intros Hmask Hslot. split; [repeat split|]. split; [reflexivity|].
  unfold SetupRbPlusRegistersForSlot. cbv zeta. cbn [rb_sxBlendOptEpsilon].
  rewrite Hmask.
  set (eps := if isNoConversion (SxDownConvertFormat format) then 0
              else SxBlendOptEpsilon (SxDownConvertFormat format)).
  assert (Heps : 0 <= eps < 16).
  { subst eps. destruct (SxDownConvertFormat format); simpl; lia. }
  rewrite nibble_update by assumption.
  rewrite getField_setField_same by (apply slotField_ok; assumption).
  change (fwidth (slotField slot)) with 4.
  rewrite Z.mod_small by (simpl; lia).
  subst eps. destruct (SxDownConvertFormat format); reflexivity.
Qed.

(** An 8:8:8:8 target in slot 2 and an unlisted format in slot 5. *)
Lemma blend_opt_epsilon_table_witness :
  getField (slotField 2)
    (rb_sxBlendOptEpsilon
       (SetupRbPlusRegistersForSlot viHw 2 0xF X8Y8Z8W8_Unorm
          (mkRbPlus 0 0xFFFFFFFF 0)))
  = 6
  /\ getField (slotField 5)
       (rb_sxBlendOptEpsilon
          (SetupRbPlusRegistersForSlot viHw 5 0xF (OtherFormat 77)
             (mkRbPlus 0 0xFFFFFFFF 0)))
     = 0.
Proof.
  split.
  - exact (proj2 (proj2 (blend_opt_epsilon_table viHw 2 0xF X8Y8Z8W8_Unorm
                           (mkRbPlus 0 0xFFFFFFFF 0) eq_refl
                           ltac:(unfold MaxColorTargets; lia)))).
  - exact (proj2 (proj2 (blend_opt_epsilon_table viHw 5 0xF (OtherFormat 77)
                           (mkRbPlus 0 0xFFFFFFFF 0) eq_refl
                           ltac:(unfold MaxColorTargets; lia)))).
Defined.

(** ** SET or LOAD at command emission *)

(** Membership in a list that is written out. *)
Ltac in_list := cbn [In app]; repeat first [ left; reflexivity | right ].

(** [C8] For the SH group and for the context group alike, what the
    pipeline writes contains a LOAD_INDEX packet exactly when the group's
    LoadBlock count is not zero and the PM4 optimizer of the command stream
    is off, and the stage collaborators are run on the LOAD path exactly
    then.  When the SH group loads, the packet loads the compiled LoadBlock
    and the pipeline writes no SET packet of its own; when it does not, the
    pipeline sets SPI_SHADER_LATE_ALLOC_VS itself (on Gfx7 and later).  On
    either path every enabled stage collaborator is called, the last one
    always, with the path as its template argument.  When the context
    group loads, the packet loads the compiled LoadBlock, no SET packet is
    written and no collaborator is called; when it does not, the packets of
    the SET path are written (thirteen, or twelve with the
    over-rasterization workaround) and every enabled collaborator is called
    on the SET path.  The two read-modify-write packets are written on both
    paths.  With the optimizer on, no LOAD_INDEX packet is written and the
    collaborators run on the SET path, whatever was compiled. *)
Theorem load_path_choice (dev : Device) (hw : Hw) (p : GraphicsPipeline)
  (pCmdStream : CmdStream) (pCmdSpace : list Pm4)
  (graphicsInfo : DynamicGraphicsShaderInfos) :
  let optimizer := Pm4OptimizerEnabled pCmdStream in
  let loadSh := negb (countSh (m_loadPath p) =? 0) && negb optimizer in
  let loadCtx := negb (countCtx (m_loadPath p) =? 0) && negb optimizer in
  let infos := CalcDynamicStageInfos dev p graphicsInfo in
  let gfx7 := gfxIpRank GfxIp7 <=? gfxIpRank (gfxLevel (ChipProperties dev)) in
  let ctx := m_regs_context p in
  (exists written,
      WriteShCommands dev hw p pCmdStream pCmdSpace graphicsInfo
      = pCmdSpace ++ written
      /\ existsb isLoadPacket written = loadSh
      /\ (forall c b, In c written -> chunkLoadIndexFlag c = Some b -> b = loadSh)
      /\ existsb isSetPacket written = negb loadSh && gfx7
      /\ (loadSh = true ->
          In (LoadShRegsIndex (gpuVirtAddrSh (m_loadPath p)) (countSh (m_loadPath p)))
             written)
      /\ (loadSh = false -> gfx7 = true ->
          In (SetOneShReg (mmSPI_SHADER_LATE_ALLOC_VS__CI__VI (addr hw))
                          (m_regs_sh_spiShaderLateAllocVs p))
             written)
      /\ In (ChunkShCommands ChunkVsPs loadSh (si_vs infos) (si_ps infos)) written
      /\ (IsTessEnabled (base p) = true ->
          In (ChunkShCommands ChunkLsHs loadSh (si_ls infos) (si_hs infos)) written)
      /\ (IsGsEnabled (base p) = true ->
          In (ChunkShCommands ChunkEsGs loadSh (si_es infos) (si_gs infos)) written))
  /\ (exists written,
         WriteContextCommands dev hw p pCmdStream pCmdSpace
         = pCmdSpace ++ written
         /\ existsb isLoadPacket written = loadCtx
         /\ existsb isSetPacket written = negb loadCtx
         /\ (forall c b, In c written -> chunkLoadIndexFlag c = Some b ->
                         b = loadCtx)
         /\ (loadCtx = true ->
             In (LoadContextRegsIndex (gpuVirtAddrCtx (m_loadPath p))
                                      (countCtx (m_loadPath p)))
                written
             /\ forall c, In c written -> chunkLoadIndexFlag c = None)
         /\ (loadCtx = false ->
             (forall c, In c (WriteContextCommandsSetPath dev hw p []) ->
                        In c written)
             /\ length (filter isSetPacket written)
                = (if WaDbOverRasterization dev then 12%nat else 13%nat)
             /\ In (ChunkContextCommands ChunkVsPs false) written
             /\ (IsTessEnabled (base p) = true ->
                 In (ChunkContextCommands ChunkLsHs false) written)
             /\ (IsGsEnabled (base p) = true ->
                 In (ChunkContextCommands ChunkEsGs false) written))
         /\ In (ContextRegRmw (mmDB_ALPHA_TO_MASK (addr hw))
                              (fmask (ALPHA_TO_MASK_ENABLE (lay hw)))
                              (dbAlphaToMask ctx))
               written
         /\ In (ContextRegRmw (mmDB_RENDER_OVERRIDE (addr hw))
                              (DbRenderOverrideRmwMask (lay hw))
                              (dbRenderOverride ctx))
               written)
  /\ (optimizer = true -> loadSh = false /\ loadCtx = false).
Proof.
  cbv zeta. split; [|split].
  - unfold WriteShCommands, chunksWriteShCommands. cbv zeta.
    set (infos := CalcDynamicStageInfos dev p graphicsInfo). clearbody infos.
    destruct (countSh (m_loadPath p) =? 0), (Pm4OptimizerEnabled pCmdStream),
      (gfxIpRank GfxIp7 <=? gfxIpRank (gfxLevel (ChipProperties dev))),
      (IsTessEnabled (base p)), (IsGsEnabled (base p));
      cbn [orb andb negb];
      rewrite <- ?app_assoc;
      (eexists; split; [reflexivity|]); (split; [reflexivity|]);
      (split;
       [ intros c b Hin Hflag; cbn in Hin;
         repeat (destruct Hin as [<- | Hin]; [cbn in Hflag; congruence|]);
         destruct Hin
       | ]);
      (split; [reflexivity|]);
      repeat split; intros; try discriminate; in_list.
  - unfold WriteContextCommands, WriteContextCommandsSetPath. cbv zeta.
    destruct (countCtx (m_loadPath p) =? 0), (Pm4OptimizerEnabled pCmdStream),
      (WaDbOverRasterization dev),
      (IsTessEnabled (base p)), (IsGsEnabled (base p));
      cbn [orb andb negb];
      rewrite <- ?app_assoc;
      (eexists; split; [reflexivity|]); (split; [reflexivity|]);
      (split; [reflexivity|]);
      (split;
       [ intros c b Hin Hflag; cbn in Hin;
         repeat (destruct Hin as [<- | Hin]; [cbn in Hflag; congruence|]);
         destruct Hin
       | ]);
      (split;
       [ intros Hload;
         first
           [ discriminate Hload
           | split; [in_list|];
             intros c Hin; cbn in Hin;
             repeat (destruct Hin as [<- | Hin]; [reflexivity|]); destruct Hin ]
       | ]);
      (split;
       [ intros Hload;
         first
           [ discriminate Hload
           | split;
               [ intros c Hin; cbn [In app] in Hin;
                 repeat (destruct Hin as [<- | Hin]; [in_list|]); destruct Hin
               | ];
             split; [reflexivity|];
             repeat split; intros; try discriminate; in_list ]
       | ]);
      split; in_list.
  - intros ->. now rewrite !andb_false_r.
Qed.

(** ** The LoadBlock counts are a pair *)

Lemma AddCtxReg_size a v u :
  CtxRegisterCount (AddCtxReg a v u) = CtxRegisterCount u
  /\ ShRegisterCount (AddCtxReg a v u) = ShRegisterCount u
  /\ EnableLoadIndexPath (AddCtxReg a v u) = EnableLoadIndexPath u.
Proof. repeat split. Qed.

Lemma AddShReg_size a v u :
  CtxRegisterCount (AddShReg a v u) = CtxRegisterCount u
  /\ ShRegisterCount (AddShReg a v u) = ShRegisterCount u
  /\ EnableLoadIndexPath (AddShReg a v u) = EnableLoadIndexPath u.
Proof. repeat split. Qed.

Lemma AddCtxRegs_size rs u :
  CtxRegisterCount (AddCtxRegs rs u) = CtxRegisterCount u
  /\ ShRegisterCount (AddCtxRegs rs u) = ShRegisterCount u
  /\ EnableLoadIndexPath (AddCtxRegs rs u) = EnableLoadIndexPath u.
Proof.
  unfold AddCtxRegs. revert u.
  induction rs as [|r rs IH]; intros u; [repeat split|].
  cbn [fold_left]. destruct (IH (AddCtxReg (fst r) (snd r) u)) as (E1 & E2 & E3).
  rewrite E1, E2, E3. repeat split.
Qed.

Lemma addChunkRegs_size rs u :
  CtxRegisterCount (addChunkRegs rs u) = CtxRegisterCount u
  /\ ShRegisterCount (addChunkRegs rs u) = ShRegisterCount u
  /\ EnableLoadIndexPath (addChunkRegs rs u) = EnableLoadIndexPath u.
Proof.
  unfold addChunkRegs.
  assert (H : forall l v,
             CtxRegisterCount (fold_left (fun u' r => AddShReg (fst r) (snd r) u') l v)
             = CtxRegisterCount v
             /\ ShRegisterCount (fold_left (fun u' r => AddShReg (fst r) (snd r) u') l v)
                = ShRegisterCount v
             /\ EnableLoadIndexPath
                  (fold_left (fun u' r => AddShReg (fst r) (snd r) u') l v)
                = EnableLoadIndexPath v).
  { induction l as [|r l IH]; intros v; [repeat split|].
    cbn [fold_left]. destruct (IH (AddShReg (fst r) (snd r) v)) as (E1 & E2 & E3).
    rewrite E1, E2, E3. repeat split. }
  destruct (H (snd rs) (AddCtxRegs (fst rs) u)) as (E1 & E2 & E3).
  destruct (AddCtxRegs_size (fst rs) u) as (F1 & F2 & F3).
  rewrite E1, E2, E3, F1, F2, F3. repeat split.
Qed.

Lemma sameSize_cond (b : bool) x u :
  sameSize x u -> sameSize (if b then x else u) u.
Proof. intros H. destruct b; [exact H | repeat split]. Qed.

(** The register setup leaves the pipeline's load path and the uploader's
    size alone. *)
Lemma SetupLateAllocVs_frame dev hw registers u p :
  m_loadPath (fst (SetupLateAllocVs dev hw registers u p)) = m_loadPath p
  /\ sameSize (snd (SetupLateAllocVs dev hw registers u p)) u.
Proof.
  unfold SetupLateAllocVs.
  destruct (negb (isGfxIp6 (gfxLevel (ChipProperties dev)))); cbn [fst snd];
    [|repeat split].
  split; [reflexivity|]. apply sameSize_cond. apply AddShReg_size.
Qed.

Lemma SetupCommonRegisters_frame dev hw createInfo registers u p :
  m_loadPath (fst (SetupCommonRegisters dev hw createInfo registers u p))
  = m_loadPath p
  /\ sameSize (snd (SetupCommonRegisters dev hw createInfo registers u p)) u.
Proof.
  unfold SetupCommonRegisters. cbv zeta.
  match goal with
  | |- context [SetupLateAllocVs dev hw registers ?u' ?p'] =>
      pose proof (SetupLateAllocVs_frame dev hw registers u' p') as [Hp Hu];
      assert (Hu' : sameSize u' u)
        by (apply sameSize_cond; apply AddCtxRegs_size);
      destruct (SetupLateAllocVs dev hw registers u' p') as [p1 u1]
  end.
  cbn [fst snd] in *. split.
  - unfold SetupIaMultiVgtParam. cbn. exact Hp.
  - unfold sameSize in *. intuition congruence.
Qed.

Lemma SetupNonShaderRegisters_frame dev hw createInfo registers u p :
  m_loadPath (fst (SetupNonShaderRegisters dev hw createInfo registers u p))
  = m_loadPath p
  /\ sameSize (snd (SetupNonShaderRegisters dev hw createInfo registers u p)) u.
Proof.
  unfold SetupNonShaderRegisters. cbv zeta.
  match goal with
  | |- context [let '(_, _) := ?x in _] => destruct x as [cc rb]
  end.
  cbn [fst snd]. split; [reflexivity|].
  apply sameSize_cond. apply AddCtxRegs_size.
Qed.

Lemma EarlyInit_frame dev hw chunks hash metadata registers p info :
  m_loadPath (fst (fst (EarlyInit dev hw chunks hash metadata registers p info)))
  = m_loadPath p.
Proof.
  unfold EarlyInit. cbv zeta.
  match goal with
  | |- context [SetupSignatureFromElf ?a ?b ?c ?d ?e ?f ?g] =>
      destruct (SetupSignatureFromElf a b c d e f g) as [[[g' rGs] rVs] fl]
  end.
  destruct (enableLoadIndexForObjectBinds (Settings dev)); cbn [fst snd];
    match goal with
    | |- context [if ?c then set_base _ _ else _] => destruct c
    end; reflexivity.
Qed.

(** What [EarlyInit] asks for: with register preloading both budgets are
    positive, without it both are zero. *)
Lemma EarlyInit_counts dev hw chunks hash metadata registers p :
  chunksKeepLoadCounts dev chunks ->
  let info := snd (fst (EarlyInit dev hw chunks hash metadata registers p
                                  zeroLoadInfo)) in
  if enableLoadIndexForObjectBinds (Settings dev)
  then 0 < loadedShRegCount info /\ 0 < loadedCtxRegCount info
  else loadedShRegCount info = 0 /\ loadedCtxRegCount info = 0.
Proof.
  intros (Hls & Hes & Hvs). cbv zeta. unfold EarlyInit. cbv zeta.
  match goal with
  | |- context [SetupSignatureFromElf ?a ?b ?c ?d ?e ?f ?g] =>
      destruct (SetupSignatureFromElf a b c d e f g) as [[[g' rGs] rVs] fl]
  end.
  unfold keepsLoadCounts in *.
  destruct (enableLoadIndexForObjectBinds (Settings dev)) eqn:Een;
    cbn [fst snd];
    match goal with
    | |- context [chunkVsPs_EarlyInit chunks registers ?i] =>
        pose proof (Hvs registers i) as Hv; set (i3 := i) in *
    end;
    match goal with
    | i3 := (if ?c then chunkEsGs_EarlyInit chunks ?i else _) |- _ =>
        pose proof (Hes i) as He; set (i2 := i) in *
    end;
    match goal with
    | i2 := (if ?c then chunkLsHs_EarlyInit chunks ?i else _) |- _ =>
        pose proof (Hls i) as Hl; set (i1 := i) in *
    end.
  - assert (H1 : loadedShRegCount i1 = 1 /\ loadedCtxRegCount i1 = 14)
      by (split; reflexivity).
    destruct H1 as [H1s H1c].
    assert (0 < loadedShRegCount i2 /\ 0 < loadedCtxRegCount i2) as [? ?].
    { subst i2.
      match goal with
      | |- context [if ?c then chunkLsHs_EarlyInit _ _ else _] => destruct c
      end; [|lia].
      destruct Hl as [Ha Hb]. split; [apply Ha | apply Hb]; lia. }
    assert (0 < loadedShRegCount i3 /\ 0 < loadedCtxRegCount i3) as [? ?].
    { subst i3.
      match goal with
      | |- context [if ?c then chunkEsGs_EarlyInit _ _ else _] => destruct c
      end; [|lia].
      destruct He as [Ha Hb]. split; [apply Ha | apply Hb]; lia. }
    destruct Hv as [Ha Hb]. split; [apply Ha | apply Hb]; lia.
  - assert (H1 : loadedShRegCount i1 = 0 /\ loadedCtxRegCount i1 = 0)
      by (split; reflexivity).
    destruct H1 as [H1s H1c].
    assert (loadedShRegCount i2 = 0 /\ loadedCtxRegCount i2 = 0) as [? ?].
    { subst i2.
      match goal with
      | |- context [if ?c then chunkLsHs_EarlyInit _ _ else _] => destruct c
      end; lia. }
    assert (loadedShRegCount i3 = 0 /\ loadedCtxRegCount i3 = 0) as [? ?].
    { subst i3.
      match goal with
      | |- context [if ?c then chunkEsGs_EarlyInit _ _ else _] => destruct c
      end; lia. }
    lia.
Qed.

(** [C9] Whatever the register-preload setting is, a pipeline compiled from
    a newly constructed object has LoadBlock counts that are both zero or
    both nonzero, and the budgets [EarlyInit] asks for pass its closing
    assertion.  The stage collaborators are assumed to keep to their
    contract: they leave the budgets alone without preloading and only add
    registers with it. *)
Theorem load_block_counts_paired (dev : Device) (hw : Hw)
  (chunks : PipelineChunks) (hash : UserDataEntryMap -> Z) (ext : InitOutcome)
  (createInfo : GraphicsPipelineCreateInfo) (metadata : CodeObjectMetadata)
  (b : PalGraphicsPipeline) (noSpill : Z) :
  chunksKeepLoadCounts dev chunks ->
  let p0 := GraphicsPipeline_new b noSpill in
  let p := snd (HwlInit dev hw chunks hash ext createInfo metadata p0) in
  let info :=
    snd (fst (EarlyInit dev hw chunks hash metadata (unpackedRegisters ext) p0
                        zeroLoadInfo)) in
  EarlyInit_assert dev info = true
  /\ ((countCtx (m_loadPath p) = 0 /\ countSh (m_loadPath p) = 0)
      \/ (0 < countCtx (m_loadPath p) /\ 0 < countSh (m_loadPath p))).
Proof.
  intros Hchunks. cbv zeta.
  pose proof (EarlyInit_counts dev hw chunks hash metadata (unpackedRegisters ext)
                (GraphicsPipeline_new b noSpill) Hchunks) as Hcounts.
  pose proof (EarlyInit_frame dev hw chunks hash metadata (unpackedRegisters ext)
                (GraphicsPipeline_new b noSpill) zeroLoadInfo) as Hframe.
  cbv zeta in Hcounts. split.
  - unfold EarlyInit_assert.
    destruct (enableLoadIndexForObjectBinds (Settings dev)); lia.
  - unfold HwlInit. cbv zeta.
    destruct (unpackResult ext); [|left; split; reflexivity].
    destruct (EarlyInit dev hw chunks hash metadata (unpackedRegisters ext)
                (GraphicsPipeline_new b noSpill) zeroLoadInfo)
      as [[p1 info] fl].
    cbn [fst snd] in Hcounts, Hframe.
    destruct (uploadResult ext);
      [|cbn [snd]; rewrite Hframe; left; split; reflexivity].
    match goal with
    | |- context [SetupCommonRegisters dev hw createInfo ?r ?u p1] =>
        pose proof (SetupCommonRegisters_frame dev hw createInfo r u p1)
          as [Hp2 Hu2];
        assert (Hu : sameSize u
                       (mkUploader (loadedCtxRegCount info) (loadedShRegCount info)
                                   (uploadEnablesLoadIndexPath ext)
                                   (uploadCtxRegGpuVirtAddr ext)
                                   (uploadShRegGpuVirtAddr ext) [] []));
        [| destruct (SetupCommonRegisters dev hw createInfo r u p1) as [p2 u2] ]
    end.
    { unfold sameSize.
      repeat match goal with
             | |- context [if ?c then addChunkRegs ?rs ?u else _] =>
                 pose proof (addChunkRegs_size rs u); destruct c
             | |- context [addChunkRegs ?rs ?u] =>
                 pose proof (addChunkRegs_size rs u);
                 generalize dependent (addChunkRegs rs u); intros
             end;
      unfold sameSize in *; cbn in *; intuition congruence. }
    cbn [fst snd] in Hp2, Hu2.
    pose proof (SetupNonShaderRegisters_frame dev hw createInfo
                  (unpackedRegisters ext) u2 p2) as [Hp3 Hu3].
    destruct (SetupNonShaderRegisters dev hw createInfo (unpackedRegisters ext)
                u2 p2) as [p3 u3].
    cbn [fst snd] in Hp3, Hu3.
    assert (Hsize : sameSize u3
                      (mkUploader (loadedCtxRegCount info) (loadedShRegCount info)
                                  (uploadEnablesLoadIndexPath ext)
                                  (uploadCtxRegGpuVirtAddr ext)
                                  (uploadShRegGpuVirtAddr ext) [] [])).
    { unfold sameSize in *. intuition congruence. }
    destruct Hsize as (Ec & Es & Ee). cbn in Ec, Es, Ee.
    cbn [snd]. destruct (EnableLoadIndexPath u3).
    + cbn. rewrite Ec, Es.
      destruct (enableLoadIndexForObjectBinds (Settings dev)); [right | left]; lia.
    + rewrite Hp3, Hp2, Hframe. left. split; reflexivity.
Qed.

(** Preloading on the example device: the context and SH counts of a vertex
    and pixel shader pipeline are 23 and 9. *)
Lemma load_block_counts_paired_witness :
  let p :=
    snd (HwlInit exDevice viHw (exChunks true) exHash (exOutcome ∅)
                 (exCreateInfo 0xF) exMetadata exPipeline) in
  (countCtx (m_loadPath p) = 0 /\ countSh (m_loadPath p) = 0)
  \/ (0 < countCtx (m_loadPath p) /\ 0 < countSh (m_loadPath p)).
Proof.
  apply (load_block_counts_paired exDevice viHw (exChunks true) exHash
           (exOutcome ∅) (exCreateInfo 0xF) exMetadata exBase 0xFFFF).
  repeat split; intros; simpl; lia.
Defined.

Example load_block_counts_example :
  let p :=
    snd (HwlInit exDevice viHw (exChunks true) exHash (exOutcome ∅)
                 (exCreateInfo 0xF) exMetadata exPipeline) in
  countCtx (m_loadPath p) = 23 /\ countSh (m_loadPath p) = 9.
Proof. vm_compute. split; reflexivity. Qed.

(** ** Base vertex and base instance in the signature *)

(** A binary that maps only base-instance, to the fourth user-data register
    of the hardware vertex stage, with no base-vertex mapping anywhere: the
    builder reports no failed check and records the register before it as
    the vertex-offset register. *)
Lemma base_instance_alone_is_accepted :
  let registers : RegisterVector :=
    {[ mmSPI_SHADER_USER_DATA_VS_0 viAddr + 3 := BaseInstance viAbi ]} in
  let '(g, _, _, failed') :=
    SetupSignatureFromElf viHw exHash exPipeline exMetadata registers 0 0 in
  registers !! (mmSPI_SHADER_USER_DATA_VS_0 viAddr + 2) = None
  /\ failed' = []
  /\ vertexOffsetRegAddr g = mmSPI_SHADER_USER_DATA_VS_0 viAddr + 2.
Proof. vm_compute. repeat split. Qed.

(** Base-vertex two registers before base-instance is reported. *)
Example base_instance_after_distant_base_vertex :
  let registers : RegisterVector :=
    {[ mmSPI_SHADER_USER_DATA_VS_0 viAddr + 1 := BaseVertex viAbi;
       mmSPI_SHADER_USER_DATA_VS_0 viAddr + 3 := BaseInstance viAbi ]} in
  let '(_, _, _, failed') :=
    SetupSignatureFromElf viHw exHash exPipeline exMetadata registers 0 0 in
  failed'
  = [BaseInstanceNotAfterBaseVertex (mmSPI_SHADER_USER_DATA_VS_0 viAddr + 3)].
Proof. vm_compute. reflexivity. Qed.

(** What the well-formedness of the ABI constants says about the
    base-instance mapping. *)
Lemma abiOk_BaseInstance c :
  abiOk c = true ->
  MaxUserDataEntries c <= BaseInstance c
  /\ 2 ^ 16 <= BaseInstance c + 1
  /\ BaseInstance c + 1 < 2 ^ 32
  /\ BaseInstance c <> GlobalTable c
  /\ BaseInstance c <> PerShaderTable c
  /\ BaseInstance c <> SpillTable c
  /\ BaseInstance c <> Workgroup c
  /\ BaseInstance c <> VertexBufferTable c
  /\ BaseInstance c <> StreamOutTable c
  /\ BaseInstance c <> BaseVertex c.
Proof.
  intros Habi. unfold abiOk, reservedMappings in Habi.
  cbn [forallb] in Habi. split_ok Habi.
  repeat split;
    first [ apply Z.leb_le; assumption
          | apply Z.ltb_lt; assumption
          | apply not_eq_sym, Z.eqb_neq, negb_true_iff; assumption ].
Qed.

(** [C3] A base-instance mapping at a register address records the address
    before it as the vertex-offset register.  It passes the builder's check
    when base-vertex is recorded at the address before it or when no
    base-vertex register is recorded so far; when base-vertex is recorded
    at any other address the check fails and the failure is reported.  The
    two metadata sentinels are 16-bit values. *)
Theorem base_instance_mapping (hw : Hw) (stage' : HwShaderStage)
  (streamOutTableEntryPlus1 indirectTableEntryPlus1 : Z)
  (vbTableStage : HwShaderStage) (offset : Z) (st : SigState) :
  abiOk (abi hw) = true ->
  0 <= streamOutTableEntryPlus1 < 2 ^ 16 ->
  0 <= indirectTableEntryPlus1 < 2 ^ 16 ->
  let st' :=
    SetupSignatureForStageFromElf_entry hw stage'
      streamOutTableEntryPlus1 indirectTableEntryPlus1 vbTableStage
      offset (BaseInstance (abi hw)) st in
  vertexOffsetRegAddr (sig st') = u16 (offset - 1)
  /\ failed st'
     = if (vertexOffsetRegAddr (sig st) =? offset - 1)
          || (vertexOffsetRegAddr (sig st) =? UserDataNotMapped)
       then failed st
       else failed st ++ [BaseInstanceNotAfterBaseVertex offset].
Proof.
  intros Habi Hso Hind. cbv zeta.
  apply abiOk_BaseInstance in Habi.
  destruct Habi as (Hmax & Hlo & Hhi & Hgt & Hps & Hsp & Hwg & Hvb & Hso' & Hbv).
  unfold SetupSignatureForStageFromElf_entry. cbv zeta.
  set (c := abi hw) in *.
  rewrite u32_small by lia.
  replace (BaseInstance c + 1 =? streamOutTableEntryPlus1) with false by lia.
  replace (BaseInstance c + 1 =? indirectTableEntryPlus1) with false by lia.
  replace (BaseInstance c <? MaxUserDataEntries c) with false by lia.
  replace (BaseInstance c =? GlobalTable c) with false by lia.
  replace (BaseInstance c =? PerShaderTable c) with false by lia.
  replace (BaseInstance c =? SpillTable c) with false by lia.
  replace (BaseInstance c =? Workgroup c) with false by lia.
  replace (BaseInstance c =? VertexBufferTable c) with false by lia.
  replace (BaseInstance c =? StreamOutTable c) with false by lia.
  replace (BaseInstance c =? BaseVertex c) with false by lia.
  rewrite Z.eqb_refl.
  unfold withSig, check.
  destruct ((vertexOffsetRegAddr (sig st) =? offset - 1)
            || (vertexOffsetRegAddr (sig st) =? UserDataNotMapped));
    split; reflexivity.
Qed.

(** Base-instance right after a base-vertex register passes; base-instance
    with base-vertex elsewhere is reported. *)
Lemma base_instance_mapping_witness :
  let g := set_vertexOffsetRegAddr 0x2C4E (NullGfxSignature 0xFFFF) in
  let ok :=
    SetupSignatureForStageFromElf_entry viHw Vs 0 0 Vs 0x2C4F
      (BaseInstance viAbi) (mkSigState g None []) in
  let bad :=
    SetupSignatureForStageFromElf_entry viHw Vs 0 0 Vs 0x2C51
      (BaseInstance viAbi) (mkSigState g None []) in
  (vertexOffsetRegAddr (sig ok) = 0x2C4E /\ failed ok = [])
  /\ (vertexOffsetRegAddr (sig bad) = 0x2C50
      /\ failed bad = [BaseInstanceNotAfterBaseVertex 0x2C51]).
Proof.
  split.
  - pose proof (base_instance_mapping viHw Vs 0 0 Vs 0x2C4F
                  (mkSigState (set_vertexOffsetRegAddr 0x2C4E
                                 (NullGfxSignature 0xFFFF)) None [])
                  eq_refl ltac:(simpl; lia) ltac:(simpl; lia)) as H.
    vm_compute in H. vm_compute. exact H.
  - pose proof (base_instance_mapping viHw Vs 0 0 Vs 0x2C51
                  (mkSigState (set_vertexOffsetRegAddr 0x2C4E
                                 (NullGfxSignature 0xFFFF)) None [])
                  eq_refl ltac:(simpl; lia) ltac:(simpl; lia)) as H.
    vm_compute in H. vm_compute. exact H.
Defined.

(** * Further properties *)

(** ** Shader stages and dynamic limits *)

(** [X1] On Gfx7 and newer hardware the limits a caller gives for an API
    shader reach exactly the hardware stage that [GetShaderStageInfo] reports
    for that shader, and a hardware stage that hosts no API shader gets the
    zero (unlimited) stage info; on Gfx6 every stage gets the zero info. *)
Theorem dynamic_limits_follow_stage_mapping (dev : Device) (p : GraphicsPipeline)
  (graphicsInfo : DynamicGraphicsShaderInfos) :
  let infos := CalcDynamicStageInfos dev p graphicsInfo in
  (gfxIpRank GfxIp7 <= gfxIpRank (gfxLevel (ChipProperties dev)) ->
   (forall t s info,
       GetShaderStageInfo p t = Some s ->
       shaderInfoOf t graphicsInfo = Some info ->
       stageInfoOf s infos = CalcDynamicStageInfo dev info)
   /\ (forall s,
          (forall t, GetShaderStageInfo p t <> Some s) ->
          stageInfoOf s infos = mkStageInfo 0 0))
  /\ (gfxLevel (ChipProperties dev) = GfxIp6 ->
      forall s, stageInfoOf s infos = mkStageInfo 0 0).
Proof.
  cbv zeta. unfold CalcDynamicStageInfos. cbv zeta. split.
  - intros Hgen.
    replace (2 <=? gfxIpRank (gfxLevel (ChipProperties dev))) with true
      by (simpl in Hgen; lia).
    split.
    + intros t s info Hs Hi.
      destruct t; simpl in Hs, Hi; try discriminate;
        destruct (IsTessEnabled (base p)), (IsGsEnabled (base p));
        simpl in Hs; try discriminate;
        injection Hs as <-; injection Hi as <-; reflexivity.
    + intros s Hnone.
      pose proof (Hnone ShaderVertex) as Hv. pose proof (Hnone ShaderHull) as Hh.
      pose proof (Hnone ShaderDomain) as Hd.
      pose proof (Hnone ShaderGeometry) as Hg.
      pose proof (Hnone ShaderPixel) as Hp.
      destruct s; simpl in *;
        destruct (IsTessEnabled (base p)), (IsGsEnabled (base p));
        simpl in *; congruence.
  - intros Hgen s. rewrite Hgen. destruct s; reflexivity.
Qed.

Lemma abiOk_VertexBufferTable c :
  abiOk c = true ->
  MaxUserDataEntries c <= VertexBufferTable c
  /\ 2 ^ 16 <= VertexBufferTable c + 1
  /\ VertexBufferTable c + 1 < 2 ^ 32
  /\ VertexBufferTable c <> GlobalTable c
  /\ VertexBufferTable c <> PerShaderTable c
  /\ VertexBufferTable c <> SpillTable c
  /\ VertexBufferTable c <> Workgroup c.
Proof.
  intros Habi. unfold abiOk, reservedMappings in Habi.
  cbn [forallb] in Habi. split_ok Habi.
  repeat split;
    first [ apply Z.leb_le; assumption
          | apply Z.ltb_lt; assumption
          | apply Z.eqb_neq, negb_true_iff; assumption
          | apply not_eq_sym, Z.eqb_neq, negb_true_iff; assumption ].
Qed.

(** [X2] The hardware stage that runs the vertex shader is the same for the
    stage query and for the user-data base offset, and it is the stage in
    which the signature builder accepts the indirect-table sentinel of
    older binaries (a register whose value plus one is the indirect table
    address of the metadata): there the register becomes the vertex-buffer
    table register, in any other stage the signature is left alone and the
    check fails.  The reserved vertex-buffer-table mapping of newer
    binaries has no such stage test: it is recorded in whatever stage maps
    it. *)
Theorem vertex_stage_is_consistent (hw : Hw) (p : GraphicsPipeline) :
  GetShaderStageInfo p ShaderVertex = Some (vbTableStageOf p)
  /\ GetVsUserDataBaseOffset hw p = BaseRegAddr (addr hw) (vbTableStageOf p)
  /\ (forall stage' so ind offset value st,
         u32 (value + 1) <> so -> u32 (value + 1) = ind ->
         let st' :=
           SetupSignatureForStageFromElf_entry hw stage' so ind (vbTableStageOf p)
                                               offset value st in
         if stage_eqb stage' (vbTableStageOf p)
         then vertexBufTableRegAddr (sig st') = offset /\ failed st' = failed st
         else sig st' = sig st
              /\ failed st' = failed st ++ [IndirectTableInOtherStage offset])
  /\ (abiOk (abi hw) = true ->
      forall stage' so ind offset st,
        0 <= so < 2 ^ 16 -> 0 <= ind < 2 ^ 16 ->
        let st' :=
          SetupSignatureForStageFromElf_entry hw stage' so ind (vbTableStageOf p)
            offset (VertexBufferTable (abi hw)) st in
        vertexBufTableRegAddr (sig st') = offset
        /\ failed st'
           = if (vertexBufTableRegAddr (sig st) =? offset)
                || (vertexBufTableRegAddr (sig st) =? UserDataNotMapped)
             then failed st
             else failed st ++ [SecondVertexBufferTable offset]).
Proof.
  unfold GetVsUserDataBaseOffset, vbTableStageOf. split; [|split; [|split]].
  - reflexivity.
  - destruct (IsTessEnabled (base p)), (IsGsEnabled (base p)); reflexivity.
  - intros stage' so ind offset value st Hso Hind. cbv zeta.
    unfold SetupSignatureForStageFromElf_entry. cbv zeta.
    replace (u32 (value + 1) =? so) with false by lia.
    replace (u32 (value + 1) =? ind) with true by lia.
    destruct (stage_eqb stage' _); split; reflexivity.
  - intros Habi stage' so ind offset st Hso Hind. cbv zeta.
    pose proof (abiOk_VertexBufferTable (abi hw) Habi)
      as (Hmax & Hlow & Hhigh & N1 & N2 & N3 & N4).
    unfold SetupSignatureForStageFromElf_entry. cbv zeta.
    rewrite (u32_small (VertexBufferTable (abi hw) + 1)) by lia.
    replace (VertexBufferTable (abi hw) + 1 =? so) with false by lia.
    replace (VertexBufferTable (abi hw) + 1 =? ind) with false by lia.
    replace (VertexBufferTable (abi hw) <? MaxUserDataEntries (abi hw))
      with false by lia.
    replace (VertexBufferTable (abi hw) =? GlobalTable (abi hw)) with false by lia.
    replace (VertexBufferTable (abi hw) =? PerShaderTable (abi hw))
      with false by lia.
    replace (VertexBufferTable (abi hw) =? SpillTable (abi hw)) with false by lia.
    replace (VertexBufferTable (abi hw) =? Workgroup (abi hw)) with false by lia.
    rewrite Z.eqb_refl. unfold check, withSig.
    destruct ((vertexBufTableRegAddr (sig st) =? offset)
              || (vertexBufTableRegAddr (sig st) =? UserDataNotMapped));
      split; reflexivity.
Qed.

(** ** Out-of-order primitives, mode by mode *)

Lemma targets_in_safe_mode p bs dsw targets :
  CanDrawPrimsOutOfOrder_targets p bs OutOfOrderPrimSafe false dsw targets
  = forallb (fun i => negb (0 <? GetTargetMask (base p) i)) targets.
Proof.
  induction targets as [|i rest IH]; [reflexivity|].
  cbn [CanDrawPrimsOutOfOrder_targets forallb].
  destruct (0 <? GetTargetMask (base p) i); cbn [negb andb].
  - cbn [isAggressive]. rewrite andb_false_r, orb_true_r. reflexivity.
  - exact IH.
Qed.

Lemma targets_without_writes p bs mode canRT dsw targets :
  forallb (fun i => negb (0 <? GetTargetMask (base p) i)) targets = true ->
  CanDrawPrimsOutOfOrder_targets p bs mode canRT dsw targets = true.
Proof.
  induction targets as [|i rest IH]; [reflexivity|].
  cbn [CanDrawPrimsOutOfOrder_targets forallb]. intros H.
  apply andb_true_iff in H as [Hi Hrest].
  destruct (0 <? GetTargetMask (base p) i); [discriminate|]. now apply IH.
Qed.

(** [X3] In the mode Safe primitives may run out of order exactly when the
    pixel shader writes no UAV, a depth-stencil view, a depth-stencil state
    and a blend state are all bound, depth and stencil writes are absent or
    (with no active query) both can run out of order, and no colour target
    has a nonzero write mask. *)
Theorem safe_mode_characterised
  (p : GraphicsPipeline) (pDsView : option DepthStencilView)
  (pDepthStencilState : option DepthStencilState)
  (pBlendState : option ColorBlendState) (hasActiveQueries : Z) :
  CanDrawPrimsOutOfOrder p pDsView pDepthStencilState pBlendState
                         hasActiveQueries OutOfOrderPrimSafe = true
  <-> PsWritesUavs (base p) = false
      /\ exists v d b,
          pDsView = Some v /\ pDepthStencilState = Some d /\ pBlendState = Some b
          /\ (let writes :=
                (negb (ReadOnlyDepth v) && IsDepthWriteEnabled d)
                || (negb (ReadOnlyStencil v) && IsStencilWriteEnabled d) in
              writes = false
              \/ (hasActiveQueries = 0 /\ CanDepthRunOutOfOrder d = true
                  /\ CanStencilRunOutOfOrder d = true))
          /\ forall i, (i < MaxColorTargets)%nat -> GetTargetMask (base p) i <= 0.
Proof.
  unfold CanDrawPrimsOutOfOrder. cbn [isSafe isAggressive orb andb].
  destruct (PsWritesUavs (base p)); cbn [orb];
    [split; [discriminate | intros [H _]; discriminate]|].
  destruct pDepthStencilState as [d|]; cbn [isNull];
    [|split; [discriminate | intros (_ & v & d & b & _ & H & _); discriminate]].
  destruct pDsView as [v|]; cbn [isNull].
  2:{ rewrite orb_true_r.
      split; [discriminate | intros (_ & v & d' & b & H & _); discriminate]. }
  rewrite orb_false_r.
  set (writes := (negb (ReadOnlyDepth v) && IsDepthWriteEnabled d)
                 || (negb (ReadOnlyStencil v) && IsStencilWriteEnabled d)).
  assert (Hall : forall b,
             CanDrawPrimsOutOfOrder_targets p b OutOfOrderPrimSafe false writes
               (seq 0 MaxColorTargets) = true
             <-> forall i, (i < MaxColorTargets)%nat ->
                           GetTargetMask (base p) i <= 0).
  { intros b. rewrite targets_in_safe_mode, forallb_forall. split.
    - intros H i Hi. specialize (H i). rewrite in_seq in H.
      specialize (H ltac:(lia)). lia.
    - intros H i Hi. apply in_seq in Hi. specialize (H i ltac:(lia)). lia. }
  split.
  - intros H. split; [reflexivity|].
    destruct (negb (if negb (hasActiveQueries =? 0) then negb writes
                    else negb writes
                         || CanDepthRunOutOfOrder d && CanStencilRunOutOfOrder d))
      eqn:Hds; [discriminate|].
    destruct pBlendState as [b|]; [|discriminate].
    exists v, d, b. repeat split; try reflexivity.
    + cbv zeta. fold writes. apply negb_false_iff in Hds.
      destruct (Z.eqb_spec hasActiveQueries 0) as [Hq|Hq]; cbn [negb] in Hds.
      * destruct writes; [right|left; reflexivity].
        cbn [negb orb] in Hds. apply andb_true_iff in Hds. tauto.
      * left. now apply negb_true_iff in Hds.
    + apply (proj1 (Hall b)). exact H.
  - intros (_ & v' & d' & b & Hv & Hd & Hb & Hw & Hmask).
    injection Hv as <-. injection Hd as <-. subst pBlendState.
    cbv zeta in Hw. fold writes in Hw.
    assert (Hds : (if negb (hasActiveQueries =? 0) then negb writes
                   else negb writes
                        || CanDepthRunOutOfOrder d && CanStencilRunOutOfOrder d)
                  = true).
    { destruct Hw as [-> | (-> & -> & ->)]; cbn.
      - destruct (negb (hasActiveQueries =? 0)); reflexivity.
      - now rewrite orb_true_r. }
    rewrite Hds. cbn [negb]. apply (proj2 (Hall b)). exact Hmask.
Qed.

(** [X4] Whatever the other inputs are, the mode Aggressive allows
    out-of-order primitives whenever the mode Safe does. *)
Theorem aggressive_allows_what_safe_allows
  (p : GraphicsPipeline) (pDsView : option DepthStencilView)
  (pDepthStencilState : option DepthStencilState)
  (pBlendState : option ColorBlendState) (hasActiveQueries : Z) :
  CanDrawPrimsOutOfOrder p pDsView pDepthStencilState pBlendState
                         hasActiveQueries OutOfOrderPrimSafe = true ->
  CanDrawPrimsOutOfOrder p pDsView pDepthStencilState pBlendState
                         hasActiveQueries OutOfOrderPrimAggressive = true.
Proof.
  unfold CanDrawPrimsOutOfOrder. cbn [isSafe isAggressive orb andb].
  destruct (PsWritesUavs (base p)); cbn [orb]; [discriminate|].
  destruct pDepthStencilState as [d|]; cbn [isNull]; [|discriminate].
  destruct pDsView as [v|]; cbn [isNull];
    [|rewrite !orb_true_r; discriminate].
  rewrite !orb_false_r.
  set (writes := (negb (ReadOnlyDepth v) && IsDepthWriteEnabled d)
                 || (negb (ReadOnlyStencil v) && IsStencilWriteEnabled d)).
  intros H.
  destruct (negb (if negb (hasActiveQueries =? 0) then negb writes
                  else negb writes
                       || CanDepthRunOutOfOrder d && CanStencilRunOutOfOrder d))
    eqn:Hds; [discriminate|].
  assert (Hagg : negb (negb writes
                       || CanDepthRunOutOfOrder d && CanStencilRunOutOfOrder d)
                 = false).
  { apply negb_false_iff in Hds. apply negb_false_iff.
    destruct (negb (hasActiveQueries =? 0)); [|exact Hds].
    rewrite Hds. reflexivity. }
  rewrite Hagg.
  destruct pBlendState as [b|]; [|discriminate].
  rewrite targets_in_safe_mode in H. now apply targets_without_writes.
Qed.

Lemma aggressive_allows_what_safe_allows_witness :
  CanDrawPrimsOutOfOrder
    (GraphicsPipeline_new
       (mkPalPipeline false false false false false false false false false 0
                      false (fun _ => 0) false) 0xFFFF)
    (Some (mkDsView false false))
    (Some (mkDsState true false true true false))
    (Some (mkBlendState (fun _ => false) (fun _ => false)))
    0 OutOfOrderPrimAggressive = true.
Proof.
  apply aggressive_allows_what_safe_allows. reflexivity.
Defined.

(** ** More on primitive grouping *)

(** The fix-up reads SWITCH_ON_EOP as the register it starts from has it. *)
Lemma Fixup_force_irrelevant dev hw p r :
  iaLayoutOk (lay hw) = true ->
  (getField (SWITCH_ON_EOP (lay hw)) r =? 1)
  || (numShaderEngines (ChipProperties dev) <=? 2) = true ->
  FixupIaMultiVgtParamOnGfx7Plus dev hw p false r
  = FixupIaMultiVgtParamOnGfx7Plus dev hw p true r.
Proof.
  intros Hlay Hcond. unfold iaLayoutOk in Hlay. split_ok Hlay.
  unfold FixupIaMultiVgtParamOnGfx7Plus. cbv zeta.
  match goal with
  | |- context [setField (WD_SWITCH_ON_EOP__CI__VI (lay hw)) 1 ?x] => set (r2 := x)
  end.
  assert (E : getField (SWITCH_ON_EOP (lay hw)) r2
              = getField (SWITCH_ON_EOP (lay hw)) r).
  { subst r2.
    repeat match goal with
           | |- context [if ?c then _ else _] => destruct c
           end; fields; reflexivity. }
  rewrite E. clearbody r2. rewrite Hcond. reflexivity.
Qed.

(** [X5] On Gfx6, on a device with at most two shader engines, and for a
    binary that sets SWITCH_ON_EOP, the two copies of IA_MULTI_VGT_PARAM a
    pipeline keeps are equal: the slot only matters on larger devices. *)
Theorem ia_multi_vgt_param_copies_agree (dev : Device) (hw : Hw)
  (registers : RegisterVector) (p : GraphicsPipeline) :
  iaLayoutOk (lay hw) = true ->
  gfxLevel (ChipProperties dev) = GfxIp6
  \/ numShaderEngines (ChipProperties dev) <= 2
  \/ getField (SWITCH_ON_EOP (lay hw))
              (HasEntry registers (mmIA_MULTI_VGT_PARAM (addr hw)) 0) = 1 ->
  let copies :=
    iaMultiVgtParam (m_regs_context (SetupIaMultiVgtParam dev hw registers p)) in
  nth 0 copies 0 = nth 1 copies 0.
Proof.
  intros Hlay Hcase. cbv zeta.
  rewrite !SetupIaMultiVgtParam_nth by (unfold NumIaMultiVgtParam; lia).
  cbn [Nat.eqb negb].
  destruct (gfxIpRank GfxIp6 <? gfxIpRank (gfxLevel (ChipProperties dev))) eqn:Hg;
    [|reflexivity].
  apply Fixup_force_irrelevant; [assumption|].
  rewrite base_SWITCH_ON_EOP by assumption.
  destruct Hcase as [H6 | [Hse | Heop]].
  - rewrite H6 in Hg. discriminate.
  - apply orb_true_iff. right. lia.
  - apply orb_true_iff. left. lia.
Qed.

Lemma ia_multi_vgt_param_copies_agree_witness :
  let copies :=
    iaMultiVgtParam
      (m_regs_context
         (SetupIaMultiVgtParam exDevice viHw
            {[ mmIA_MULTI_VGT_PARAM viAddr := 0x2003F ]} exPipeline)) in
  nth 0 copies 0 = nth 1 copies 0.
Proof.
  apply (ia_multi_vgt_param_copies_agree exDevice viHw
           {[ mmIA_MULTI_VGT_PARAM viAddr := 0x2003F ]} exPipeline eq_refl).
  right. right. reflexivity.
Defined.

Lemma Fixup_keeps_flags dev hw p force r :
  iaLayoutOk (lay hw) = true ->
  (getField (PARTIAL_ES_WAVE_ON (lay hw)) r = 1 ->
   getField (PARTIAL_ES_WAVE_ON (lay hw))
            (FixupIaMultiVgtParamOnGfx7Plus dev hw p force r) = 1)
  /\ (getField (PARTIAL_VS_WAVE_ON (lay hw)) r = 1 ->
      getField (PARTIAL_VS_WAVE_ON (lay hw))
               (FixupIaMultiVgtParamOnGfx7Plus dev hw p force r) = 1)
  /\ (getField (SWITCH_ON_EOI (lay hw)) r = 1 ->
      getField (SWITCH_ON_EOI (lay hw))
               (FixupIaMultiVgtParamOnGfx7Plus dev hw p force r) = 1)
  /\ getField (SWITCH_ON_EOP (lay hw))
              (FixupIaMultiVgtParamOnGfx7Plus dev hw p force r)
     = getField (SWITCH_ON_EOP (lay hw)) r.
Proof.
  intros Hlay. unfold iaLayoutOk in Hlay. split_ok Hlay.
  unfold FixupIaMultiVgtParamOnGfx7Plus. cbv zeta.
  repeat split; try intros Hset;
    repeat match goal with
           | |- context [if ?c then _ else _] => destruct c
           end; fields; rewrite ?bit_fits by assumption; auto.
Qed.

Lemma base_keeps_flags dev hw registers p :
  iaLayoutOk (lay hw) = true ->
  let binary := HasEntry registers (mmIA_MULTI_VGT_PARAM (addr hw)) 0 in
  let r := SetupIaMultiVgtParam_base dev hw registers p in
  (getField (PARTIAL_ES_WAVE_ON (lay hw)) binary = 1
   \/ IsGsEnabled (base p) && IsGsOnChip (base p) = true ->
   getField (PARTIAL_ES_WAVE_ON (lay hw)) r = 1)
  /\ (getField (PARTIAL_VS_WAVE_ON (lay hw)) binary = 1
      \/ waMiscGsNullPrim (Settings dev) && IsTessEnabled (base p)
         && IsGsEnabled (base p) = true ->
      getField (PARTIAL_VS_WAVE_ON (lay hw)) r = 1)
  /\ getField (SWITCH_ON_EOI (lay hw)) r = getField (SWITCH_ON_EOI (lay hw)) binary.
Proof.
  intros Hlay. unfold iaLayoutOk in Hlay. split_ok Hlay. cbv zeta.
  unfold SetupIaMultiVgtParam_base. cbv zeta.
  repeat split; try intros [Hset | Hset]; try rewrite Hset;
    repeat match goal with
           | |- context [if ?c then _ else _] => destruct c
           end; fields; rewrite ?bit_fits by assumption;
    auto; try discriminate.
Qed.

(** [X6] The pipeline never clears a wave flag its binary sets: in both
    copies PARTIAL_ES_WAVE_ON, PARTIAL_VS_WAVE_ON and SWITCH_ON_EOI are 1
    when the binary's IA_MULTI_VGT_PARAM has them 1, and SWITCH_ON_EOP is
    the binary's.  PARTIAL_ES_WAVE_ON is also 1 for an on-chip geometry
    stage, and PARTIAL_VS_WAVE_ON for tessellation with a geometry stage
    under the null-primitive workaround. *)
Theorem wave_flags_are_only_set (dev : Device) (hw : Hw)
  (registers : RegisterVector) (p : GraphicsPipeline) (idx : nat) :
  iaLayoutOk (lay hw) = true ->
  (idx < NumIaMultiVgtParam)%nat ->
  let l := lay hw in
  let binary := HasEntry registers (mmIA_MULTI_VGT_PARAM (addr hw)) 0 in
  let r' :=
    nth idx (iaMultiVgtParam
               (m_regs_context (SetupIaMultiVgtParam dev hw registers p))) 0 in
  (getField (PARTIAL_ES_WAVE_ON l) binary = 1
   \/ IsGsEnabled (base p) && IsGsOnChip (base p) = true ->
   getField (PARTIAL_ES_WAVE_ON l) r' = 1)
  /\ (getField (PARTIAL_VS_WAVE_ON l) binary = 1
      \/ waMiscGsNullPrim (Settings dev) && IsTessEnabled (base p)
         && IsGsEnabled (base p) = true ->
      getField (PARTIAL_VS_WAVE_ON l) r' = 1)
  /\ (getField (SWITCH_ON_EOI l) binary = 1 -> getField (SWITCH_ON_EOI l) r' = 1)
  /\ getField (SWITCH_ON_EOP l) r' = getField (SWITCH_ON_EOP l) binary.
Proof.
  intros Hlay Hidx. cbv zeta.
  rewrite SetupIaMultiVgtParam_nth by assumption.
  pose proof (base_keeps_flags dev hw registers p Hlay) as (Hes & Hvs & Heoi).
  cbv zeta in Hes, Hvs, Heoi.
  destruct (gfxIpRank GfxIp6 <? gfxIpRank (gfxLevel (ChipProperties dev))).
  - pose proof (Fixup_keeps_flags dev hw p (negb (Nat.eqb idx 0))
                  (SetupIaMultiVgtParam_base dev hw registers p) Hlay)
      as (Fes & Fvs & Feoi & Feop).
    repeat split.
    + intros H. apply Fes, Hes, H.
    + intros H. apply Fvs, Hvs, H.
    + intros H. apply Feoi. rewrite Heoi. exact H.
    + rewrite Feop. apply base_SWITCH_ON_EOP. assumption.
  - repeat split.
    + exact Hes.
    + exact Hvs.
    + intros H. rewrite Heoi. exact H.
    + apply base_SWITCH_ON_EOP. assumption.
Qed.

(** A binary that asks for PARTIAL_VS_WAVE_ON and SWITCH_ON_EOI keeps both
    in slot 1. *)
Lemma wave_flags_are_only_set_witness :
  let r' :=
    nth 1 (iaMultiVgtParam
             (m_regs_context
                (SetupIaMultiVgtParam exDevice viHw
                   {[ mmIA_MULTI_VGT_PARAM viAddr := 0x9003F ]} exPipeline))) 0 in
  getField (PARTIAL_VS_WAVE_ON viLayout) r' = 1
  /\ getField (SWITCH_ON_EOI viLayout) r' = 1.
Proof.
  pose proof (wave_flags_are_only_set exDevice viHw
                {[ mmIA_MULTI_VGT_PARAM viAddr := 0x9003F ]} exPipeline 1
                eq_refl (Nat.lt_succ_diag_r 1)) as (_ & Hvs & Heoi & _).
  split; [apply Hvs; left; reflexivity | apply Heoi; reflexivity].
Defined.

(** [X7] With tessellation and at least one patch per thread group, or
    without tessellation but with a geometry stage and a nonzero
    control-point count, the group size of both copies is below 256, so the
    stream-out assertion of [SetupIaMultiVgtParam] holds.  The two fields
    of VGT_LS_HS_CONFIG are at most eight bits wide. *)
Theorem chosen_group_size_passes_streamout_assert (dev : Device) (hw : Hw)
  (registers : RegisterVector) (p : GraphicsPipeline) :
  iaLayoutOk (lay hw) = true ->
  0 <= fwidth (NUM_PATCHES (lay hw)) <= 8 ->
  0 <= fwidth (HS_NUM_INPUT_CP (lay hw)) <= 8 ->
  let ls := vgtLsHsConfig (m_regs_context p) in
  (IsTessEnabled (base p) = true /\ 1 <= getField (NUM_PATCHES (lay hw)) ls)
  \/ (IsTessEnabled (base p) = false /\ IsGsEnabled (base p) = true
      /\ getField (HS_NUM_INPUT_CP (lay hw)) ls <> 0) ->
  (forall idx, (idx < NumIaMultiVgtParam)%nat ->
     getField (PRIMGROUP_SIZE (lay hw))
       (nth idx (iaMultiVgtParam
                   (m_regs_context (SetupIaMultiVgtParam dev hw registers p))) 0)
     < 256)
  /\ SetupIaMultiVgtParam_assert dev hw registers p = true.
Proof.
  intros Hlay Hnp Hcp. cbv zeta. intros Hcase.
  assert (Hsize : forall idx, (idx < NumIaMultiVgtParam)%nat ->
            getField (PRIMGROUP_SIZE (lay hw))
              (nth idx (iaMultiVgtParam
                          (m_regs_context
                             (SetupIaMultiVgtParam dev hw registers p))) 0)
            < 256).
  { intros idx Hidx. rewrite SetupIaMultiVgtParam_nth by assumption.
    assert (E : getField (PRIMGROUP_SIZE (lay hw))
                  (if gfxIpRank GfxIp6 <? gfxIpRank (gfxLevel (ChipProperties dev))
                   then FixupIaMultiVgtParamOnGfx7Plus dev hw p
                          (negb (Nat.eqb idx 0))
                          (SetupIaMultiVgtParam_base dev hw registers p)
                   else SetupIaMultiVgtParam_base dev hw registers p)
                = getField (PRIMGROUP_SIZE (lay hw))
                           (SetupIaMultiVgtParam_base dev hw registers p)).
    { destruct (gfxIpRank GfxIp6 <? gfxIpRank (gfxLevel (ChipProperties dev)));
        [apply Fixup_keeps_PRIMGROUP_SIZE; assumption | reflexivity]. }
    rewrite E, base_PRIMGROUP_SIZE by assumption. cbv zeta.
    unfold iaLayoutOk in Hlay. split_ok Hlay.
    match goal with
    | H : fieldOk (PRIMGROUP_SIZE (lay hw)) = true |- _ =>
        apply fieldOk_spec in H as (_ & Hw & _)
    end.
    assert (Hpow : 0 < 2 ^ fwidth (PRIMGROUP_SIZE (lay hw)))
      by (apply Z.pow_pos_nonneg; lia).
    pose proof (getField_range (NUM_PATCHES (lay hw))
                  (vgtLsHsConfig (m_regs_context p)) ltac:(lia)) as Rnp.
    pose proof (getField_range (HS_NUM_INPUT_CP (lay hw))
                  (vgtLsHsConfig (m_regs_context p)) ltac:(lia)) as Rcp.
    assert (2 ^ fwidth (NUM_PATCHES (lay hw)) <= 2 ^ 8)
      by (apply Z.pow_le_mono_r; lia).
    assert (2 ^ fwidth (HS_NUM_INPUT_CP (lay hw)) <= 2 ^ 8)
      by (apply Z.pow_le_mono_r; lia).
    destruct Hcase as [[Ht Hone] | (Ht & Hg & Hnz)]; rewrite Ht.
    - pose proof (Z.mod_le (getField (NUM_PATCHES (lay hw))
                                     (vgtLsHsConfig (m_regs_context p)) - 1)
                    (2 ^ fwidth (PRIMGROUP_SIZE (lay hw)))
                    ltac:(lia) ltac:(lia)).
      lia.
    - rewrite Hg. cbn [andb].
      replace (getField (HS_NUM_INPUT_CP (lay hw))
                        (vgtLsHsConfig (m_regs_context p)) =? 0)
        with false by lia.
      cbn [negb].
      set (cp := getField (HS_NUM_INPUT_CP (lay hw))
                          (vgtLsHsConfig (m_regs_context p))) in *.
      assert (1 <= 256 / cp) by (apply Z.div_le_lower_bound; lia).
      assert (256 / cp <= 256) by (apply Z.div_le_upper_bound; nia).
      pose proof (Z.mod_le (256 / cp - 1) (2 ^ fwidth (PRIMGROUP_SIZE (lay hw)))
                    ltac:(lia) ltac:(lia)).
      lia. }
  split; [exact Hsize|].
  unfold SetupIaMultiVgtParam_assert. cbv zeta.
  apply forallb_forall. intros r Hin.
  apply In_nth with (d := 0) in Hin as (idx & Hidx & <-).
  assert (Hlen : length (iaMultiVgtParam
                           (m_regs_context
                              (SetupIaMultiVgtParam dev hw registers p)))
                 = NumIaMultiVgtParam) by reflexivity.
  rewrite Hlen in Hidx. specialize (Hsize idx Hidx).
  match goal with
  | |- (if ?c then _ else _) = true => destruct c; [lia | reflexivity]
  end.
Qed.

(** Tessellation with 8 patches per thread group and stream output, on a
    device with two shader engines, where the assertion is evaluated. *)
Lemma chosen_group_size_passes_streamout_assert_witness :
  let dev :=
    mkDevice (mkChipProps GfxIp8 2 32 8 8 8 4 10 512 256 64 true 0x90800310)
             exSettings true 32 false true 31 false false false false false in
  let registers : RegisterVector := {[ mmVGT_STRMOUT_CONFIG viAddr := 1 ]} in
  let p :=
    set_m_regs_context (set_vgtLsHsConfig 0x308 zeroContextRegs)
      (GraphicsPipeline_new
         (mkPalPipeline true false false false false false false false false 0
                        false (fun _ => 0) false) 0xFFFF) in
  let stored :=
    nth 0 (iaMultiVgtParam
             (m_regs_context (SetupIaMultiVgtParam dev viHw registers p))) 0 in
  negb (HasEntry registers (mmVGT_STRMOUT_CONFIG viAddr) 0 =? 0)
  && (numShaderEngines (ChipProperties dev) =? 2)
  && (getField (PARTIAL_ES_WAVE_ON viLayout) stored =? 0) = true
  /\ getField (PRIMGROUP_SIZE viLayout) stored = 7
  /\ SetupIaMultiVgtParam_assert dev viHw registers p = true.
Proof.
  intros dev registers p stored.
  split; [vm_compute; reflexivity|]. split; [vm_compute; reflexivity|].
  apply (chosen_group_size_passes_streamout_assert dev viHw);
    [reflexivity | simpl; lia | simpl; lia |].
  left. split; [reflexivity | vm_compute; congruence].
Defined.

(** ** More on the late-alloc limit *)

Lemma SetupLateAllocVs_limit_eq dev hw registers p :
  SetupLateAllocVs_limit dev hw registers p
  = let target :=
      if IsLateAllocVsLimit (base p) then GetLateAllocVsLimit (base p)
      else LateAllocVsLimit dev in
    let rsrc1 := At registers (mmSPI_SHADER_PGM_RSRC1_VS (addr hw)) in
    let maxVsWaves := SetupLateAllocVs_maxVsWaves dev hw registers in
    if UseFixedLateAllocVsLimit dev then target
    else if (0 <? target) && (0 <? getField (SGPRS (lay hw)) rsrc1 * 8)
            && (0 <? getField (VGPRS (lay hw)) rsrc1 * 4)
    then (if maxVsWaves <=? target
          then (if 1 <? maxVsWaves then maxVsWaves - 1 else 1)
          else target)
    else 0.
Proof.
  unfold SetupLateAllocVs_limit, SetupLateAllocVs_maxVsWaves. cbv zeta.
  repeat match goal with
         | |- context [if ?c then _ else _] => destruct c
         end; reflexivity.
Qed.

(** [X8] The late-alloc limit before it is biased and clamped.  With the
    fixed scheme it is the target, whatever the binary says.  Otherwise it
    never exceeds the target; it is zero when the target is not positive or
    the vertex shader's SGPR or VGPR field is zero; and in all other cases
    it is at least one and, when the vertex stage can have more than one
    wave in flight, strictly below that number of waves. *)
Theorem late_alloc_limit_is_bounded (dev : Device) (hw : Hw)
  (registers : RegisterVector) (p : GraphicsPipeline) :
  let target :=
    if IsLateAllocVsLimit (base p) then GetLateAllocVsLimit (base p)
    else LateAllocVsLimit dev in
  let rsrc1 := At registers (mmSPI_SHADER_PGM_RSRC1_VS (addr hw)) in
  let sgprs := getField (SGPRS (lay hw)) rsrc1 in
  let vgprs := getField (VGPRS (lay hw)) rsrc1 in
  let maxVsWaves := SetupLateAllocVs_maxVsWaves dev hw registers in
  let limit := SetupLateAllocVs_limit dev hw registers p in
  (UseFixedLateAllocVsLimit dev = true -> limit = target)
  /\ (UseFixedLateAllocVsLimit dev = false ->
      (0 <= target -> 0 <= limit <= target)
      /\ (target <= 0 \/ sgprs <= 0 \/ vgprs <= 0 -> limit = 0)
      /\ (0 < target -> 0 < sgprs -> 0 < vgprs ->
          1 <= limit
          /\ (1 < maxVsWaves -> limit < maxVsWaves)
          /\ (maxVsWaves <= 1 -> limit = 1)
          /\ (target < maxVsWaves -> limit = target))).
Proof.
  cbv zeta. rewrite SetupLateAllocVs_limit_eq. cbv zeta.
  set (target := if IsLateAllocVsLimit (base p) then _ else _).
  set (sgprs := getField (SGPRS (lay hw)) _).
  set (vgprs := getField (VGPRS (lay hw)) _).
  set (maxVsWaves := SetupLateAllocVs_maxVsWaves dev hw registers).
  split; intros Hfixed; rewrite Hfixed; [reflexivity|].
  repeat split;
    repeat match goal with
           | |- _ -> _ => intro
           | H : _ \/ _ |- _ => destruct H
           | |- context [if ?c then _ else _] => destruct c eqn:?
           | H : _ && _ = true |- _ => apply andb_true_iff in H as [? ?]
           | H : _ && _ = false |- _ => apply andb_false_iff in H as [?|?]
           end; lia.
Qed.

(** ** Logic operations *)

(** [X9] The ROP3 code of a logic operation does not involve the pattern
    operand (its two nibbles are equal), and distinct logic operations have
    distinct codes. *)
Theorem Rop3_is_pattern_free_and_injective (a b : LogicOp) :
  Rop3 a = 17 * (Rop3 a mod 16)
  /\ (Rop3 a = Rop3 b -> a = b).
Proof.
  split; [destruct a; reflexivity|].
  destruct a, b; intros H; try reflexivity; discriminate H.
Qed.

(** ** Scratch memory *)

Lemma scratch_fold_spec (hardwareStage : list (option Z)) (acc : Z) :
  let r :=
    fold_left
      (fun acc stageMetadata =>
         match stageMetadata with
         | Some scratchMemorySize => Z.max acc scratchMemorySize
         | None => acc
         end)
      hardwareStage acc in
  acc <= r
  /\ (forall v, In (Some v) hardwareStage -> v <= r)
  /\ (r = acc \/ In (Some r) hardwareStage).
Proof.
  revert acc. induction hardwareStage as [|x xs IH]; intros acc; cbn.
  - repeat split; [lia | intros v [] | now left].
  - destruct x as [v|].
    + destruct (IH (Z.max acc v)) as (H1 & H2 & H3). cbv zeta in *.
      repeat split.
      * lia.
      * intros w [E | Hin]; [injection E as <-; lia | now apply H2].
      * destruct H3 as [E | Hin]; [|right; right; exact Hin].
        destruct (Z.max_spec acc v) as [[_ Em] | [_ Em]]; rewrite Em in *.
        -- right. left. now rewrite E.
        -- now left.
    + destruct (IH acc) as (H1 & H2 & H3). cbv zeta in *.
      repeat split.
      * exact H1.
      * intros w [E | Hin]; [discriminate | now apply H2].
      * destruct H3 as [E | Hin]; [now left | right; right; exact Hin].
Qed.

(** [X10] The scratch memory size of a pipeline, in dwords, is the largest
    size a hardware stage records, in bytes, divided by four and rounded
    down: it bounds every stage's size in dwords, and it is either zero or
    attained by a stage.  Stages that record no size do not count. *)
Theorem scratch_size_is_the_largest_stage (hardwareStage : list (option Z)) :
  let r := ComputeScratchMemorySize hardwareStage in
  0 <= r
  /\ (forall v, In (Some v) hardwareStage -> v / 4 <= r)
  /\ (r = 0 \/ exists v, In (Some v) hardwareStage /\ r = v / 4)
  /\ ComputeScratchMemorySize (hardwareStage ++ [None]) = r
  /\ ComputeScratchMemorySize (None :: hardwareStage) = r.
Proof.
  cbv zeta. unfold ComputeScratchMemorySize. cbv zeta.
  pose proof (scratch_fold_spec hardwareStage 0) as (H1 & H2 & H3).
  cbv zeta in *.
  repeat split.
  - apply Z.div_pos; lia.
  - intros v Hin. apply Z.div_le_mono; [lia | now apply H2].
  - destruct H3 as [E | Hin].
    + left. rewrite E. reflexivity.
    + right. eexists. split; [exact Hin | reflexivity].
  - rewrite fold_left_app. reflexivity.
Qed.

(** ** Initialisation results *)

Lemma SetupLateAllocVs_base dev hw registers u p :
  base (fst (SetupLateAllocVs dev hw registers u p)) = base p.
Proof.
  unfold SetupLateAllocVs.
  destruct (negb (isGfxIp6 (gfxLevel (ChipProperties dev)))); reflexivity.
Qed.

Lemma SetupCommonRegisters_base dev hw createInfo registers u p :
  let p' := fst (SetupCommonRegisters dev hw createInfo registers u p) in
  IsGsEnabled (base p') = IsGsEnabled (base p)
  /\ IsGsOnChip (base p') = IsGsOnChip (base p)
  /\ IsTessEnabled (base p') = IsTessEnabled (base p).
Proof.
  cbv zeta.
  unfold SetupCommonRegisters. cbv zeta.
  match goal with
  | |- context [SetupLateAllocVs dev hw registers ?u' ?p'] =>
      pose proof (SetupLateAllocVs_base dev hw registers u' p') as Hp;
      destruct (SetupLateAllocVs dev hw registers u' p') as [p1 u1]
  end.
  cbn [fst snd] in *. unfold SetupIaMultiVgtParam. cbn. rewrite Hp.
  destruct p; repeat split; reflexivity.
Qed.

Lemma SetupNonShaderRegisters_base dev hw createInfo registers u p :
  base (fst (SetupNonShaderRegisters dev hw createInfo registers u p)) = base p.
Proof.
  unfold SetupNonShaderRegisters. cbv zeta.
  match goal with
  | |- context [let '(_, _) := ?x in _] => destruct x as [cc rb]
  end.
  reflexivity.
Qed.

Lemma EarlyInit_base dev hw chunks hash metadata registers p info :
  let p' := fst (fst (EarlyInit dev hw chunks hash metadata registers p info)) in
  IsGsEnabled (base p') = IsGsEnabled (base p)
  /\ IsTessEnabled (base p') = IsTessEnabled (base p)
  /\ IsGsOnChip (base p')
     = IsGsOnChip (base p)
       || IsGsEnabled (base p)
          && (getField (ONCHIP__CI__VI (lay hw))
                (HasEntry registers (mmVGT_GS_MODE (addr hw))
                          (vgtGsMode (m_regs_context p)))
              =? VgtGsModeOnchip (enums hw)).
Proof.
  cbv zeta. unfold EarlyInit. cbv zeta.
  match goal with
  | |- context [SetupSignatureFromElf ?a ?b ?c ?d ?e ?f ?g] =>
      destruct (SetupSignatureFromElf a b c d e f g) as [[[g' rGs] rVs] fl]
  end.
  destruct (enableLoadIndexForObjectBinds (Settings dev)); cbn [fst snd];
    destruct p as [b c s lp sg]; destruct b as [tess gs onchip ? ? ? ? ? ? ? ? ? ?];
    cbn; destruct gs, onchip; cbn;
    repeat match goal with
           | |- context [if ?c then _ else _] => destruct c
           end; cbn; auto.
Qed.

(** [X11] The result of [HwlInit] is the first failure among reading the
    metadata registers, uploading, and ending the upload, in this order, and
    Success when there is none.  When the registers cannot be read the
    pipeline object is left as it was; when the upload fails no load path
    is recorded. *)
Theorem HwlInit_reports_first_failure (dev : Device) (hw : Hw)
  (chunks : PipelineChunks) (hash : UserDataEntryMap -> Z) (ext : InitOutcome)
  (createInfo : GraphicsPipelineCreateInfo) (metadata : CodeObjectMetadata)
  (p : GraphicsPipeline) :
  let out := HwlInit dev hw chunks hash ext createInfo metadata p in
  fst out
  = match unpackResult ext, uploadResult ext with
    | Error c, _ => Error c
    | Success, Error c => Error c
    | Success, Success => endResult ext
    end
  /\ (isSuccess (unpackResult ext) = false -> snd out = p)
  /\ (isSuccess (uploadResult ext) = false ->
      m_loadPath (snd out) = m_loadPath p).
Proof.
  cbv zeta. unfold HwlInit. cbv zeta.
  destruct (unpackResult ext) as [|c]; cbn [isSuccess];
    [|repeat split; reflexivity].
  pose proof (EarlyInit_frame dev hw chunks hash metadata
                (unpackedRegisters ext) p zeroLoadInfo) as Hlp.
  destruct (EarlyInit dev hw chunks hash metadata (unpackedRegisters ext) p
                      zeroLoadInfo) as [[p1 li] fl].
  cbn [fst snd] in Hlp.
  destruct (uploadResult ext) as [|c]; cbn [isSuccess].
  - repeat match goal with
           | |- context [let '(_, _) := ?x in _] => destruct x as [? ?]
           end.
    cbn [fst snd]. repeat split; intros; discriminate.
  - cbn [fst snd]. repeat split; [intros; discriminate | intros _; exact Hlp].
Qed.

(** [X12] A pipeline is marked as on-chip GS only when its geometry stage is
    enabled: initialisation keeps this, whatever the binary says and
    whether it succeeds or fails. *)
Theorem on_chip_gs_needs_gs (dev : Device) (hw : Hw)
  (chunks : PipelineChunks) (hash : UserDataEntryMap -> Z) (ext : InitOutcome)
  (createInfo : GraphicsPipelineCreateInfo) (metadata : CodeObjectMetadata)
  (p : GraphicsPipeline) :
  (IsGsOnChip (base p) = true -> IsGsEnabled (base p) = true) ->
  let p' := snd (HwlInit dev hw chunks hash ext createInfo metadata p) in
  implb (IsGsOnChip (base p')) (IsGsEnabled (base p')) = true.
Proof.
  intros Hinv. cbv zeta.
  match goal with
  | |- implb ?x ?y = true =>
      enough (x = true -> y = true) by (destruct x, y; auto)
  end.
  unfold HwlInit. cbv zeta.
  destruct (unpackResult ext) as [|c]; [|exact Hinv].
  pose proof (EarlyInit_base dev hw chunks hash metadata
                (unpackedRegisters ext) p zeroLoadInfo) as (Hgs & _ & Hon).
  cbv zeta in Hgs, Hon.
  destruct (EarlyInit dev hw chunks hash metadata (unpackedRegisters ext) p
                      zeroLoadInfo) as [[p1 li] fl].
  cbn [fst snd] in Hgs, Hon.
  assert (Hinv1 : IsGsOnChip (base p1) = true -> IsGsEnabled (base p1) = true).
  { rewrite Hon, Hgs. intros H. apply orb_true_iff in H as [H | H].
    - now apply Hinv.
    - now apply andb_true_iff in H as [H _]. }
  destruct (uploadResult ext) as [|c]; [|exact Hinv1].
  match goal with
  | |- context [SetupCommonRegisters dev hw createInfo ?r ?u ?q] =>
      pose proof (SetupCommonRegisters_base dev hw createInfo r u q)
        as (Hgs2 & Hon2 & _);
      destruct (SetupCommonRegisters dev hw createInfo r u q) as [p2 u2]
  end.
  match goal with
  | |- context [SetupNonShaderRegisters dev hw createInfo ?r ?u ?q] =>
      pose proof (SetupNonShaderRegisters_base dev hw createInfo r u q) as Hb3;
      destruct (SetupNonShaderRegisters dev hw createInfo r u q) as [p3 u3]
  end.
  cbn [fst snd] in *.
  assert (E : base (if EnableLoadIndexPath u3
                    then set_m_loadPath
                           (mkLoadPath (CtxRegGpuVirtAddr u3) (CtxRegisterCount u3)
                                       (ShRegGpuVirtAddr u3) (ShRegisterCount u3)) p3
                    else p3) = base p2).
  { destruct (EnableLoadIndexPath u3); [destruct p3|]; exact Hb3. }
  rewrite E, Hon2, Hgs2. exact Hinv1.
Qed.

(** A geometry pipeline whose binary asks for on-chip GS. *)
Lemma on_chip_gs_needs_gs_witness :
  let p :=
    GraphicsPipeline_new
      (mkPalPipeline false true false false false false false false false 0
                     false (fun _ => 0) false) 0xFFFF in
  let registers : RegisterVector :=
    {[ mmVGT_GS_MODE viAddr
       := setField (ONCHIP__CI__VI viLayout) (VgtGsModeOnchip viEnums) 0 ]} in
  let p' :=
    snd (HwlInit exDevice viHw (exChunks true) exHash (exOutcome registers)
           (exCreateInfo 0xF) exMetadata p) in
  implb (IsGsOnChip (base p')) (IsGsEnabled (base p')) = true.
Proof.
  apply (on_chip_gs_needs_gs exDevice viHw (exChunks true) exHash
           (exOutcome
              {[ mmVGT_GS_MODE viAddr
                 := setField (ONCHIP__CI__VI viLayout) (VgtGsModeOnchip viEnums) 0 ]})
           (exCreateInfo 0xF) exMetadata).
  simpl. discriminate.
Defined.

(** ** More on the RB+ registers *)

(** Clearing a field's bits and or-ing in a value that fits is the write of
    the field. *)
Lemma field_update x v pos w :
  0 <= pos -> 0 < w -> pos + w <= 32 -> 0 <= v < 2 ^ w ->
  orBits (clearBits x (Z.shiftl (Z.ones w) pos)) (Z.shiftl v pos)
  = setField (mkField pos w) v x.
Proof.
  intros Hpos Hw Hle Hv.
  unfold orBits, clearBits, setField, fmask. simpl fpos. simpl fwidth.
  assert (Ev : Z.land v (Z.ones w) = v).
  { rewrite Z.land_ones by lia. apply Z.mod_small. lia. }
  rewrite Ev. f_equal. apply u32_small.
  rewrite Z.shiftl_mul_pow2 by lia.
  assert (2 ^ w * 2 ^ pos <= 2 ^ 32)
    by (rewrite <- Z.pow_add_r by lia; apply Z.pow_le_mono_r; lia).
  assert (0 < 2 ^ pos) by (apply Z.pow_pos_nonneg; lia).
  nia.
Qed.

Lemma slotControlField_ok slot :
  (slot < MaxColorTargets)%nat -> fieldOk (slotControlField slot) = true.
Proof. unfold MaxColorTargets, fieldOk, slotControlField. simpl. lia. Qed.

Lemma slotField_disjoint s s' :
  s <> s' -> disjoint (slotField s) (slotField s') = true.
Proof. unfold disjoint, slotField. simpl. lia. Qed.

Lemma slotControlField_disjoint s s' :
  s <> s' -> disjoint (slotControlField s) (slotControlField s') = true.
Proof. unfold disjoint, slotControlField. simpl. lia. Qed.

Lemma SxBlendOptControl_value hw writeMask :
  sxOk hw = true ->
  SxBlendOptControl (lay hw) writeMask
  = (if Z.land writeMask 0x7 =? 0 then 1 else 0)
    + (if Z.land writeMask 0x8 =? 0 then 2 else 0).
Proof.
  intros Hsx. unfold sxOk in Hsx. rewrite !andb_true_iff in Hsx.
  destruct Hsx as ((((_ & _) & Hc) & Ha) & _).
  unfold SxBlendOptControl. cbv zeta.
  apply Z.eqb_eq in Hc, Ha. rewrite Hc, Ha.
  destruct (Z.land writeMask 7 =? 0), (Z.land writeMask 8 =? 0); reflexivity.
Qed.

Lemma sxFormatCode_range hw f :
  sxOk hw = true -> 0 <= sxFormatCode (enums hw) f < 16.
Proof.
  intros Hsx. unfold sxOk in Hsx. rewrite !andb_true_iff in Hsx.
  destruct Hsx as (_ & Hall). rewrite forallb_forall in Hall.
  assert (Hin : In f [ SX_RT_EXPORT_NO_CONVERSION; SX_RT_EXPORT_32_R;
                       SX_RT_EXPORT_32_A; SX_RT_EXPORT_10_11_11;
                       SX_RT_EXPORT_2_10_10_10; SX_RT_EXPORT_8_8_8_8;
                       SX_RT_EXPORT_5_6_5; SX_RT_EXPORT_1_5_5_5;
                       SX_RT_EXPORT_4_4_4_4; SX_RT_EXPORT_16_16_GR;
                       SX_RT_EXPORT_16_16_AR ])
    by (destruct f; simpl; tauto).
  specialize (Hall f Hin). lia.
Qed.

Lemma slotEpsilon_range format : 0 <= slotEpsilon format < 16.
Proof.
  unfold slotEpsilon. destruct (SxDownConvertFormat format); simpl; lia.
Qed.

(** A slot update as three field writes. *)
Lemma SetupRbPlusRegistersForSlot_eq hw slot writeMask format regs :
  sxOk hw = true -> (slot < MaxColorTargets)%nat ->
  SetupRbPlusRegistersForSlot hw slot writeMask format regs
  = mkRbPlus
      (setField (slotField slot)
                (sxFormatCode (enums hw) (SxDownConvertFormat format))
                (rb_sxPsDownconvert regs))
      (setField (slotField slot) (slotEpsilon format) (rb_sxBlendOptEpsilon regs))
      (setField (slotControlField slot) (SxBlendOptControl (lay hw) writeMask)
                (rb_sxBlendOptControl regs)).
Proof.
  intros Hsx Hslot.
  pose proof (SxBlendOptControl_value hw writeMask Hsx) as Hctl.
  pose proof (sxFormatCode_range hw (SxDownConvertFormat format) Hsx) as Hcode.
  pose proof (slotEpsilon_range format) as Heps.
  unfold sxOk in Hsx. rewrite !andb_true_iff in Hsx.
  destruct Hsx as ((((Hd & He) & Hc) & Ha) & _).
  apply Z.eqb_eq in Hd, He, Hc, Ha.
  unfold SetupRbPlusRegistersForSlot. cbv zeta.
  rewrite Hd, He, Hc, Ha.
  fold (slotEpsilon format).
  unfold MaxColorTargets in Hslot.
  change 15 with (Z.ones 4). change (Z.lor 1 2) with (Z.ones 2).
  rewrite !field_update; try lia.
  - reflexivity.
  - rewrite Hctl.
    destruct (Z.land writeMask 7 =? 0), (Z.land writeMask 8 =? 0); simpl; lia.
Qed.

(** What a slot update does to the view of each slot. *)
Lemma SetupRbPlusRegistersForSlot_view (hw : Hw) (slot : nat) (writeMask : Z)
  (format : ChNumFormat) (regs : RbPlusRegs) :
  sxOk hw = true ->
  (slot < MaxColorTargets)%nat ->
  let regs' := SetupRbPlusRegistersForSlot hw slot writeMask format regs in
  slotView slot regs'
  = (sxFormatCode (enums hw) (SxDownConvertFormat format),
     slotEpsilon format,
     (if Z.land writeMask 0x7 =? 0 then 1 else 0)
     + (if Z.land writeMask 0x8 =? 0 then 2 else 0))
  /\ (forall other, (other < MaxColorTargets)%nat -> other <> slot ->
        slotView other regs' = slotView other regs).
Proof.
  intros Hsx Hslot. cbv zeta.
  rewrite SetupRbPlusRegistersForSlot_eq by assumption.
  pose proof (SxBlendOptControl_value hw writeMask Hsx) as Hctl.
  pose proof (sxFormatCode_range hw (SxDownConvertFormat format) Hsx) as Hcode.
  pose proof (slotEpsilon_range format) as Heps.
  unfold slotView. cbn [rb_sxPsDownconvert rb_sxBlendOptEpsilon rb_sxBlendOptControl].
  split.
  - rewrite !getField_setField_same
      by first [apply slotField_ok; assumption
               | apply slotControlField_ok; assumption].
    change (fwidth (slotField slot)) with 4.
    change (fwidth (slotControlField slot)) with 2.
    rewrite !Z.mod_small.
    + rewrite Hctl. reflexivity.
    + rewrite Hctl.
      destruct (Z.land writeMask 7 =? 0), (Z.land writeMask 8 =? 0); simpl; lia.
    + simpl; lia.
    + simpl; lia.
  - intros other Hother Hne.
    rewrite !getField_setField_other;
      first [ reflexivity
            | apply slotField_ok; assumption
            | apply slotControlField_ok; assumption
            | left; apply slotField_disjoint; assumption
            | left; apply slotControlField_disjoint; assumption ].
Qed.

(** [X13] A slot update writes the slot's own bits and nothing else: after
    it the slot holds the down-convert code of the format, the epsilon of
    that code, and the disable bits of the write mask (colour optimisation
    is disabled when no colour channel is written, alpha optimisation when
    alpha is not written); what the three registers hold for any other
    slot is unchanged, and so is every bit of SX_BLEND_OPT_CONTROL other
    than the slot's two disable bits. *)
Theorem slot_update_is_local (hw : Hw) (slot : nat) (writeMask : Z)
  (format : ChNumFormat) (regs : RbPlusRegs) :
  sxOk hw = true ->
  (slot < MaxColorTargets)%nat ->
  let regs' := SetupRbPlusRegistersForSlot hw slot writeMask format regs in
  slotView slot regs'
  = (sxFormatCode (enums hw) (SxDownConvertFormat format),
     slotEpsilon format,
     (if Z.land writeMask 0x7 =? 0 then 1 else 0)
     + (if Z.land writeMask 0x8 =? 0 then 2 else 0))
  /\ (forall other, (other < MaxColorTargets)%nat -> other <> slot ->
        slotView other regs' = slotView other regs)
  /\ (forall i, 0 <= i ->
        i < 4 * Z.of_nat slot \/ 4 * Z.of_nat slot + 2 <= i ->
        Z.testbit (rb_sxBlendOptControl regs') i
        = Z.testbit (rb_sxBlendOptControl regs) i).
Proof.
  intros Hsx Hslot. cbv zeta.
  destruct (SetupRbPlusRegistersForSlot_view hw slot writeMask format regs
              Hsx Hslot) as [Hsame Hother].
  split; [exact Hsame|]. split; [exact Hother|].
  intros i Hi Hout.
  rewrite SetupRbPlusRegistersForSlot_eq by assumption.
  cbn [rb_sxBlendOptControl].
  rewrite testbit_setField by (simpl; lia).
  simpl fpos. simpl fwidth.
  replace ((4 * Z.of_nat slot <=? i) && (i <? 4 * Z.of_nat slot + 2))
    with false by lia.
  reflexivity.
Qed.

(** Slot 2 with an 8:8:8:8 format and a write mask without alpha. *)
Lemma slot_update_is_local_witness :
  slotView 2 (SetupRbPlusRegistersForSlot viHw 2 0x7 X8Y8Z8W8_Unorm
                (mkRbPlus 0x11111111 0x22222222 0x33333333))
  = (sxFormatCode viEnums SX_RT_EXPORT_8_8_8_8, 6, 2)
  /\ slotView 3 (SetupRbPlusRegistersForSlot viHw 2 0x7 X8Y8Z8W8_Unorm
                   (mkRbPlus 0x11111111 0x22222222 0x33333333))
     = (1, 2, 3).
Proof.
  pose proof (slot_update_is_local viHw 2 0x7 X8Y8Z8W8_Unorm
                (mkRbPlus 0x11111111 0x22222222 0x33333333) eq_refl
                ltac:(unfold MaxColorTargets; lia)) as (H1 & H2 & _).
  split; [exact H1|].
  rewrite (H2 3%nat ltac:(unfold MaxColorTargets; lia) ltac:(lia)).
  reflexivity.
Defined.

(** The loop over the slots: a slot of the list holds what its target
    gives, any other slot what it held. *)
Lemma SetupRbPlusRegistersForSlot_fold hw (createInfo : GraphicsPipelineCreateInfo)
  (slots : list nat) (regs : RbPlusRegs) (slot : nat) :
  sxOk hw = true ->
  Forall (fun s => (s < MaxColorTargets)%nat) slots ->
  (slot < MaxColorTargets)%nat ->
  slotView slot
    (fold_left
       (fun regs slot =>
          SetupRbPlusRegistersForSlot hw slot
            (u8 (channelWriteMask (target createInfo slot)))
            (swizzledFormat (target createInfo slot)) regs)
       slots regs)
  = if existsb (Nat.eqb slot) slots
    then (sxFormatCode (enums hw)
            (SxDownConvertFormat (swizzledFormat (target createInfo slot))),
          slotEpsilon (swizzledFormat (target createInfo slot)),
          (if Z.land (u8 (channelWriteMask (target createInfo slot))) 0x7 =? 0
           then 1 else 0)
          + (if Z.land (u8 (channelWriteMask (target createInfo slot))) 0x8 =? 0
             then 2 else 0))
    else slotView slot regs.
Proof.
  intros Hsx Hall Hslot. revert regs.
  induction slots as [|x xs IH] using rev_ind; intros regs; [reflexivity|].
  apply Forall_app in Hall as [Hxs Hx].
  apply Forall_inv in Hx.
  rewrite fold_left_app. cbn [fold_left].
  rewrite existsb_app. cbn [existsb]. rewrite orb_false_r.
  pose proof (SetupRbPlusRegistersForSlot_view hw x
                (u8 (channelWriteMask (target createInfo x)))
                (swizzledFormat (target createInfo x))
                (fold_left
                   (fun regs slot =>
                      SetupRbPlusRegistersForSlot hw slot
                        (u8 (channelWriteMask (target createInfo slot)))
                        (swizzledFormat (target createInfo slot)) regs)
                   xs regs) Hsx Hx) as [Hsame Hother].
  cbv zeta in Hsame, Hother.
  destruct (Nat.eqb_spec slot x) as [-> | Hne].
  - rewrite orb_true_r. exact Hsame.
  - rewrite orb_false_r, (Hother slot Hslot Hne). apply IH. exact Hxs.
Qed.

(** The part of [SetupNonShaderRegisters] that decides on RB+. *)
Lemma SetupNonShaderRegisters_rb dev hw createInfo registers u p :
  cbOk hw = true ->
  let ctx' :=
    m_regs_context (fst (SetupNonShaderRegisters dev hw createInfo registers u p)) in
  exists cc1,
    getField (MODE (lay hw)) (cbColorControl ctx') = getField (MODE (lay hw)) cc1
    /\ getField (DISABLE_DUAL_QUAD__VI (lay hw)) cc1
       = getField (DISABLE_DUAL_QUAD__VI (lay hw)) (cbColorControl (m_regs_context p))
    /\ (cbColorControl ctx', contextRbPlus ctx')
       = if gfx8RbPlusEnable (Settings dev)
            && negb (dualSourceBlendEnable createInfo)
            && negb (getField (MODE (lay hw)) cc1 =? CB_RESOLVE (enums hw))
         then (setField (DISABLE_DUAL_QUAD__VI (lay hw)) 0 cc1,
               fold_left
                 (fun regs slot =>
                    SetupRbPlusRegistersForSlot hw slot
                      (u8 (channelWriteMask (target createInfo slot)))
                      (swizzledFormat (target createInfo slot)) regs)
                 (seq 0 MaxColorTargets) (contextRbPlus (m_regs_context p)))
         else if rbPlus (ChipProperties dev)
         then (setField (DISABLE_DUAL_QUAD__VI (lay hw)) 1 cc1,
               contextRbPlus (m_regs_context p))
         else (cc1, contextRbPlus (m_regs_context p)).
Proof.
  intros Hcb. cbv zeta. unfold cbOk in Hcb. cbv zeta in Hcb. split_ok Hcb.
  unfold SetupNonShaderRegisters. cbv zeta.
  match goal with
  | |- context [SetupNonShaderRegisters_colorMode hw p createInfo ?r] =>
      set (cm := SetupNonShaderRegisters_colorMode hw p createInfo r)
  end.
  match goal with
  | |- context [if dualSourceBlendEnable createInfo && ?c then ?a else ?b] =>
      set (cc1 := if dualSourceBlendEnable createInfo && c then a else b)
  end.
  exists cc1.
  assert (Hddq : getField (DISABLE_DUAL_QUAD__VI (lay hw)) cc1
                 = getField (DISABLE_DUAL_QUAD__VI (lay hw))
                            (cbColorControl (m_regs_context p))).
  { subst cc1 cm. unfold SetupNonShaderRegisters_colorMode. cbv zeta.
    repeat match goal with
           | |- context [if ?c then _ else _] => destruct c
           end; cbn [cm_cbColorControl]; fields; reflexivity. }
  clearbody cc1 cm.
  fold (contextRbPlus (m_regs_context p)).
  destruct (gfx8RbPlusEnable (Settings dev)
            && negb (dualSourceBlendEnable createInfo)
            && negb (getField (MODE (lay hw)) cc1 =? CB_RESOLVE (enums hw)));
    [|destruct (rbPlus (ChipProperties dev))];
    cbn; fields; repeat split; try assumption; try reflexivity.
Qed.

Lemma existsb_seq_slot slot :
  (slot < MaxColorTargets)%nat ->
  existsb (Nat.eqb slot) (seq 0 MaxColorTargets) = true.
Proof.
  intros H. apply existsb_exists. exists slot.
  split; [apply in_seq; lia | apply Nat.eqb_refl].
Qed.

Lemma Forall_seq_slot :
  Forall (fun s => (s < MaxColorTargets)%nat) (seq 0 MaxColorTargets).
Proof. apply List.Forall_forall. intros s Hs. apply in_seq in Hs. lia. Qed.

(** [X14] RB+ is programmed exactly when the setting enables it, dual-source
    blending is off and the colour mode is not the fixed-function resolve.
    Then dual quad stays enabled and every slot of the three RB+ registers
    holds what its own colour target gives: the down-convert code of the
    target's format, the epsilon of that code, and the disable bits of the
    target's write mask.  Otherwise the three registers are left as they
    were, and dual quad is disabled on hardware that has RB+. *)
Theorem rb_plus_follows_the_targets (dev : Device) (hw : Hw)
  (createInfo : GraphicsPipelineCreateInfo) (registers : RegisterVector)
  (u : GraphicsPipelineUploader) (p : GraphicsPipeline) :
  cbOk hw = true ->
  sxOk hw = true ->
  let ctx' :=
    m_regs_context (fst (SetupNonShaderRegisters dev hw createInfo registers u p)) in
  let dualQuadOff := getField (DISABLE_DUAL_QUAD__VI (lay hw)) (cbColorControl ctx') in
  if gfx8RbPlusEnable (Settings dev)
     && negb (dualSourceBlendEnable createInfo)
     && negb (getField (MODE (lay hw)) (cbColorControl ctx') =? CB_RESOLVE (enums hw))
  then
    dualQuadOff = 0
    /\ forall slot, (slot < MaxColorTargets)%nat ->
         let t := target createInfo slot in
         slotView slot (contextRbPlus ctx')
         = (sxFormatCode (enums hw) (SxDownConvertFormat (swizzledFormat t)),
            slotEpsilon (swizzledFormat t),
            (if Z.land (u8 (channelWriteMask t)) 0x7 =? 0 then 1 else 0)
            + (if Z.land (u8 (channelWriteMask t)) 0x8 =? 0 then 2 else 0))
  else
    contextRbPlus ctx' = contextRbPlus (m_regs_context p)
    /\ dualQuadOff
       = if rbPlus (ChipProperties dev) then 1
         else getField (DISABLE_DUAL_QUAD__VI (lay hw))
                       (cbColorControl (m_regs_context p)).
Proof.
  intros Hcb Hsx. cbv zeta.
  pose proof (SetupNonShaderRegisters_rb dev hw createInfo registers u p Hcb)
    as (cc1 & Hmode & Hddq & Heq).
  cbv zeta in Hmode, Heq. rewrite Hmode.
  unfold cbOk in Hcb. cbv zeta in Hcb. split_ok Hcb.
  assert (Hw : 0 < 2 ^ fwidth (DISABLE_DUAL_QUAD__VI (lay hw))).
  { match goal with
    | H : fieldOk (DISABLE_DUAL_QUAD__VI (lay hw)) = true |- _ =>
        apply fieldOk_spec in H as (_ & Hw & _)
    end.
    apply Z.pow_pos_nonneg; lia. }
  destruct (gfx8RbPlusEnable (Settings dev)
            && negb (dualSourceBlendEnable createInfo)
            && negb (getField (MODE (lay hw)) cc1 =? CB_RESOLVE (enums hw)));
    [|destruct (rbPlus (ChipProperties dev))];
    apply pair_equal_spec in Heq as [Hcc Hrb]; rewrite Hcc, Hrb.
  - split.
    + fields. apply Z.mod_0_l. lia.
    + intros slot Hslot. cbv zeta.
      rewrite SetupRbPlusRegistersForSlot_fold
        by (assumption || apply Forall_seq_slot).
      rewrite existsb_seq_slot by assumption. reflexivity.
  - split; [reflexivity|]. fields. now apply bit_fits.
  - split; [reflexivity | exact Hddq].
Qed.

(** The example pipeline: one 8:8:8:8 target with all channels written. *)
Lemma rb_plus_follows_the_targets_witness :
  let ctx' :=
    m_regs_context
      (fst (SetupNonShaderRegisters exDevice viHw (exCreateInfo 0xF) ∅
              exUploader exPipeline)) in
  getField (DISABLE_DUAL_QUAD__VI viLayout) (cbColorControl ctx') = 0
  /\ slotView 0 (contextRbPlus ctx')
     = (sxFormatCode viEnums SX_RT_EXPORT_8_8_8_8, 6, 0).
Proof.
  pose proof (rb_plus_follows_the_targets exDevice viHw (exCreateInfo 0xF) ∅
                exUploader exPipeline eq_refl eq_refl) as H.
  cbv zeta in H.
  match type of H with
  | if ?c then _ else _ =>
      replace c with true in H by (vm_compute; reflexivity)
  end.
  destruct H as [H0 Hs]. split; [exact H0|].
  rewrite (Hs 0%nat ltac:(unfold MaxColorTargets; lia)). reflexivity.
Defined.

(** [X15] With dual-source blending, a pixel shader that does not export
    both of the first two colours has its colour writes disabled (mode
    Disable), and RB+ is not programmed. *)
Theorem dual_source_needs_both_exports (dev : Device) (hw : Hw)
  (createInfo : GraphicsPipelineCreateInfo) (registers : RegisterVector)
  (u : GraphicsPipelineUploader) (p : GraphicsPipeline) :
  cbOk hw = true ->
  dualSourceBlendEnable createInfo = true ->
  let ctx' :=
    m_regs_context (fst (SetupNonShaderRegisters dev hw createInfo registers u p)) in
  Z.land (cbShaderMask ctx') 0x0F = 0 \/ Z.land (cbShaderMask ctx') 0xF0 = 0 ->
  getField (MODE (lay hw)) (cbColorControl ctx') = CB_DISABLE (enums hw)
  /\ contextRbPlus ctx' = contextRbPlus (m_regs_context p).
Proof.
  intros Hcb Hdual. cbv zeta.
  unfold cbOk in Hcb. cbv zeta in Hcb. cbn [forallb] in Hcb. split_ok Hcb.
  unfold SetupNonShaderRegisters. cbv zeta.
  match goal with
  | |- context [SetupNonShaderRegisters_colorMode hw p createInfo ?r] =>
      set (cm := SetupNonShaderRegisters_colorMode hw p createInfo r)
  end.
  clearbody cm. rewrite Hdual. cbn [negb andb]. rewrite andb_false_r.
  destruct (rbPlus (ChipProperties dev)); cbn; intros Hmask;
    (replace ((Z.land (cm_cbShaderMask cm) 15 =? 0)
              || (Z.land (cm_cbShaderMask cm) 240 =? 0)) with true
      by (symmetry; apply orb_true_iff; lia));
    fields; rewrite fits_mod by assumption; split; reflexivity.
Qed.

(** A dual-source pipeline whose shader exports colour 0 only. *)
Lemma dual_source_needs_both_exports_witness :
  let createInfo :=
    mkCreateInfo false false false false false false
                 (shadeMode (exCreateInfo 0xF))
                 (pointCoordOrigin (exCreateInfo 0xF))
                 (target (exCreateInfo 0xF)) LogicCopy true false in
  let ctx' :=
    m_regs_context
      (fst (SetupNonShaderRegisters exDevice viHw createInfo
              {[ mmCB_SHADER_MASK viAddr := 0xF ]} exUploader exPipeline)) in
  getField (MODE viLayout) (cbColorControl ctx') = CB_DISABLE viEnums.
Proof.
  intros createInfo.
  apply (dual_source_needs_both_exports exDevice viHw createInfo
           {[ mmCB_SHADER_MASK viAddr := 0xF ]} exUploader exPipeline
           eq_refl eq_refl).
  right. vm_compute. reflexivity.
Defined.

(** [X16] The RB+ override for a blit replaces the caller's three registers
    only when the slot's format differs from the pipeline's and dual quad
    is enabled.  It does not merge: the slot is programmed for the new
    format and its component mask, and every other slot is zero. *)
Theorem rpm_override_programs_one_slot (hw : Hw) (p : GraphicsPipeline)
  (targetFormats : nat -> ChNumFormat) (componentMask : ChNumFormat -> Z)
  (swizzledFormat : ChNumFormat) (slot : nat) (out : RbPlusRegs) :
  sxOk hw = true ->
  (slot < MaxColorTargets)%nat ->
  let out' :=
    OverrideRbPlusRegistersForRpm hw p targetFormats componentMask
                                  swizzledFormat slot out in
  let dualQuadOff :=
    getField (DISABLE_DUAL_QUAD__VI (lay hw)) (cbColorControl (m_regs_context p)) in
  (targetFormats slot = swizzledFormat \/ dualQuadOff <> 0 -> out' = out)
  /\ (targetFormats slot <> swizzledFormat -> dualQuadOff = 0 ->
      slotView slot out'
      = (sxFormatCode (enums hw) (SxDownConvertFormat swizzledFormat),
         slotEpsilon swizzledFormat,
         (if Z.land (u8 (componentMask swizzledFormat)) 0x7 =? 0 then 1 else 0)
         + (if Z.land (u8 (componentMask swizzledFormat)) 0x8 =? 0 then 2 else 0))
      /\ forall other, (other < MaxColorTargets)%nat -> other <> slot ->
           slotView other out' = (0, 0, 0)).
Proof.
  intros Hsx Hslot. cbv zeta. unfold OverrideRbPlusRegistersForRpm.
  destruct (ChNumFormat_eq_dec (targetFormats slot) swizzledFormat) as [E | N].
  - split; [reflexivity | contradiction].
  - cbn [andb].
    destruct (Z.eqb_spec
                (getField (DISABLE_DUAL_QUAD__VI (lay hw))
                          (cbColorControl (m_regs_context p))) 0) as [Z0 | NZ].
    + split; [intros [? | ?]; contradiction|]. intros _ _.
      pose proof (SetupRbPlusRegistersForSlot_view hw slot
                    (u8 (componentMask swizzledFormat)) swizzledFormat
                    (mkRbPlus 0 0 0) Hsx Hslot) as [Hsame Hother].
      cbv zeta in Hsame, Hother. split; [exact Hsame|].
      intros other Ho Hne. rewrite (Hother other Ho Hne).
      unfold slotView. cbn [rb_sxPsDownconvert rb_sxBlendOptEpsilon
                            rb_sxBlendOptControl].
      rewrite !getField_zero. reflexivity.
    + split; [reflexivity | intros _ Z0; contradiction].
Qed.

(** A blit to a 5:6:5 view of an 8:8:8:8 target in slot 1. *)
Lemma rpm_override_programs_one_slot_witness :
  let out' :=
    OverrideRbPlusRegistersForRpm viHw exPipeline (fun _ => X8Y8Z8W8_Unorm)
      (fun _ => 0x7) X5Y6Z5_Unorm 1 (mkRbPlus 0x44444444 0x66666666 0) in
  slotView 1 out' = (sxFormatCode viEnums SX_RT_EXPORT_5_6_5, 11, 2)
  /\ slotView 0 out' = (0, 0, 0).
Proof.
  pose proof (rpm_override_programs_one_slot viHw exPipeline
                (fun _ => X8Y8Z8W8_Unorm) (fun _ => 0x7) X5Y6Z5_Unorm 1
                (mkRbPlus 0x44444444 0x66666666 0) eq_refl
                ltac:(unfold MaxColorTargets; lia)) as [_ H].
  destruct (H ltac:(discriminate) eq_refl) as [H1 H2].
  split; [exact H1|].
  apply H2; [unfold MaxColorTargets; lia | lia].
Defined.

(** ** The target mask *)

Lemma getField_orBits_slot acc mask slot rt :
  (slot < MaxColorTargets)%nat -> (rt < MaxColorTargets)%nat ->
  getField (slotField slot)
           (orBits acc (Z.shiftl (Z.land mask 0xF) (Z.of_nat rt * 4)))
  = if Nat.eqb slot rt
    then Z.lor (getField (slotField slot) acc) (Z.land mask 0xF)
    else getField (slotField slot) acc.
Proof.
  unfold MaxColorTargets. intros Hslot Hrt.
  assert (Hsmall : 0 <= Z.land mask 0xF < 16).
  { change 15 with (Z.ones 4). rewrite Z.land_ones by lia.
    apply Z.mod_pos_bound. reflexivity. }
  unfold orBits. rewrite u32_small.
  2:{ rewrite Z.shiftl_mul_pow2 by lia.
      assert (0 < 2 ^ (Z.of_nat rt * 4) <= 2 ^ 28)
        by (split; [apply Z.pow_pos_nonneg; lia | apply Z.pow_le_mono_r; lia]).
      nia. }
  apply Z.bits_inj'. intros i Hi.
  rewrite testbit_getField by (simpl; lia).
  rewrite Z.lor_spec.
  destruct (Nat.eqb_spec slot rt) as [-> | Hne].
  - rewrite Z.lor_spec, testbit_getField by (simpl; lia).
    simpl fwidth. simpl fpos.
    destruct (i <? 4) eqn:Ei; cbn [andb].
    + rewrite Z.shiftl_spec by lia. f_equal. f_equal. lia.
    + change 15 with (Z.ones 4).
      rewrite Z.land_spec, Z.testbit_ones by lia.
      replace (i <? 4) with false. rewrite andb_false_r, andb_false_r.
      reflexivity.
  - rewrite testbit_getField by (simpl; lia).
    simpl fwidth. simpl fpos.
    destruct (i <? 4) eqn:Ei; cbn [andb]; [|reflexivity].
    rewrite Z.shiftl_spec by lia.
    change 15 with (Z.ones 4).
    destruct (Z.ltb_spec (i + 4 * Z.of_nat slot - Z.of_nat rt * 4) 0).
    + rewrite (Z.testbit_neg_r (Z.land mask (Z.ones 4))) by lia.
      apply orb_false_r.
    + rewrite Z.land_spec, Z.testbit_ones by lia.
      replace (i + 4 * Z.of_nat slot - Z.of_nat rt * 4 <? 4) with false by lia.
      rewrite !andb_false_r. apply orb_false_r.
Qed.

Lemma targetMask_fold (createInfo : GraphicsPipelineCreateInfo)
  (slots : list nat) (acc : Z) (slot : nat) :
  Forall (fun s => (s < MaxColorTargets)%nat) slots ->
  (slot < MaxColorTargets)%nat ->
  getField (slotField slot)
    (fold_left
       (fun acc rt =>
          orBits acc (Z.shiftl (Z.land (channelWriteMask (target createInfo rt)) 0xF)
                               (Z.of_nat rt * 4)))
       slots acc)
  = if existsb (Nat.eqb slot) slots
    then Z.lor (getField (slotField slot) acc)
               (Z.land (channelWriteMask (target createInfo slot)) 0xF)
    else getField (slotField slot) acc.
Proof.
  intros Hall Hslot.
  induction slots as [|x xs IH] using rev_ind; [reflexivity|].
  apply Forall_app in Hall as [Hxs Hx]. apply Forall_inv in Hx.
  rewrite fold_left_app. cbn [fold_left].
  rewrite existsb_app. cbn [existsb]. rewrite orb_false_r.
  rewrite getField_orBits_slot by assumption.
  rewrite (IH Hxs).
  destruct (Nat.eqb_spec slot x) as [-> | Hne].
  - rewrite orb_true_r. destruct (existsb (Nat.eqb x) xs); [|reflexivity].
    rewrite <- Z.lor_assoc, Z.lor_diag. reflexivity.
  - rewrite orb_false_r. reflexivity.
Qed.

(** [X17] A pipeline that is none of the four internal kinds packs the low
    four bits of each colour target's write mask into the target's nibble
    of CB_TARGET_MASK (on top of what the register held); bits of a write
    mask above the low four are dropped.  The toss point after the pixel
    shader clears the whole mask of a client pipeline instead. *)
Theorem target_mask_packs_write_masks (dev : Device) (hw : Hw)
  (createInfo : GraphicsPipelineCreateInfo) (registers : RegisterVector)
  (u : GraphicsPipelineUploader) (p : GraphicsPipeline) :
  categoryOf p = NormalPipeline ->
  let ctx' :=
    m_regs_context (fst (SetupNonShaderRegisters dev hw createInfo registers u p)) in
  if negb (IsInternal (base p)) && tossPointAfterPs dev
  then cbTargetMask ctx' = 0
  else forall slot, (slot < MaxColorTargets)%nat ->
         getField (slotField slot) (cbTargetMask ctx')
         = Z.lor (getField (slotField slot) (cbTargetMask (m_regs_context p)))
                 (Z.land (channelWriteMask (target createInfo slot)) 0xF).
Proof.
  intros Hcat. cbv zeta.
  pose proof (SetupNonShaderRegisters_masks dev hw createInfo registers u p)
    as [_ Hmask].
  cbv zeta in Hmask. rewrite Hmask.
  destruct (negb (IsInternal (base p)) && tossPointAfterPs dev); [reflexivity|].
  intros slot Hslot.
  assert (E : forall r,
             cm_cbTargetMask (SetupNonShaderRegisters_colorMode hw p createInfo r)
             = cm_cbTargetMask r).
  { intros r. unfold categoryOf in Hcat.
    unfold SetupNonShaderRegisters_colorMode. cbv zeta.
    destruct (IsFastClearEliminate (base p)); [discriminate|].
    destruct (IsFmaskDecompress (base p)); [discriminate|].
    destruct (IsDccDecompress (base p)); [discriminate|].
    destruct (IsResolveFixedFunc (base p)); [discriminate|].
    destruct ((cm_cbShaderMask r =? 0) || (cm_cbTargetMask r =? 0)); reflexivity. }
  rewrite E. cbn [cm_cbTargetMask].
  rewrite targetMask_fold by (assumption || apply Forall_seq_slot).
  rewrite existsb_seq_slot by assumption. reflexivity.
Qed.

(** The example pipeline, with a write mask of 0x13 for target 0. *)
Lemma target_mask_packs_write_masks_witness :
  getField (slotField 0)
    (cbTargetMask
       (m_regs_context
          (fst (SetupNonShaderRegisters exDevice viHw (exCreateInfo 0x13) ∅
                  exUploader exPipeline))))
  = 0x3.
Proof.
  pose proof (target_mask_packs_write_masks exDevice viHw (exCreateInfo 0x13) ∅
                exUploader exPipeline eq_refl) as H.
  cbv zeta in H.
  match type of H with
  | if ?c then _ else _ =>
      replace c with false in H by (vm_compute; reflexivity)
  end.
  rewrite (H 0%nat ltac:(unfold MaxColorTargets; lia)). reflexivity.
Defined.

(** ** More on the user-data signature *)

Lemma stage_eqb_refl s : stage_eqb s s = true.
Proof. unfold stage_eqb. apply Nat.eqb_refl. Qed.

Lemma stage_eqb_neq s s' : s <> s' -> stage_eqb s s' = false.
Proof. destruct s, s'; intros H; try reflexivity; contradiction H; reflexivity. Qed.

Lemma u8_small z : 0 <= z < 2 ^ 8 -> u8 z = z.
Proof. intros H. unfold u8. now apply Z.mod_small. Qed.

(** What the pass-through branch does to the entry map of the stage. *)
Lemma entry_ordinary hw md vb s offset value st :
  isOrdinaryEntry hw md value = true ->
  stage (sig (SetupSignatureForStageFromElf_entry hw s
                (streamOutTableEntryPlus1Of md) (indirectTableEntryPlus1Of md)
                vb offset value st)) s
  = let pStage := stage (sig st) s in
    let first :=
      if firstUserSgprRegAddr pStage =? UserDataNotMapped then offset
      else firstUserSgprRegAddr pStage in
    mkEntryMap
      (<[Z.to_nat (u8 (offset - first)) := u8 value]> (mappedEntry pStage))
      (Z.max (u8 (u8 (offset - first) + 1)) (userSgprCount pStage))
      first (spillTableRegAddr pStage).
Proof.
  intros Hord. unfold isOrdinaryEntry in Hord.
  apply andb_true_iff in Hord as [Hord H3].
  apply andb_true_iff in Hord as [H1 H2].
  apply negb_true_iff in H1, H2.
  unfold SetupSignatureForStageFromElf_entry. cbv zeta.
  rewrite H1, H2, H3. unfold check, withSig.
  match goal with
  | |- context [if ?c <=? offset then _ else _] => destruct (c <=? offset)
  end; cbn; unfold setStage; rewrite stage_eqb_refl; reflexivity.
Qed.

(** Every other branch leaves the entries, their count and the first
    register of the stage alone. *)
Lemma entry_other hw md vb s offset value st :
  isOrdinaryEntry hw md value = false ->
  let m := stage (sig st) s in
  let m' :=
    stage (sig (SetupSignatureForStageFromElf_entry hw s
                  (streamOutTableEntryPlus1Of md) (indirectTableEntryPlus1Of md)
                  vb offset value st)) s in
  mappedEntry m' = mappedEntry m
  /\ userSgprCount m' = userSgprCount m
  /\ firstUserSgprRegAddr m' = firstUserSgprRegAddr m.
Proof.
  intros Hord. cbv zeta. unfold isOrdinaryEntry in Hord.
  unfold SetupSignatureForStageFromElf_entry. cbv zeta.
  destruct (u32 (value + 1) =? streamOutTableEntryPlus1Of md).
  { destruct (stage_eqb s Vs); cbn; auto. }
  destruct (u32 (value + 1) =? indirectTableEntryPlus1Of md).
  { unfold check, withSig. destruct (stage_eqb s vb); cbn; auto. }
  destruct (value <? MaxUserDataEntries (abi hw)); [discriminate Hord|].
  unfold check, withSig.
  repeat match goal with
         | |- context [if ?c then _ else _] => destruct c
         end; cbn; unfold setStage; rewrite ?stage_eqb_refl; cbn; auto.
Qed.

(** No branch touches the entry map of another stage. *)
Lemma entry_other_stage hw so it vb s s' offset value st :
  s <> s' ->
  stage (sig (SetupSignatureForStageFromElf_entry hw s so it vb offset value st)) s'
  = stage (sig st) s'.
Proof.
  intros Hne. apply stage_eqb_neq in Hne.
  unfold SetupSignatureForStageFromElf_entry. cbv zeta.
  unfold check, withSig.
  repeat match goal with
         | |- context [if ?c then _ else _] => destruct c
         end; cbn; unfold setStage; rewrite ?Hne; reflexivity.
Qed.

Section SignatureScan.

Variables (hw : Hw) (md : CodeObjectMetadata) (vb : HwShaderStage)
          (registers : RegisterVector) (s : HwShaderStage).
Hypothesis Hwin : windowOk (addr hw) = true.

Let lo := BaseRegAddr (addr hw) s.

Let ordAt (o : Z) : bool :=
  match registers !! o with
  | Some v => isOrdinaryEntry hw md v
  | None => false
  end.

Let step (st : SigState) (offset : Z) : SigState :=
  match registers !! offset with
  | Some value =>
      SetupSignatureForStageFromElf_entry hw s
        (streamOutTableEntryPlus1Of md) (indirectTableEntryPlus1Of md) vb
        offset value st
  | None => st
  end.

Let scan (n : nat) (st : SigState) : SigState :=
  fold_left step (map (fun k => lo + Z.of_nat k) (seq 0 n)) st.

(** What holds of the entry map of the stage after the first [n] registers
    of its window. *)
Let inv (n : nat) (m0 mn : UserDataEntryMap) : Prop :=
  length (mappedEntry mn) = 16%nat
  /\ (((forall k, (k < n)%nat -> ordAt (lo + Z.of_nat k) = false)
       /\ firstUserSgprRegAddr mn = UserDataNotMapped
       /\ mappedEntry mn = mappedEntry m0
       /\ userSgprCount mn = userSgprCount m0)
      \/ (exists f,
            (f < n)%nat
            /\ ordAt (lo + Z.of_nat f) = true
            /\ (forall k, (k < f)%nat -> ordAt (lo + Z.of_nat k) = false)
            /\ firstUserSgprRegAddr mn = lo + Z.of_nat f
            /\ (forall k v, (f <= k < n)%nat ->
                  registers !! (lo + Z.of_nat k) = Some v ->
                  isOrdinaryEntry hw md v = true ->
                  mappedEntry mn !! (k - f)%nat = Some (u8 v))
            /\ (forall k, (f <= k < n)%nat -> ordAt (lo + Z.of_nat k) = true ->
                  Z.of_nat (k - f) + 1 <= userSgprCount mn)
            /\ userSgprCount mn
               <= Z.max (userSgprCount m0) (Z.of_nat (n - f)))).

Lemma window_lo_pos : 0 < lo.
Proof.
  subst lo. unfold windowOk in Hwin. cbn [forallb] in Hwin.
  rewrite !andb_true_iff in Hwin. destruct s; lia.
Qed.

Lemma window_range :
  regRange lo (LastRegAddr (addr hw) s)
  = map (fun k => lo + Z.of_nat k) (seq 0 16).
Proof.
  assert (E : LastRegAddr (addr hw) s = lo + 15).
  { subst lo. unfold windowOk in Hwin. cbn [forallb] in Hwin.
    rewrite !andb_true_iff in Hwin. destruct s; lia. }
  unfold regRange. rewrite E.
  replace (lo + 15 - lo + 1) with 16 by lia. reflexivity.
Qed.

Lemma scan_S n st : scan (S n) st = step (scan n st) (lo + Z.of_nat n).
Proof.
  unfold scan. rewrite seq_S, map_app, fold_left_app. reflexivity.
Qed.

(** A register that is no ordinary entry keeps what holds. *)
Lemma inv_skip n m0 mn mn' :
  inv n m0 mn ->
  ordAt (lo + Z.of_nat n) = false ->
  mappedEntry mn' = mappedEntry mn ->
  userSgprCount mn' = userSgprCount mn ->
  firstUserSgprRegAddr mn' = firstUserSgprRegAddr mn ->
  inv (S n) m0 mn'.
Proof.
  intros [Hlen Hcase] Hno He Hc Hf. unfold inv. rewrite He, Hc, Hf.
  split; [exact Hlen|].
  destruct Hcase as [(Hnone & H1 & H2 & H3)
                    | (f & Hfn & Hford & Hbefore & H1 & H2 & H3 & H4)].
  - left. repeat split; try assumption.
    intros k Hk. destruct (Nat.eq_dec k n) as [-> | Hne]; [exact Hno|].
    apply Hnone. lia.
  - right. exists f. repeat split; try assumption.
    + lia.
    + intros k v Hk Hreg Hord.
      destruct (Nat.eq_dec k n) as [-> | Hne].
      * subst ordAt. cbv beta in Hno. rewrite Hreg in Hno. congruence.
      * apply (H2 k v); [lia | assumption | assumption].
    + intros k Hk Hord.
      destruct (Nat.eq_dec k n) as [-> | Hne]; [congruence|].
      apply H3; [lia | assumption].
    + lia.
Qed.

Lemma scan_invariant st n :
  (n <= 16)%nat ->
  firstUserSgprRegAddr (stage (sig st) s) = UserDataNotMapped ->
  length (mappedEntry (stage (sig st) s)) = 16%nat ->
  inv n (stage (sig st) s) (stage (sig (scan n st)) s).
Proof.
  intros Hn Hfirst Hlen. induction n as [|n IH].
  - split; [exact Hlen|]. left. repeat split; try assumption.
    intros k Hk. lia.
  - specialize (IH ltac:(lia)). rewrite scan_S.
    set (stn := scan n st) in *. unfold step.
    destruct (registers !! (lo + Z.of_nat n)) as [v|] eqn:Ereg.
    2:{ apply (inv_skip n _ _ _ IH); try reflexivity.
        subst ordAt. cbv beta. now rewrite Ereg. }
    destruct (isOrdinaryEntry hw md v) eqn:Eord.
    2:{ pose proof (entry_other hw md vb s (lo + Z.of_nat n) v stn Eord)
          as (He & Hc & Hf).
        apply (inv_skip n _ _ _ IH); try assumption.
        subst ordAt. cbv beta. now rewrite Ereg. }
    rewrite (entry_ordinary hw md vb s (lo + Z.of_nat n) v stn Eord).
    cbv zeta. pose proof window_lo_pos as Hlo.
    assert (Hordn : ordAt (lo + Z.of_nat n) = true)
      by (subst ordAt; cbv beta; now rewrite Ereg).
    destruct IH as [Hlenn [(Hnone & H1 & H2 & H3)
                          | (f & Hfn & Hford & Hbefore & H1 & H2 & H3 & H4)]].
    + rewrite H1, (Z.eqb_refl UserDataNotMapped).
      replace (lo + Z.of_nat n - (lo + Z.of_nat n)) with 0 by lia.
      change (u8 0) with 0. change (u8 (0 + 1)) with 1. change (Z.to_nat 0) with 0%nat.
      split; [cbn [mappedEntry]; now rewrite length_insert|].
      right. exists n. cbn [mappedEntry userSgprCount firstUserSgprRegAddr].
      repeat split; try assumption.
      * lia.
      * intros k v' Hk Hreg _.
        assert (k = n) by lia. subst k.
        rewrite Ereg in Hreg. injection Hreg as <-.
        rewrite Nat.sub_diag. apply list_lookup_insert_eq. lia.
      * intros k Hk _. lia.
      * rewrite H3. lia.
    + rewrite H1.
      replace (lo + Z.of_nat f =? UserDataNotMapped) with false
        by (unfold UserDataNotMapped; lia).
      replace (lo + Z.of_nat n - (lo + Z.of_nat f)) with (Z.of_nat (n - f)) by lia.
      rewrite (u8_small (Z.of_nat (n - f))) by (simpl; lia).
      rewrite (u8_small (Z.of_nat (n - f) + 1)) by (simpl; lia).
      rewrite Nat2Z.id.
      split; [cbn [mappedEntry]; now rewrite length_insert|].
      right. exists f. cbn [mappedEntry userSgprCount firstUserSgprRegAddr].
      repeat split; try assumption.
      * lia.
      * intros k v' Hk Hreg Hord'.
        destruct (Nat.eq_dec k n) as [-> | Hne].
        -- rewrite Ereg in Hreg. injection Hreg as <-.
           apply list_lookup_insert_eq. lia.
        -- rewrite list_lookup_insert_ne by lia.
           apply (H2 k v'); [lia | assumption | assumption].
      * intros k Hk Hord'.
        destruct (Nat.eq_dec k n) as [-> | Hne]; [lia|].
        specialize (H3 k ltac:(lia) Hord'). lia.
      * lia.
Qed.

(** The stage's loop is the scan of its sixteen registers. *)
Lemma SetupSignatureForStageFromElf_stage hash p st :
  vb = vbTableStageOf p ->
  stage (sig (SetupSignatureForStageFromElf hw hash p md registers s st)) s
  = stage (sig (scan 16
                  (match indirectUserDataTableAddresses md with
                   | None => st
                   | Some vs =>
                       check (forallb (Z.eqb 0) (tl vs)) MultipleIndirectTables st
                   end))) s.
Proof.
  intros Hvb. unfold SetupSignatureForStageFromElf. cbv zeta.
  rewrite <- Hvb. fold lo. rewrite window_range.
  fold (streamOutTableEntryPlus1Of md). fold (indirectTableEntryPlus1Of md).
  fold step. fold (scan 16).
  unfold check, withSig.
  repeat match goal with
         | |- context [if ?c then _ else _] => destruct c
         end; reflexivity.
Qed.

Lemma scan_result hash p st :
  vb = vbTableStageOf p ->
  firstUserSgprRegAddr (stage (sig st) s) = UserDataNotMapped ->
  length (mappedEntry (stage (sig st) s)) = 16%nat ->
  inv 16 (stage (sig st) s)
      (stage (sig (SetupSignatureForStageFromElf hw hash p md registers s st)) s).
Proof.
  intros Hvb Hfirst Hlen. rewrite SetupSignatureForStageFromElf_stage by assumption.
  match goal with
  | |- inv 16 _ (stage (sig (scan 16 ?st0)) s) =>
      assert (E : sig st0 = sig st)
        by (destruct (indirectUserDataTableAddresses md);
            [unfold check; destruct (forallb _ _)|]; reflexivity);
      pose proof (scan_invariant st0 16 (le_n _)) as H;
      rewrite E in H; apply H; assumption
  end.
Qed.

End SignatureScan.

(** [X18] Scanning a stage whose entry map is still empty indexes the
    ordinary user-data entries from the first register that maps one: that
    register is the lowest of the stage's window with an ordinary entry,
    the entry a register at [offset] maps is stored at index
    [offset - first], and the SGPR count covers every such index.  When no
    register of the window maps an ordinary entry, the entries, the count
    and the first register stay as they were. *)
Theorem user_data_entries_are_indexed_from_first (hw : Hw)
  (hash : UserDataEntryMap -> Z) (p : GraphicsPipeline)
  (md : CodeObjectMetadata) (registers : RegisterVector)
  (s : HwShaderStage) (st : SigState) :
  windowOk (addr hw) = true ->
  firstUserSgprRegAddr (stage (sig st) s) = UserDataNotMapped ->
  length (mappedEntry (stage (sig st) s)) = 16%nat ->
  let m := stage (sig st) s in
  let m' :=
    stage (sig (SetupSignatureForStageFromElf hw hash p md registers s st)) s in
  let first := firstUserSgprRegAddr m' in
  let lo := BaseRegAddr (addr hw) s in
  let hi := LastRegAddr (addr hw) s in
  (forall offset value,
     lo <= offset <= hi ->
     registers !! offset = Some value ->
     isOrdinaryEntry hw md value = true ->
     lo <= first <= offset
     /\ (exists v, registers !! first = Some v /\ isOrdinaryEntry hw md v = true)
     /\ (forall o v, lo <= o < first -> registers !! o = Some v ->
           isOrdinaryEntry hw md v = false)
     /\ mappedEntry m' !! Z.to_nat (offset - first) = Some (u8 value)
     /\ offset - first + 1 <= userSgprCount m' <= Z.max (userSgprCount m) 16)
  /\ ((forall offset value,
         lo <= offset <= hi -> registers !! offset = Some value ->
         isOrdinaryEntry hw md value = false) ->
      mappedEntry m' = mappedEntry m
      /\ userSgprCount m' = userSgprCount m
      /\ first = UserDataNotMapped).
Proof.
  intros Hwin Hfirst Hlen. cbv zeta.
  pose proof (scan_result hw md (vbTableStageOf p) registers s Hwin hash p st
                eq_refl Hfirst Hlen) as [Hlen' Hcase].
  assert (Ehi : LastRegAddr (addr hw) s = BaseRegAddr (addr hw) s + 15).
  { unfold windowOk in Hwin. cbn [forallb] in Hwin.
    rewrite !andb_true_iff in Hwin. destruct s; lia. }
  rewrite Ehi.
  set (lo := BaseRegAddr (addr hw) s) in *.
  set (m' := stage (sig (SetupSignatureForStageFromElf hw hash p md registers s st)) s)
    in *.
  split.
  - intros offset value Hrange Hreg Hord.
    assert (Eo : offset = lo + Z.of_nat (Z.to_nat (offset - lo))) by lia.
    set (k := Z.to_nat (offset - lo)) in *.
    assert (Hk : (k < 16)%nat) by lia.
    destruct Hcase as [(Hnone & _)
                      | (f & Hfn & Hford & Hbefore & H1 & H2 & H3 & H4)].
    + specialize (Hnone k Hk). rewrite <- Eo, Hreg in Hnone. congruence.
    + assert (Hfk : (f <= k)%nat).
      { destruct (Nat.le_gt_cases f k) as [Hle | Hgt]; [exact Hle|].
        specialize (Hbefore k Hgt). rewrite <- Eo, Hreg in Hbefore. congruence. }
      rewrite H1. repeat split.
      * lia.
      * lia.
      * destruct (registers !! (lo + Z.of_nat f)) as [v|]; [|discriminate].
        exists v. split; [reflexivity | exact Hford].
      * intros o v Ho Hregs.
        specialize (Hbefore (Z.to_nat (o - lo)) ltac:(lia)).
        replace (lo + Z.of_nat (Z.to_nat (o - lo))) with o in Hbefore by lia.
        rewrite Hregs in Hbefore. exact Hbefore.
      * replace (Z.to_nat (offset - (lo + Z.of_nat f))) with (k - f)%nat by lia.
        apply (H2 k value); [lia | rewrite <- Eo; exact Hreg | exact Hord].
      * specialize (H3 k ltac:(lia)). rewrite <- Eo, Hreg in H3.
        specialize (H3 Hord). lia.
      * lia.
  - intros Hall.
    destruct Hcase as [(_ & H1 & H2 & H3)
                      | (f & Hfn & Hford & _)].
    + repeat split; assumption.
    + destruct (registers !! (lo + Z.of_nat f)) as [v|] eqn:Ereg; [|discriminate].
      rewrite (Hall (lo + Z.of_nat f) v ltac:(lia) Ereg) in Hford. discriminate.
Qed.

(** The vertex stage of a binary that maps entries 5 and 7 to the third and
    the fifth register of the window. *)
Lemma user_data_entries_are_indexed_from_first_witness :
  let lo := BaseRegAddr viAddr Vs in
  let registers : RegisterVector := {[ lo + 2 := 5; lo + 4 := 7 ]} in
  let m' :=
    stage (sig (SetupSignatureForStageFromElf viHw exHash exPipeline exMetadata
                  registers Vs (mkSigState (NullGfxSignature 0xFFFF) None [])))
          Vs in
  firstUserSgprRegAddr m' = lo + 2
  /\ mappedEntry m' !! 2%nat = Some 7
  /\ 3 <= userSgprCount m'.
Proof.
  intros lo registers m'.
  pose proof (user_data_entries_are_indexed_from_first viHw exHash exPipeline
                exMetadata registers Vs
                (mkSigState (NullGfxSignature 0xFFFF) None [])
                eq_refl eq_refl eq_refl) as [H _].
  cbv zeta in H.
  pose proof (H (lo + 2) 5 ltac:(vm_compute; split; discriminate) eq_refl eq_refl)
    as (Hlow & _).
  pose proof (H (lo + 4) 7 ltac:(vm_compute; split; discriminate) eq_refl eq_refl)
    as (_ & _ & Hbefore & Hentry & Hcount).
  fold m' in Hlow, Hbefore, Hentry, Hcount.
  assert (E : firstUserSgprRegAddr m' = lo + 2) by (vm_compute; reflexivity).
  rewrite E in Hentry, Hcount.
  split; [exact E|]. split; [exact Hentry | lia].
Defined.

Lemma scan_other_stage hw so it vb (registers : RegisterVector) s s'
  (offsets : list Z) st :
  s <> s' ->
  stage (sig (fold_left
                (fun st offset =>
                   match registers !! offset with
                   | Some value =>
                       SetupSignatureForStageFromElf_entry hw s so it vb
                                                           offset value st
                   | None => st
                   end)
                offsets st)) s'
  = stage (sig st) s'.
Proof.
  intros Hne. revert st. induction offsets as [|o os IH]; intros st; [reflexivity|].
  cbn [fold_left]. rewrite IH.
  destruct (registers !! o); [|reflexivity].
  now apply entry_other_stage.
Qed.

Lemma scan_hash hw so it vb (registers : RegisterVector) s (offsets : list Z) st :
  userDataHash
    (sig (fold_left
            (fun st offset =>
               match registers !! offset with
               | Some value =>
                   SetupSignatureForStageFromElf_entry hw s so it vb
                                                       offset value st
               | None => st
               end)
            offsets st))
  = userDataHash (sig st).
Proof.
  revert st. induction offsets as [|o os IH]; intros st; [reflexivity|].
  cbn [fold_left]. rewrite IH.
  destruct (registers !! o); [|reflexivity].
  unfold SetupSignatureForStageFromElf_entry. cbv zeta. unfold check, withSig.
  repeat match goal with
         | |- context [if ?c then _ else _] => destruct c
         end; reflexivity.
Qed.

(** [X19] Scanning one hardware stage never changes the entry map or the
    user-data hash of another stage, whatever its registers map; the hash
    of the scanned stage is the hash of its own entry map. *)
Theorem scanning_a_stage_leaves_the_others (hw : Hw)
  (hash : UserDataEntryMap -> Z) (p : GraphicsPipeline)
  (md : CodeObjectMetadata) (registers : RegisterVector)
  (s s' : HwShaderStage) (st : SigState) :
  s <> s' ->
  let st' := SetupSignatureForStageFromElf hw hash p md registers s st in
  stage (sig st') s' = stage (sig st) s'
  /\ userDataHash (sig st') s' = userDataHash (sig st) s'
  /\ userDataHash (sig st') s = hash (stage (sig st') s).
Proof.
  intros Hne. cbv zeta. unfold SetupSignatureForStageFromElf. cbv zeta.
  match goal with
  | |- context [fold_left ?f ?l ?st0] =>
      pose proof (scan_other_stage hw (streamOutTableEntryPlus1Of md)
                    (indirectTableEntryPlus1Of md) (vbTableStageOf p)
                    registers s s' l st0 Hne) as Hst;
      change (stage (sig (fold_left f l st0)) s' = stage (sig st0) s') in Hst;
      pose proof (scan_hash hw (streamOutTableEntryPlus1Of md)
                    (indirectTableEntryPlus1Of md) (vbTableStageOf p)
                    registers s l st0) as Hh;
      change (userDataHash (sig (fold_left f l st0)) = userDataHash (sig st0)) in Hh;
      assert (E0 : sig st0 = sig st)
        by (destruct (indirectUserDataTableAddresses md);
            [unfold check; destruct (forallb _ _)|]; reflexivity);
      rewrite E0 in Hst, Hh;
      set (stn := fold_left f l st0) in *
  end.
  clearbody stn.
  unfold check, withSig.
  repeat match goal with
         | |- context [if ?c then _ else _] => destruct c
         end; cbn; unfold setStageHash;
    rewrite (stage_eqb_neq s s' Hne), stage_eqb_refl, Hst, Hh; auto.
Qed.

(** Scanning the vertex stage of a binary with two entries leaves the pixel
    stage's entry map empty. *)
Lemma scanning_a_stage_leaves_the_others_witness :
  let lo := BaseRegAddr viAddr Vs in
  let registers : RegisterVector := {[ lo + 2 := 5; lo + 4 := 7 ]} in
  stage (sig (SetupSignatureForStageFromElf viHw exHash exPipeline exMetadata
                registers Vs (mkSigState (NullGfxSignature 0xFFFF) None [])))
        Ps
  = zeroEntryMap.
Proof.
  intros lo registers.
  pose proof (scanning_a_stage_leaves_the_others viHw exHash exPipeline
                exMetadata registers Vs Ps
                (mkSigState (NullGfxSignature 0xFFFF) None [])
                ltac:(discriminate)) as [H _].
  exact H.
Defined.

Lemma abiOk_EsGsLdsSize c :
  abiOk c = true ->
  MaxUserDataEntries c <= EsGsLdsSize c
  /\ 2 ^ 16 <= EsGsLdsSize c + 1
  /\ EsGsLdsSize c + 1 < 2 ^ 32
  /\ EsGsLdsSize c <> GlobalTable c
  /\ EsGsLdsSize c <> PerShaderTable c
  /\ EsGsLdsSize c <> SpillTable c
  /\ EsGsLdsSize c <> Workgroup c
  /\ EsGsLdsSize c <> VertexBufferTable c
  /\ EsGsLdsSize c <> StreamOutTable c
  /\ EsGsLdsSize c <> BaseVertex c
  /\ EsGsLdsSize c <> BaseInstance c
  /\ EsGsLdsSize c <> DrawIndex c
  /\ EsGsLdsSize c <> BaseIndex c
  /\ EsGsLdsSize c <> Log2IndexSize c
  /\ EsGsLdsSize c <> ViewId c.
Proof.
  intros Habi. unfold abiOk, reservedMappings in Habi.
  cbn [forallb] in Habi. split_ok Habi.
  repeat split;
    first [ apply Z.leb_le; assumption
          | apply Z.ltb_lt; assumption
          | apply Z.eqb_neq, negb_true_iff; assumption
          | apply not_eq_sym, Z.eqb_neq, negb_true_iff; assumption ].
Qed.

(** One ES-GS LDS size mapping: with somewhere to record it the register
    address is stored and nothing else changes, without it the mapping is
    reported as an illegal user-data register. *)
Lemma entry_EsGsLdsSize (hw : Hw) (stage' : HwShaderStage)
  (streamOutTableEntryPlus1 indirectTableEntryPlus1 : Z)
  (vbTableStage : HwShaderStage) (offset : Z) (st : SigState) :
  abiOk (abi hw) = true ->
  0 <= streamOutTableEntryPlus1 < 2 ^ 16 ->
  0 <= indirectTableEntryPlus1 < 2 ^ 16 ->
  let st' :=
    SetupSignatureForStageFromElf_entry hw stage'
      streamOutTableEntryPlus1 indirectTableEntryPlus1 vbTableStage
      offset (EsGsLdsSize (abi hw)) st in
  sig st' = sig st
  /\ match esGsLdsSizeReg st with
     | Some _ => esGsLdsSizeReg st' = Some offset /\ failed st' = failed st
     | None =>
         esGsLdsSizeReg st' = None
         /\ failed st' = failed st ++ [IllegalUserDataRegister offset]
     end.
Proof.
  intros Habi Hso Hit. cbv zeta.
  pose proof (abiOk_EsGsLdsSize (abi hw) Habi)
    as (Hmax & Hlow & Hhigh & N1 & N2 & N3 & N4 & N5 & N6 & N7 & N8 & N9
        & N10 & N11 & N12).
  unfold SetupSignatureForStageFromElf_entry. cbv zeta.
  rewrite (u32_small (EsGsLdsSize (abi hw) + 1)) by lia.
  replace (EsGsLdsSize (abi hw) + 1 =? streamOutTableEntryPlus1) with false by lia.
  replace (EsGsLdsSize (abi hw) + 1 =? indirectTableEntryPlus1) with false by lia.
  replace (EsGsLdsSize (abi hw) <? MaxUserDataEntries (abi hw)) with false by lia.
  replace (EsGsLdsSize (abi hw) =? GlobalTable (abi hw)) with false by lia.
  replace (EsGsLdsSize (abi hw) =? PerShaderTable (abi hw)) with false by lia.
  replace (EsGsLdsSize (abi hw) =? SpillTable (abi hw)) with false by lia.
  replace (EsGsLdsSize (abi hw) =? Workgroup (abi hw)) with false by lia.
  replace (EsGsLdsSize (abi hw) =? VertexBufferTable (abi hw)) with false by lia.
  replace (EsGsLdsSize (abi hw) =? StreamOutTable (abi hw)) with false by lia.
  replace (EsGsLdsSize (abi hw) =? BaseVertex (abi hw)) with false by lia.
  replace (EsGsLdsSize (abi hw) =? BaseInstance (abi hw)) with false by lia.
  replace (EsGsLdsSize (abi hw) =? DrawIndex (abi hw)) with false by lia.
  rewrite Z.eqb_refl.
  destruct (esGsLdsSizeReg st) as [r|] eqn:Ereg; cbn [isNull negb andb].
  - repeat split; reflexivity.
  - replace (EsGsLdsSize (abi hw) =? BaseIndex (abi hw)) with false by lia.
    replace (EsGsLdsSize (abi hw) =? Log2IndexSize (abi hw)) with false by lia.
    replace (EsGsLdsSize (abi hw) =? ViewId (abi hw)) with false by lia.
    cbn [orb]. unfold check. cbn. rewrite Ereg. repeat split; reflexivity.
Qed.

(** Any other mapping leaves the recorded register alone. *)
Lemma entry_esGsLdsSizeReg_other hw stage' so it vb offset value st :
  value <> EsGsLdsSize (abi hw) ->
  esGsLdsSizeReg
    (SetupSignatureForStageFromElf_entry hw stage' so it vb offset value st)
  = esGsLdsSizeReg st.
Proof.
  intros Hne. unfold SetupSignatureForStageFromElf_entry. cbv zeta.
  replace (value =? EsGsLdsSize (abi hw)) with false by lia.
  cbn [andb]. unfold check, withSig.
  repeat match goal with
         | |- context [if ?c then _ else _] => destruct c
         end; reflexivity.
Qed.

(** A failed check is never dropped. *)
Lemma entry_failed_mono hw stage' so it vb offset value st c :
  In c (failed st) ->
  In c (failed (SetupSignatureForStageFromElf_entry hw stage' so it vb
                  offset value st)).
Proof.
  intros Hin. unfold SetupSignatureForStageFromElf_entry. cbv zeta.
  unfold check, withSig.
  repeat match goal with
         | |- context [if ?c then _ else _] => destruct c
         end; cbn [failed]; rewrite ?in_app_iff; auto.
Qed.

Lemma in_regRange lo hi o : In o (regRange lo hi) <-> lo <= o <= hi.
Proof.
  unfold regRange. rewrite in_map_iff. split.
  - intros (k & <- & Hk). apply in_seq in Hk. lia.
  - intros H. exists (Z.to_nat (o - lo)). split; [lia|]. apply in_seq. lia.
Qed.

Section EsGsLdsSizeScan.

Variables (hw : Hw) (stage' : HwShaderStage) (so it : Z) (vb : HwShaderStage)
          (registers : RegisterVector).
Hypothesis Habi : abiOk (abi hw) = true.
Hypothesis Hso : 0 <= so < 2 ^ 16.
Hypothesis Hit : 0 <= it < 2 ^ 16.

Let step (st : SigState) (offset : Z) : SigState :=
  match registers !! offset with
  | Some value =>
      SetupSignatureForStageFromElf_entry hw stage' so it vb offset value st
  | None => st
  end.

Let mapsIt (o : Z) : Prop := registers !! o = Some (EsGsLdsSize (abi hw)).

Lemma step_failed_mono st o c : In c (failed st) -> In c (failed (step st o)).
Proof.
  intros Hin. unfold step. destruct (registers !! o); [|exact Hin].
  now apply entry_failed_mono.
Qed.

Lemma loop_failed_mono (offsets : list Z) st c :
  In c (failed st) -> In c (failed (fold_left step offsets st)).
Proof.
  revert st. induction offsets as [|o os IH]; intros st Hin; [exact Hin|].
  cbn [fold_left]. apply IH. now apply step_failed_mono.
Qed.

Lemma step_null st o :
  esGsLdsSizeReg st = None ->
  esGsLdsSizeReg (step st o) = None
  /\ (mapsIt o -> In (IllegalUserDataRegister o) (failed (step st o))).
Proof.
  intros Hnull. unfold step, mapsIt.
  destruct (registers !! o) as [v|] eqn:Ereg; [|split; [exact Hnull | discriminate]].
  destruct (Z.eq_dec v (EsGsLdsSize (abi hw))) as [-> | Hne].
  - pose proof (entry_EsGsLdsSize hw stage' so it vb o st Habi Hso Hit) as [_ H].
    cbv zeta in H. rewrite Hnull in H. destruct H as [H1 H2].
    split; [exact H1|]. intros _. rewrite H2. apply in_app_iff. right. now left.
  - rewrite entry_esGsLdsSizeReg_other by assumption.
    split; [exact Hnull | congruence].
Qed.

Lemma loop_null (offsets : list Z) st :
  esGsLdsSizeReg st = None ->
  esGsLdsSizeReg (fold_left step offsets st) = None
  /\ (forall o, In o offsets -> mapsIt o ->
        In (IllegalUserDataRegister o) (failed (fold_left step offsets st))).
Proof.
  revert st. induction offsets as [|o os IH]; intros st Hnull.
  - split; [exact Hnull | intros o []].
  - cbn [fold_left]. destruct (step_null st o Hnull) as [Hn Hill].
    destruct (IH (step st o) Hn) as [Hn' Hrest].
    split; [exact Hn'|].
    intros o' [<- | Hin] Hmap.
    + apply loop_failed_mono. now apply Hill.
    + now apply Hrest.
Qed.

Lemma step_ptr st o r :
  esGsLdsSizeReg st = Some r ->
  (mapsIt o -> esGsLdsSizeReg (step st o) = Some o)
  /\ (~ mapsIt o -> esGsLdsSizeReg (step st o) = Some r).
Proof.
  intros Hptr. unfold step, mapsIt.
  destruct (registers !! o) as [v|] eqn:Ereg;
    [|split; [discriminate | intros _; exact Hptr]].
  destruct (Z.eq_dec v (EsGsLdsSize (abi hw))) as [-> | Hne].
  - pose proof (entry_EsGsLdsSize hw stage' so it vb o st Habi Hso Hit) as [_ H].
    cbv zeta in H. rewrite Hptr in H. destruct H as [H1 _].
    split; [intros _; exact H1 | intros N; now contradiction N].
  - rewrite entry_esGsLdsSizeReg_other by assumption.
    split; [intros E; congruence | intros _; exact Hptr].
Qed.

(** With somewhere to record it, the scan of the registers [lo], [lo + 1],
    ... keeps the address of the last register that maps the size. *)
Lemma loop_ptr lo (n : nat) st r :
  esGsLdsSizeReg st = Some r ->
  exists r',
    esGsLdsSizeReg
      (fold_left step (map (fun k => lo + Z.of_nat k) (seq 0 n)) st) = Some r'
    /\ ((forall k, (k < n)%nat -> ~ mapsIt (lo + Z.of_nat k)) -> r' = r)
    /\ (forall k0, (k0 < n)%nat -> mapsIt (lo + Z.of_nat k0) ->
          (forall k, (k0 < k < n)%nat -> ~ mapsIt (lo + Z.of_nat k)) ->
          r' = lo + Z.of_nat k0).
Proof.
  intros Hptr. induction n as [|n IH].
  - exists r. split; [exact Hptr|]. split; [reflexivity | intros k0 Hk; lia].
  - destruct IH as (r1 & H1 & Hnone & Hlast).
    rewrite seq_S, map_app, fold_left_app. cbn [map fold_left Nat.add].
    destruct (step_ptr _ (lo + Z.of_nat n) r1 H1) as [Hyes Hno].
    assert (Hdec : mapsIt (lo + Z.of_nat n) \/ ~ mapsIt (lo + Z.of_nat n)).
    { unfold mapsIt. destruct (registers !! (lo + Z.of_nat n)) as [v|];
        [|right; discriminate].
      destruct (Z.eq_dec v (EsGsLdsSize (abi hw))) as [-> | Hne];
        [left; reflexivity | right; congruence]. }
    destruct Hdec as [Hm | Hm].
    + exists (lo + Z.of_nat n). split; [now apply Hyes|]. split.
      * intros Hall. contradiction (Hall n). lia.
      * intros k0 Hk0 Hmk Habove.
        destruct (Nat.eq_dec k0 n) as [-> | Hne]; [reflexivity|].
        contradiction (Habove n). lia.
    + exists r1. split; [now apply Hno|]. split.
      * intros Hall. apply Hnone. intros k Hk. apply Hall. lia.
      * intros k0 Hk0 Hmk Habove.
        destruct (Nat.eq_dec k0 n) as [-> | Hne]; [contradiction|].
        apply Hlast; [lia | assumption |]. intros k Hk. apply Habove. lia.
Qed.

End EsGsLdsSizeScan.

Lemma sentinel_ranges md :
  0 <= streamOutTableEntryPlus1Of md < 2 ^ 16
  /\ 0 <= indirectTableEntryPlus1Of md < 2 ^ 16.
Proof.
  unfold streamOutTableEntryPlus1Of, indirectTableEntryPlus1Of, UserDataNotMapped.
  split.
  - destruct (streamOutTableAddress md); [|lia].
    unfold u16. apply Z.mod_pos_bound. lia.
  - destruct (indirectUserDataTableAddresses md); [|lia].
    unfold u16. apply Z.mod_pos_bound. lia.
Qed.

(** The scan of one stage, with and without somewhere to record the
    register. *)
Lemma scanStage_esGsLdsSize hw hash p md (registers : RegisterVector) s ptr st :
  abiOk (abi hw) = true ->
  let st' := scanStage hw hash p md registers s ptr st in
  let lo := BaseRegAddr (addr hw) s in
  let hi := LastRegAddr (addr hw) s in
  let mapsIt o := registers !! o = Some (EsGsLdsSize (abi hw)) in
  (forall c, In c (failed st) -> In c (failed st'))
  /\ (ptr = None ->
      forall o, lo <= o <= hi -> mapsIt o ->
                In (IllegalUserDataRegister o) (failed st'))
  /\ (forall r, ptr = Some r ->
        exists r',
          esGsLdsSizeReg st' = Some r'
          /\ ((forall o, lo <= o <= hi -> ~ mapsIt o) -> r' = r)
          /\ (forall o, lo <= o <= hi -> mapsIt o ->
                (forall o', o < o' <= hi -> ~ mapsIt o') -> r' = o)).
Proof.
  intros Habi. cbv zeta.
  destruct (sentinel_ranges md) as [Hso Hit].
  unfold scanStage, SetupSignatureForStageFromElf. cbv zeta.
  fold (streamOutTableEntryPlus1Of md). fold (indirectTableEntryPlus1Of md).
  set (st0 := match indirectUserDataTableAddresses md with
              | Some vs => check (forallb (Z.eqb 0) (tl vs)) MultipleIndirectTables
                                 (mkSigState (sig st) ptr (failed st))
              | None => mkSigState (sig st) ptr (failed st)
              end).
  assert (Hreg0 : esGsLdsSizeReg st0 = ptr).
  { subst st0. destruct (indirectUserDataTableAddresses md);
      [unfold check; destruct (forallb _ _)|]; reflexivity. }
  assert (Hfail0 : forall c, In c (failed st) -> In c (failed st0)).
  { intros c Hc. subst st0. destruct (indirectUserDataTableAddresses md);
      [unfold check; destruct (forallb _ _)|]; cbn [failed];
      rewrite ?in_app_iff; auto. }
  clearbody st0.
  set (lo := BaseRegAddr (addr hw) s). set (hi := LastRegAddr (addr hw) s).
  match goal with
  | |- context [fold_left ?f (regRange lo hi) st0] =>
      set (stn := fold_left f (regRange lo hi) st0)
  end.
  assert (Hmono : forall c, In c (failed st0) -> In c (failed stn)).
  { intros c Hc. subst stn.
    apply (loop_failed_mono hw s (streamOutTableEntryPlus1Of md)
             (indirectTableEntryPlus1Of md) (vbTableStageOf p) registers).
    exact Hc. }
  assert (Hnull : ptr = None ->
            forall o, lo <= o <= hi ->
              registers !! o = Some (EsGsLdsSize (abi hw)) ->
              In (IllegalUserDataRegister o) (failed stn)).
  { intros Hp o Ho Hm. subst stn.
    apply (loop_null hw s (streamOutTableEntryPlus1Of md)
             (indirectTableEntryPlus1Of md) (vbTableStageOf p) registers
             Habi Hso Hit (regRange lo hi) st0);
      [congruence | now apply in_regRange | exact Hm]. }
  assert (Hptr : forall r, ptr = Some r ->
            exists r',
              esGsLdsSizeReg stn = Some r'
              /\ ((forall o, lo <= o <= hi ->
                     registers !! o <> Some (EsGsLdsSize (abi hw))) -> r' = r)
              /\ (forall o, lo <= o <= hi ->
                    registers !! o = Some (EsGsLdsSize (abi hw)) ->
                    (forall o', o < o' <= hi ->
                       registers !! o' <> Some (EsGsLdsSize (abi hw))) ->
                    r' = o)).
  { intros r Hp. subst stn. unfold regRange.
    destruct (loop_ptr hw s (streamOutTableEntryPlus1Of md)
                (indirectTableEntryPlus1Of md) (vbTableStageOf p) registers
                Habi Hso Hit lo (Z.to_nat (hi - lo + 1)) st0 r
                ltac:(congruence)) as (r' & H1 & Hnone & Hlast).
    exists r'. split; [exact H1|]. split.
    - intros Hall. apply Hnone. intros k Hk. apply Hall. lia.
    - intros o Ho Hm Habove.
      replace o with (lo + Z.of_nat (Z.to_nat (o - lo))) by lia.
      apply Hlast.
      + lia.
      + replace (lo + Z.of_nat (Z.to_nat (o - lo))) with o by lia. exact Hm.
      + intros k Hk. apply Habove. lia. }
  clearbody stn.
  assert (Hend :
    forall st1,
      esGsLdsSizeReg
        (withSig (fun g => set_userDataHash
                             (setStageHash s (hash (stage g s)) (userDataHash g)) g)
                 st1) = esGsLdsSizeReg st1
      /\ failed
           (withSig (fun g => set_userDataHash
                                (setStageHash s (hash (stage g s)) (userDataHash g)) g)
                    st1) = failed st1) by (intros st1; split; reflexivity).
  match goal with
  | |- context [withSig _ ?x] =>
      assert (Hx : esGsLdsSizeReg x = esGsLdsSizeReg stn
                   /\ forall c, In c (failed stn) -> In c (failed x))
  end.
  { unfold check.
    repeat match goal with
           | |- context [if ?c then _ else _] => destruct c
           end; cbn [esGsLdsSizeReg failed]; split; try reflexivity;
      intros c Hc; rewrite ?in_app_iff; auto. }
  match goal with
  | |- context [withSig _ ?x] => set (stx := x) in *
  end.
  clearbody stx. destruct Hx as [Hxr Hxf]. destruct (Hend stx) as [E1 E2].
  rewrite E1, E2, Hxr.
  split; [|split].
  - intros c Hc. apply Hxf, Hmono, Hfail0, Hc.
  - intros Hp o Ho Hm. apply Hxf. now apply Hnull.
  - exact Hptr.
Qed.

(** [X20] An ES-GS LDS size mapping is recorded only for the stages that
    [SetupSignatureFromElf] scans with somewhere to record it.  In the
    window of the hardware GS stage (scanned when the geometry stage is
    enabled) or of the hardware VS stage, the address of the last register
    that maps the size is what the caller gets back for that stage.  In the
    window of a stage that is scanned without (LS and HS with tessellation,
    ES with a geometry stage, PS always) the mapping is reported as an
    illegal user-data register.  Without a geometry stage the caller's
    GS register is left as it was. *)
Theorem es_gs_lds_size_mapping (hw : Hw) (hash : UserDataEntryMap -> Z)
  (p : GraphicsPipeline) (md : CodeObjectMetadata) (registers : RegisterVector)
  (esGsLdsSizeRegGs esGsLdsSizeRegVs : Z) (s : HwShaderStage) (offset : Z) :
  abiOk (abi hw) = true ->
  BaseRegAddr (addr hw) s <= offset <= LastRegAddr (addr hw) s ->
  registers !! offset = Some (EsGsLdsSize (abi hw)) ->
  let r :=
    SetupSignatureFromElf hw hash p md registers
                          esGsLdsSizeRegGs esGsLdsSizeRegVs in
  let regGs := snd (fst (fst r)) in
  let regVs := snd (fst r) in
  let reported := In (IllegalUserDataRegister offset) (snd r) in
  let isLast :=
    forall o, offset < o <= LastRegAddr (addr hw) s ->
              registers !! o <> Some (EsGsLdsSize (abi hw)) in
  match s with
  | Ls | Hs => IsTessEnabled (base p) = true -> reported
  | Es => IsGsEnabled (base p) = true -> reported
  | Ps => reported
  | Gs => IsGsEnabled (base p) = true -> isLast -> regGs = offset
  | Vs => isLast -> regVs = offset
  end
  /\ (IsGsEnabled (base p) = false -> regGs = esGsLdsSizeRegGs).
Proof.
  intros Habi Hrange Hmap. cbv zeta.
  unfold SetupSignatureFromElf. cbv zeta.
  match goal with
  | |- context [mkSigState ?g None []] => set (st0 := mkSigState g None [])
  end.
  clearbody st0.
  assert (Hmono : forall s' ptr st c,
            In c (failed st) ->
            In c (failed (scanStage hw hash p md registers s' ptr st))).
  { intros s' ptr st c Hc.
    now apply (scanStage_esGsLdsSize hw hash p md registers s' ptr st Habi). }
  assert (Hill : forall st,
            In (IllegalUserDataRegister offset)
               (failed (scanStage hw hash p md registers s None st))).
  { intros st.
    destruct (scanStage_esGsLdsSize hw hash p md registers s None st Habi)
      as (_ & H & _).
    cbv zeta in H. now apply H. }
  assert (Hrec : forall st r,
            (forall o, offset < o <= LastRegAddr (addr hw) s ->
                       registers !! o <> Some (EsGsLdsSize (abi hw))) ->
            default r (esGsLdsSizeReg
                         (scanStage hw hash p md registers s (Some r) st))
            = offset).
  { intros st r Hlast.
    destruct (scanStage_esGsLdsSize hw hash p md registers s (Some r) st Habi)
      as (_ & _ & H).
    cbv zeta in H. destruct (H r eq_refl) as (r' & E & _ & Hl).
    rewrite E. cbn [default]. now apply Hl. }
  split.
  - destruct s.
    + intros Ht. rewrite Ht.
      destruct (IsGsEnabled (base p)); cbn [fst snd];
        repeat first [ apply Hill | apply Hmono ].
    + intros Ht. rewrite Ht.
      destruct (IsGsEnabled (base p)); cbn [fst snd];
        repeat first [ apply Hill | apply Hmono ].
    + intros Hg. rewrite Hg.
      destruct (IsTessEnabled (base p)); cbn [fst snd];
        repeat first [ apply Hill | apply Hmono ].
    + intros Hg Hlast. rewrite Hg. cbn [fst snd]. now apply Hrec.
    + intros Hlast.
      destruct (IsGsEnabled (base p)); cbn [fst snd]; now apply Hrec.
    + destruct (IsGsEnabled (base p)); cbn [fst snd]; apply Hill.
  - intros Hg. rewrite Hg. reflexivity.
Qed.

(** A vertex and pixel shader pipeline whose binary maps the size to the
    fourth register of the vertex stage's window, where it is recorded, and
    to the second register of the pixel stage's window, which is scanned
    with nowhere to record it. *)
Lemma es_gs_lds_size_mapping_witness :
  let registers : RegisterVector :=
    {[ BaseRegAddr viAddr Ps + 1 := EsGsLdsSize viAbi;
       BaseRegAddr viAddr Vs + 3 := EsGsLdsSize viAbi ]} in
  let r := SetupSignatureFromElf viHw exHash exPipeline exMetadata registers 0 0 in
  In (IllegalUserDataRegister (BaseRegAddr viAddr Ps + 1)) (snd r)
  /\ snd (fst r) = BaseRegAddr viAddr Vs + 3.
Proof.
  intros registers r. split.
  - destruct (es_gs_lds_size_mapping viHw exHash exPipeline exMetadata registers
                0 0 Ps (BaseRegAddr viAddr Ps + 1) eq_refl
                ltac:(vm_compute; split; discriminate) eq_refl) as [H _].
    exact H.
  - destruct (es_gs_lds_size_mapping viHw exHash exPipeline exMetadata registers
                0 0 Vs (BaseRegAddr viAddr Vs + 3) eq_refl
                ltac:(vm_compute; split; discriminate) eq_refl) as [H _].
    apply H. intros o Ho Hm. subst registers.
    apply lookup_insert_Some in Hm as [[E _] | [_ Hm]].
    + rewrite <- E in Ho. vm_compute in Ho. destruct Ho as [Ho _]. discriminate Ho.
    + apply lookup_singleton_Some in Hm as [E _]. lia.
Defined.

(** ** The LoadBlock and the SET path *)

Lemma ctxRegs_AddCtxRegs rs u :
  ctxRegs (AddCtxRegs rs u) = ctxRegs u ++ rs
  /\ shRegs (AddCtxRegs rs u) = shRegs u.
Proof.
  unfold AddCtxRegs. revert u.
  induction rs as [|r rs IH]; intros u; cbn [fold_left].
  - now rewrite app_nil_r.
  - destruct (IH (AddCtxReg (fst r) (snd r) u)) as [E1 E2].
    rewrite E1, E2. cbn [AddCtxReg ctxRegs shRegs].
    rewrite <- app_assoc. destruct r. split; reflexivity.
Qed.

(** What [SetupCommonRegisters] hands to the uploader. *)
Lemma SetupCommonRegisters_upload dev hw createInfo registers u p :
  EnableLoadIndexPath u = true ->
  let a := addr hw in
  let r := SetupCommonRegisters dev hw createInfo registers u p in
  let ctx := m_regs_context (fst r) in
  ctxRegs (snd r)
  = ctxRegs u
    ++ [ (mmPA_CL_CLIP_CNTL a, paClClipCntl ctx);
         (mmPA_CL_VTE_CNTL a, paClVteCntl ctx);
         (mmPA_SU_VTX_CNTL a, paSuVtxCntl ctx);
         (mmDB_SHADER_CONTROL a, dbShaderControl ctx);
         (mmVGT_SHADER_STAGES_EN a, vgtShaderStagesEn ctx);
         (mmVGT_GS_MODE a, vgtGsMode ctx);
         (mmVGT_REUSE_OFF a, vgtReuseOff ctx);
         (mmVGT_TF_PARAM a, vgtTfParam ctx);
         (mmVGT_VERTEX_REUSE_BLOCK_CNTL a, vgtVertexReuseBlockCntl ctx);
         (mmSPI_INTERP_CONTROL_0 a, spiInterpControl0 ctx) ]
  /\ shRegs (snd r)
     = shRegs u
       ++ (if isGfxIp6 (gfxLevel (ChipProperties dev)) then []
           else [ (mmSPI_SHADER_LATE_ALLOC_VS__CI__VI a,
                   m_regs_sh_spiShaderLateAllocVs (fst r)) ])
  /\ EnableLoadIndexPath (snd r) = true.
Proof.
  intros Hen. cbv zeta. unfold SetupCommonRegisters. cbv zeta. rewrite Hen.
  unfold SetupLateAllocVs. cbv zeta.
  match goal with
  | |- context [AddCtxRegs ?l u] =>
      pose proof (ctxRegs_AddCtxRegs l u) as [Ec Es];
      pose proof (AddCtxRegs_size l u) as (_ & _ & Ee);
      set (u1 := AddCtxRegs l u) in *
  end.
  rewrite Hen in Ee. rewrite Ee.
  destruct (isGfxIp6 (gfxLevel (ChipProperties dev)));
    cbn [negb fst snd AddShReg ctxRegs shRegs EnableLoadIndexPath];
    rewrite Ec, Es, ?app_nil_r; repeat split; try assumption; reflexivity.
Qed.

(** What [SetupNonShaderRegisters] hands to the uploader, and what it
    leaves alone. *)
Lemma SetupNonShaderRegisters_upload dev hw createInfo registers u p :
  EnableLoadIndexPath u = true ->
  let a := addr hw in
  let r := SetupNonShaderRegisters dev hw createInfo registers u p in
  let ctx := m_regs_context p in
  let ctx' := m_regs_context (fst r) in
  ctxRegs (snd r)
  = ctxRegs u
    ++ [ (mmPA_SC_LINE_CNTL a, paScLineCntl ctx');
         (mmCB_COLOR_CONTROL a, cbColorControl ctx');
         (mmCB_SHADER_MASK a, cbShaderMask ctx');
         (mmCB_TARGET_MASK a, cbTargetMask ctx') ]
  /\ shRegs (snd r) = shRegs u
  /\ m_regs_sh_spiShaderLateAllocVs (fst r) = m_regs_sh_spiShaderLateAllocVs p
  /\ (paClClipCntl ctx', paClVteCntl ctx', paSuVtxCntl ctx', dbShaderControl ctx',
      vgtShaderStagesEn ctx', vgtGsMode ctx', vgtReuseOff ctx', vgtTfParam ctx',
      vgtVertexReuseBlockCntl ctx', spiInterpControl0 ctx')
     = (paClClipCntl ctx, paClVteCntl ctx, paSuVtxCntl ctx, dbShaderControl ctx,
        vgtShaderStagesEn ctx, vgtGsMode ctx, vgtReuseOff ctx, vgtTfParam ctx,
        vgtVertexReuseBlockCntl ctx, spiInterpControl0 ctx).
Proof.
  intros Hen. cbv zeta. unfold SetupNonShaderRegisters. cbv zeta. rewrite Hen.
  match goal with
  | |- context [let '(_, _) := ?x in _] => destruct x as [cc rb]
  end.
  match goal with
  | |- context [AddCtxRegs ?l u] =>
      pose proof (ctxRegs_AddCtxRegs l u) as [Ec Es];
      set (u1 := AddCtxRegs l u) in *
  end.
  cbn [fst snd]. rewrite Ec, Es. repeat split; reflexivity.
Qed.

(** [X21] What is compiled for the LOAD path is what the SET path writes.
    With register preloading, the two register set-up steps hand the
    uploader exactly [BaseLoadedCntxRegCount] context registers; every
    register the SET path writes for the finished pipeline is among them
    with the same value, and so is DB_SHADER_CONTROL, which the SET path
    leaves out under the over-rasterization workaround.  The SH group
    receives SPI_SHADER_LATE_ALLOC_VS, except on Gfx6.  CB_SHADER_MASK
    follows CB_TARGET_MASK in the register space. *)
Theorem load_block_holds_what_the_set_path_writes (dev : Device) (hw : Hw)
  (createInfo : GraphicsPipelineCreateInfo) (registers : RegisterVector)
  (u : GraphicsPipelineUploader) (p : GraphicsPipeline) :
  EnableLoadIndexPath u = true ->
  mmCB_SHADER_MASK (addr hw) = mmCB_TARGET_MASK (addr hw) + 1 ->
  let r1 := SetupCommonRegisters dev hw createInfo registers u p in
  let r2 := SetupNonShaderRegisters dev hw createInfo registers (snd r1) (fst r1) in
  let p' := fst r2 in
  exists added,
    ctxRegs (snd r2) = ctxRegs u ++ added
    /\ Z.of_nat (length added) = BaseLoadedCntxRegCount
    /\ (forall c regAddr value,
          In c (WriteContextCommandsSetPath dev hw p' []) ->
          In (regAddr, value) (packetWrites c) ->
          In (regAddr, value) added)
    /\ In (mmDB_SHADER_CONTROL (addr hw), dbShaderControl (m_regs_context p')) added
    /\ shRegs (snd r2)
       = shRegs u
         ++ (if isGfxIp6 (gfxLevel (ChipProperties dev)) then []
             else [ (mmSPI_SHADER_LATE_ALLOC_VS__CI__VI (addr hw),
                     m_regs_sh_spiShaderLateAllocVs p') ]).
Proof.
  intros Hen Hseq. cbv zeta.
  pose proof (SetupCommonRegisters_upload dev hw createInfo registers u p Hen)
    as (Hc1 & Hs1 & He1).
  cbv zeta in Hc1, Hs1, He1.
  set (r1 := SetupCommonRegisters dev hw createInfo registers u p) in *.
  pose proof (SetupNonShaderRegisters_upload dev hw createInfo registers
                (snd r1) (fst r1) He1) as (Hc2 & Hs2 & Hsh & Hkeep).
  cbv zeta in Hc2, Hs2, Hsh, Hkeep.
  set (r2 := SetupNonShaderRegisters dev hw createInfo registers (snd r1) (fst r1))
    in *.
  clearbody r2 r1.
  injection Hkeep as K1 K2 K3 K4 K5 K6 K7 K8 K9 K10.
  rewrite Hc2, Hc1, Hs2, Hs1, Hsh, <- app_assoc.
  rewrite <- K1, <- K2, <- K3, <- K4, <- K5, <- K6, <- K7, <- K8, <- K9, <- K10.
  eexists. split; [reflexivity|].
  split; [reflexivity|]. split; [|split; [|reflexivity]].
  - intros c regAddr value Hc Hw.
    unfold WriteContextCommandsSetPath in Hc. cbv zeta in Hc.
    rewrite app_nil_l in Hc. apply in_app_iff in Hc as [Hc | Hc].
    + cbn [In] in Hc.
      repeat (destruct Hc as [<- | Hc];
              [ cbn [packetWrites In] in Hw;
                try (destruct Hw as [Hw | []]; rewrite <- Hw; cbn [In app]; tauto)
              | ]); try contradiction.
      rewrite Hseq in Hw. unfold regRange in Hw.
      replace (mmCB_TARGET_MASK (addr hw) + 1 - mmCB_TARGET_MASK (addr hw) + 1)
        with 2 in Hw by lia.
      change (Z.to_nat 2) with 2%nat in Hw. cbn in Hw.
      change (Z.of_nat 0) with 0 in Hw. change (Z.of_nat 1) with 1 in Hw.
      rewrite Z.add_0_r, <- Hseq in Hw.
      destruct Hw as [Hw | [Hw | []]]; rewrite <- Hw; cbn [In app]; tauto.
    + destruct (negb (WaDbOverRasterization dev)); [|contradiction].
      destruct Hc as [<- | []]. cbn [packetWrites In] in Hw.
      destruct Hw as [Hw | []]; rewrite <- Hw; cbn [In app]; tauto.
  - cbn [In app]. tauto.
Qed.

(** The example pipeline compiled with register preloading. *)
Lemma load_block_holds_what_the_set_path_writes_witness :
  let u := mkUploader 14 1 true 0x1000 0x2000 [] [] in
  let r1 :=
    SetupCommonRegisters exDevice viHw (exCreateInfo 0xF) ∅ u exPipeline in
  let r2 :=
    SetupNonShaderRegisters exDevice viHw (exCreateInfo 0xF) ∅ (snd r1) (fst r1) in
  Z.of_nat (length (ctxRegs (snd r2))) = BaseLoadedCntxRegCount.
Proof.
  intros u r1 r2.
  destruct (load_block_holds_what_the_set_path_writes exDevice viHw
              (exCreateInfo 0xF) ∅ u exPipeline eq_refl eq_refl)
    as (added & Hadd & Hlen & _).
  fold r1 r2 in Hadd. rewrite Hadd. exact Hlen.
Defined.

(** ** Read-modify-write registers *)

Lemma testbit_fmask f i :
  0 <= fpos f -> 0 <= fwidth f -> 0 <= i ->
  Z.testbit (fmask f) i = (fpos f <=? i) && (i <? fpos f + fwidth f).
Proof.
  intros Hp Hw Hi. unfold fmask. rewrite Z.shiftl_spec by lia.
  destruct (Z.leb_spec (fpos f) i); cbn [andb].
  - rewrite Z.testbit_ones by lia.
    replace (0 <=? i - fpos f) with true by lia. cbn [andb].
    destruct (Z.ltb_spec (i - fpos f) (fwidth f)), (Z.ltb_spec i (fpos f + fwidth f));
      try reflexivity; lia.
  - apply Z.testbit_neg_r. lia.
Qed.

(** A field write changes no bit outside the field's mask. *)
Lemma setField_outside f v r i :
  fieldOk f = true -> 0 <= i -> Z.testbit (fmask f) i = false ->
  Z.testbit (setField f v r) i = Z.testbit r i.
Proof.
  intros Hf Hi Hm. apply fieldOk_spec in Hf as (Hp & Hw & _).
  rewrite testbit_fmask in Hm by lia.
  rewrite testbit_setField by lia. now rewrite Hm.
Qed.

Lemma SetupCommonRegisters_context dev hw createInfo registers u p :
  let l := lay hw in
  let e := enums hw in
  let p' := fst (SetupCommonRegisters dev hw createInfo registers u p) in
  let ctx' := m_regs_context p' in
  let dbShaderControl' := At registers (mmDB_SHADER_CONTROL (addr hw)) in
  dbShaderControl ctx' = dbShaderControl'
  /\ perSampleShading (base p')
     = negb (getField (PS_ITER_SAMPLE l) (paScModeCntl1 ctx') =? 0)
  /\ (exists sc,
        paScModeCntl1 ctx'
        = if clientInterfaceAtLeast524 dev
          then setField (PS_ITER_SAMPLE l)
                        (Z.lor (getField (PS_ITER_SAMPLE l) sc)
                               (Zbool (forceSampleRateShading createInfo))) sc
          else sc)
  /\ dbRenderOverride ctx'
     = let ro := dbRenderOverride (m_regs_context p) in
       let ro :=
         if depthClampBasedOnZExport dev
         then setField (DISABLE_VIEWPORT_CLAMP l)
                (Zbool (depthClampDisable createInfo
                        && negb (getField (Z_EXPORT_ENABLE l) dbShaderControl' =? 0)))
                ro
         else setField (DISABLE_VIEWPORT_CLAMP l)
                       (Zbool (depthClampDisable createInfo)) ro in
       let ro := setField (FORCE_SHADER_Z_ORDER l)
                   (Zbool (getField (Z_ORDER l) dbShaderControl' =? RE_Z e)) ro in
       if WaDbReZStencilCorruption dev
          && ((getField (Z_ORDER l) dbShaderControl' =? RE_Z e)
              || (getField (Z_ORDER l) dbShaderControl' =? EARLY_Z_THEN_RE_Z e))
       then setField (FORCE_STENCIL_READ l) 1 ro
       else ro.
Proof.
  cbv zeta. unfold SetupCommonRegisters, SetupLateAllocVs, SetupIaMultiVgtParam.
  cbv zeta.
  destruct (negb (isGfxIp6 (gfxLevel (ChipProperties dev)))); cbn [fst snd];
    (split; [reflexivity|]); (split; [reflexivity|]); (split; [|reflexivity]);
    eexists; reflexivity.
Qed.

(** [X22] The masks of the two read-modify-write packets cover what the
    pipeline sets.  Register set-up changes DB_RENDER_OVERRIDE only in the
    three fields of [DbRenderOverrideRmwMask] and DB_ALPHA_TO_MASK only in
    ALPHA_TO_MASK_ENABLE, so writing the pipeline's value under the mask
    transfers every bit the pipeline decided and no other. *)
Theorem rmw_masks_cover_what_is_set (dev : Device) (hw : Hw)
  (createInfo : GraphicsPipelineCreateInfo) (registers : RegisterVector)
  (u : GraphicsPipelineUploader) (p : GraphicsPipeline) (i : Z) :
  dbRenderOverrideOk (lay hw) = true ->
  fieldOk (ALPHA_TO_MASK_ENABLE (lay hw)) = true ->
  0 <= i ->
  (Z.testbit (DbRenderOverrideRmwMask (lay hw)) i = false ->
   Z.testbit
     (dbRenderOverride
        (m_regs_context (fst (SetupCommonRegisters dev hw createInfo registers u p))))
     i
   = Z.testbit (dbRenderOverride (m_regs_context p)) i)
  /\ (Z.testbit (fmask (ALPHA_TO_MASK_ENABLE (lay hw))) i = false ->
      Z.testbit
        (dbAlphaToMask
           (m_regs_context
              (fst (SetupNonShaderRegisters dev hw createInfo registers u p))))
        i
      = Z.testbit (dbAlphaToMask (m_regs_context p)) i).
Proof.
  intros Hro Ha Hi. unfold dbRenderOverrideOk in Hro.
  rewrite !andb_true_iff in Hro. destruct Hro as [[Hz Hs] Hc].
  split.
  - intros Hmask. unfold DbRenderOverrideRmwMask in Hmask.
    rewrite !Z.lor_spec in Hmask.
    apply orb_false_iff in Hmask as [Hmask Mc].
    apply orb_false_iff in Hmask as [Mz Ms].
    pose proof (SetupCommonRegisters_context dev hw createInfo registers u p)
      as (_ & _ & _ & E).
    cbv zeta in E. rewrite E.
    repeat match goal with
           | |- context [if ?c then _ else _] => destruct c
           end;
      rewrite ?setField_outside by assumption; reflexivity.
  - intros Hmask. unfold SetupNonShaderRegisters. cbv zeta.
    match goal with
    | |- context [let '(_, _) := ?x in _] => destruct x as [cc rb]
    end.
    cbn [fst m_regs_context set_m_regs_context]. cbn.
    now apply setField_outside.
Qed.

(** Bit 0 of both registers, with the Gfx8 layout. *)
Lemma rmw_masks_cover_what_is_set_witness :
  Z.testbit
    (dbRenderOverride
       (m_regs_context
          (fst (SetupCommonRegisters exDevice viHw (exCreateInfo 0xF) ∅
                  exUploader exPipeline)))) 0
  = Z.testbit (dbRenderOverride (m_regs_context exPipeline)) 0.
Proof.
  apply (rmw_masks_cover_what_is_set exDevice viHw (exCreateInfo 0xF) ∅
           exUploader exPipeline 0 eq_refl eq_refl ltac:(lia)).
  reflexivity.
Defined.

(** [X23] A pipeline's per-sample-shading flag is the PS_ITER_SAMPLE field
    of the PA_SC_MODE_CNTL_1 it ends up with, and a client on interface 524
    or later that forces sample-rate shading gets a per-sample pipeline
    whatever the binary says. *)
Theorem per_sample_shading_follows_the_register (dev : Device) (hw : Hw)
  (createInfo : GraphicsPipelineCreateInfo) (registers : RegisterVector)
  (u : GraphicsPipelineUploader) (p : GraphicsPipeline) :
  fieldOk (PS_ITER_SAMPLE (lay hw)) = true ->
  let p' := fst (SetupCommonRegisters dev hw createInfo registers u p) in
  perSampleShading (base p')
  = negb (getField (PS_ITER_SAMPLE (lay hw)) (paScModeCntl1 (m_regs_context p')) =? 0)
  /\ (clientInterfaceAtLeast524 dev = true ->
      forceSampleRateShading createInfo = true ->
      perSampleShading (base p') = true).
Proof.
  intros Hf. cbv zeta.
  pose proof (SetupCommonRegisters_context dev hw createInfo registers u p)
    as (_ & Hflag & (sc & Hsc) & _).
  cbv zeta in Hflag, Hsc. split; [exact Hflag|].
  intros Hc Hforce. rewrite Hflag, Hsc, Hc, Hforce.
  rewrite getField_setField_same by assumption.
  apply fieldOk_spec in Hf as (Hp & Hw & _).
  apply negb_true_iff, Z.eqb_neq. intros E.
  assert (B : Z.testbit
                (Z.lor (getField (PS_ITER_SAMPLE (lay hw)) sc) (Zbool true)
                 mod 2 ^ fwidth (PS_ITER_SAMPLE (lay hw))) 0 = true).
  { rewrite Z.mod_pow2_bits_low by lia. rewrite Z.lor_spec.
    apply orb_true_iff. right. reflexivity. }
  rewrite E in B. discriminate B.
Qed.

(** The example pipeline with forced sample-rate shading. *)
Lemma per_sample_shading_follows_the_register_witness :
  let createInfo :=
    mkCreateInfo false false false false false true
                 (shadeMode (exCreateInfo 0xF))
                 (pointCoordOrigin (exCreateInfo 0xF))
                 (target (exCreateInfo 0xF)) LogicCopy false false in
  let p' :=
    fst (SetupCommonRegisters exDevice viHw createInfo ∅ exUploader exPipeline) in
  perSampleShading (base p')
  = negb (getField (PS_ITER_SAMPLE viLayout) (paScModeCntl1 (m_regs_context p')) =? 0).
Proof.
  intros createInfo.
  destruct (per_sample_shading_follows_the_register exDevice viHw createInfo ∅
              exUploader exPipeline eq_refl) as [H _].
  exact H.
Defined.

(** ** The over-rasterization workaround *)

Lemma last_app_cons {A} (l l' : list A) (x d : A) :
  List.last (l ++ x :: l') d = List.last (x :: l') d.
Proof.
  induction l as [|y l IH]; [reflexivity|].
  cbn [app]. rewrite <- IH. cbn [List.last].
  destruct (l ++ x :: l') eqn:E; [|reflexivity].
  destruct l; discriminate E.
Qed.

(** [X24] DB_SHADER_CONTROL is written at bind time, as the last of the
    thirteen packets of the SET path, when the over-rasterization workaround
    is off, and at draw time by [WriteDbShaderControl] when it is on; then
    the SET path has twelve packets and ends with
    VGT_VERTEX_REUSE_BLOCK_CNTL.  At draw time the
    compiled value is written with only Z_ORDER changed: early-Z-then-late-Z
    becomes late-Z when the draw uses over-rasterization with depth
    enabled, and any other value is written as compiled. *)
Theorem db_shader_control_is_written_once (dev : Device) (hw : Hw)
  (p : GraphicsPipeline) (isDepthEnabled usesOverRasterization : bool)
  (pCmdSpace : list Pm4) :
  fieldOk (Z_ORDER (lay hw)) = true ->
  fits (LATE_Z (enums hw)) (Z_ORDER (lay hw)) = true ->
  let compiled := dbShaderControl (m_regs_context p) in
  let atBind :=
    SetOneContextReg (mmDB_SHADER_CONTROL (addr hw)) compiled in
  let atDraw :=
    WriteDbShaderControl dev hw p isDepthEnabled usesOverRasterization pCmdSpace in
  let setPath := WriteContextCommandsSetPath dev hw p pCmdSpace in
  if WaDbOverRasterization dev
  then
    length setPath = (length pCmdSpace + 12)%nat
    /\ List.last setPath (ContextRegRmw 0 0 0)
       = SetOneContextReg (mmVGT_VERTEX_REUSE_BLOCK_CNTL (addr hw))
                          (vgtVertexReuseBlockCntl (m_regs_context p))
    /\ exists value,
         atDraw = pCmdSpace ++ [SetOneContextReg (mmDB_SHADER_CONTROL (addr hw)) value]
         /\ getField (Z_ORDER (lay hw)) value
            = (if (getField (Z_ORDER (lay hw)) compiled
                   =? EARLY_Z_THEN_LATE_Z (enums hw))
                  && usesOverRasterization && isDepthEnabled
               then LATE_Z (enums hw)
               else getField (Z_ORDER (lay hw)) compiled)
         /\ forall i, 0 <= i -> Z.testbit (fmask (Z_ORDER (lay hw))) i = false ->
              Z.testbit value i = Z.testbit compiled i
  else
    length setPath = (length pCmdSpace + 13)%nat
    /\ List.last setPath (ContextRegRmw 0 0 0) = atBind
    /\ atDraw = pCmdSpace.
Proof.
  intros Hf Hfit. cbv zeta.
  unfold WriteDbShaderControl, WriteContextCommandsSetPath. cbv zeta.
  destruct (WaDbOverRasterization dev); cbn [negb].
  - split; [rewrite !length_app; reflexivity|]. split.
    + rewrite app_nil_r, last_app_cons. reflexivity.
    + eexists. split; [reflexivity|].
      destruct ((getField (Z_ORDER (lay hw)) (dbShaderControl (m_regs_context p))
                 =? EARLY_Z_THEN_LATE_Z (enums hw))
                && usesOverRasterization && isDepthEnabled).
      * split.
        -- rewrite getField_setField_same by assumption.
           now apply fits_mod.
        -- intros i Hi Hm. now apply setField_outside.
      * split; [reflexivity | intros; reflexivity].
  - split; [rewrite !length_app; reflexivity|]. split; [|reflexivity].
    rewrite app_assoc. apply List.last_last.
Qed.

(** The example pipeline on the example device. *)
Lemma db_shader_control_is_written_once_witness :
  WriteDbShaderControl exDevice viHw exPipeline true true []
  = if WaDbOverRasterization exDevice
    then [SetOneContextReg (mmDB_SHADER_CONTROL viAddr) 0]
    else [].
Proof.
  pose proof (db_shader_control_is_written_once exDevice viHw exPipeline
                true true [] eq_refl eq_refl) as H.
  cbv zeta in H. vm_compute in H. vm_compute.
  first [ exact (proj2 (proj2 H))
        | destruct H as (_ & _ & v & H & _); exact H ].
Defined.

(** [X25] The SH group agrees as well: the SH registers handed to the
    uploader are the ones the SET path of [WriteShCommands] writes for the
    finished pipeline, with the same values (SPI_SHADER_LATE_ALLOC_VS on
    Gfx7 and later, nothing on Gfx6); the stage collaborators write their
    own. *)
Theorem sh_load_block_matches_the_set_path (dev : Device) (hw : Hw)
  (createInfo : GraphicsPipelineCreateInfo) (registers : RegisterVector)
  (u : GraphicsPipelineUploader) (p : GraphicsPipeline)
  (pCmdStream : CmdStream) (graphicsInfo : DynamicGraphicsShaderInfos) :
  EnableLoadIndexPath u = true ->
  Pm4OptimizerEnabled pCmdStream = true ->
  let r1 := SetupCommonRegisters dev hw createInfo registers u p in
  let r2 := SetupNonShaderRegisters dev hw createInfo registers (snd r1) (fst r1) in
  shRegs (snd r2)
  = shRegs u
    ++ flat_map packetWrites
         (WriteShCommands dev hw (fst r2) pCmdStream [] graphicsInfo).
Proof.
  intros Hen Hopt. cbv zeta.
  pose proof (SetupCommonRegisters_upload dev hw createInfo registers u p Hen)
    as (_ & Hs1 & He1).
  cbv zeta in Hs1, He1.
  set (r1 := SetupCommonRegisters dev hw createInfo registers u p) in *.
  pose proof (SetupNonShaderRegisters_upload dev hw createInfo registers
                (snd r1) (fst r1) He1) as (_ & Hs2 & Hsh & _).
  cbv zeta in Hs2, Hsh.
  set (r2 := SetupNonShaderRegisters dev hw createInfo registers (snd r1) (fst r1))
    in *.
  clearbody r2 r1. rewrite Hs2, Hs1, <- Hsh. f_equal.
  unfold WriteShCommands, chunksWriteShCommands. cbv zeta.
  rewrite Hopt, orb_true_r.
  destruct (gfxLevel (ChipProperties dev)), (IsTessEnabled (base (fst r2))),
    (IsGsEnabled (base (fst r2))); reflexivity.
Qed.

Lemma sh_load_block_matches_the_set_path_witness :
  let u := mkUploader 14 1 true 0x1000 0x2000 [] [] in
  let r1 :=
    SetupCommonRegisters exDevice viHw (exCreateInfo 0xF) ∅ u exPipeline in
  let r2 :=
    SetupNonShaderRegisters exDevice viHw (exCreateInfo 0xF) ∅ (snd r1) (fst r1) in
  shRegs (snd r2)
  = flat_map packetWrites
      (WriteShCommands exDevice viHw (fst r2) (mkCmdStream true) []
         (mkDynShaderInfos (mkDynShaderInfo 0 0) (mkDynShaderInfo 0 0)
                           (mkDynShaderInfo 0 0) (mkDynShaderInfo 0 0)
                           (mkDynShaderInfo 0 0))).
Proof.
  intros u r1 r2.
  pose proof (sh_load_block_matches_the_set_path exDevice viHw (exCreateInfo 0xF)
                ∅ u exPipeline (mkCmdStream true)
                (mkDynShaderInfos (mkDynShaderInfo 0 0) (mkDynShaderInfo 0 0)
                                  (mkDynShaderInfo 0 0) (mkDynShaderInfo 0 0)
                                  (mkDynShaderInfo 0 0))
                eq_refl eq_refl) as H.
  vm_compute in H. vm_compute. exact H.
Defined.

(** ** More on wave limits *)

(** [X26] Among nonzero caller limits the wave limit is monotone: asking
    for more waves per compute unit never gives a smaller WAVE_LIMIT, as
    long as the product with the number of compute units fits 32 bits. *)
Theorem wave_limit_is_monotone (dev : Device) (a b : Z) :
  0 < a <= b ->
  0 <= numCuPerSh (ChipProperties dev) ->
  b * numCuPerSh (ChipProperties dev) < 2 ^ 32 ->
  CalcMaxWavesPerSh dev a <= CalcMaxWavesPerSh dev b.
Proof.
  intros Hab Hcu Hfit. unfold CalcMaxWavesPerSh. cbv zeta.
  replace (0 <? a) with true by lia. replace (0 <? b) with true by lia.
  rewrite (u32_small (a * _)) by nia.
  rewrite (u32_small (b * _)) by nia.
  assert (a * numCuPerSh (ChipProperties dev) / 16
          <= b * numCuPerSh (ChipProperties dev) / 16)
    by (apply Z.div_le_mono; nia).
  lia.
Qed.

Lemma wave_limit_is_monotone_witness :
  CalcMaxWavesPerSh exDevice 4 <= CalcMaxWavesPerSh exDevice 32.
Proof.
  apply (wave_limit_is_monotone exDevice 4 32);
    [lia | vm_compute; discriminate | vm_compute; reflexivity].
Defined.
